(** * Pricing, discounts, order lifecycle and event relay of the SE backend

    A shallow embedding of
      - apps/orders/services/pricing.py
      - apps/promotion/services.py (evaluate_discounts)
      - apps/orders/models.py (Order and its transition methods)
      - apps/orders/views.py (order creation, price preview, action view)
      - apps/staff/eventbus.py (the relay's per-message normalisation)
    followed by the properties stated about them.

    Conventions.  Money is an integer number of cents ([Z]).  Python
    [Decimal] values are modelled exactly, as a coefficient and a number of
    decimal places; the arithmetic context's 28-digit precision is never
    reached by the prices, percentages and quantities of the schema, so the
    operations are the exact ones.  Database tables are lists of rows in
    storage order, and an unordered queryset yields rows in that order. *)

From Stdlib Require Import ZArith List Bool String Ascii Lia Permutation.
Import ListNotations.
Local Open Scope string_scope.
Local Open Scope list_scope.
Local Open Scope Z_scope.

(* ------------------------------------------------------------------ *)
(** * Decimal arithmetic *)

Module Dec.

Record Decimal : Type := mkDec { coef : Z; places : nat }.

Definition pow10 (n : nat) : Z := 10 ^ Z.of_nat n.

Definition of_Z (z : Z) : Decimal := mkDec z 0.

Definition one : Decimal := of_Z 1.

Definition zero : Decimal := of_Z 0.

(** Coefficient of [a] rescaled to [p >= places a] decimal places. *)
Definition rescale (a : Decimal) (p : nat) : Z :=
  coef a * pow10 (p - places a).

Definition add (a b : Decimal) : Decimal :=
  let p := Nat.max (places a) (places b) in
  mkDec (rescale a p + rescale b p) p.

Definition sub (a b : Decimal) : Decimal :=
  let p := Nat.max (places a) (places b) in
  mkDec (rescale a p - rescale b p) p.

Definition mul (a b : Decimal) : Decimal :=
  mkDec (coef a * coef b) (places a + places b).

(** [x / Decimal("100")]. *)
Definition div100 (a : Decimal) : Decimal :=
  mkDec (coef a) (places a + 2).

(** Truthiness of a Decimal: zero is falsy. *)
Definition truthy (a : Decimal) : bool := negb (coef a =? 0).

Definition ltb (a b : Decimal) : bool :=
  let p := Nat.max (places a) (places b) in rescale a p <? rescale b p.

Definition eqb (a b : Decimal) : bool :=
  let p := Nat.max (places a) (places b) in rescale a p =? rescale b p.

(** [x.quantize(Decimal("1"), rounding=ROUND_HALF_UP)], as an integer:
    nearest integer, ties away from zero. *)
Definition round_half_up (a : Decimal) : Z :=
  Z.sgn (coef a) *
  ((2 * Z.abs (coef a) + pow10 (places a)) / (2 * pow10 (places a))).

End Dec.

Abbreviation Decimal := Dec.Decimal.

(* ------------------------------------------------------------------ *)
(** * apps/catalog/models.py: the rows read by pricing *)

Module Catalog.

Record MenuItem : Type := mkMenuItem {
  item_id : Z;
  item_code : string;
  item_name : string;
  item_base_price_cents : Z;
  item_active : bool
}.

Record ItemOptionGroup : Type := mkItemOptionGroup {
  iog_group_id : Z;
  iog_item_id : Z;
  iog_name : string;
  iog_price_mode : string
}.

Record ItemOption : Type := mkItemOption {
  io_option_id : Z;
  io_group : ItemOptionGroup;
  io_name : string;
  io_price_delta_cents : Z;
  io_multiplier : option Decimal
}.

Record ServingStyle : Type := mkServingStyle {
  style_id : Z;
  style_code : string;
  style_name : string;
  style_price_mode : string;
  style_price_value : Decimal
}.

Record DinnerType : Type := mkDinnerType {
  dinner_type_id : Z;
  dinner_code : string;
  dinner_name : string;
  dinner_base_price_cents : Z;
  dinner_active : bool
}.

Record DinnerOptionGroup : Type := mkDinnerOptionGroup {
  dog_group_id : Z;
  dog_dinner_type_id : Z;
  dog_name : string;
  dog_price_mode : string
}.

Record DinnerOption : Type := mkDinnerOption {
  do_option_id : Z;
  do_group : DinnerOptionGroup;
  do_item : option MenuItem;
  do_name : option string;
  do_price_delta_cents : Z;
  do_multiplier : option Decimal
}.

Record DinnerTypeDefaultItem : Type := mkDefaultItem {
  di_dinner_type_id : Z;
  di_item : MenuItem;
  di_default_qty : Decimal;
  di_included_in_base : bool
}.

(** The catalog tables, each in storage order. *)
Record Tables : Type := mkTables {
  menu_items : list MenuItem;
  item_options : list ItemOption;
  serving_styles : list ServingStyle;
  dinner_types : list DinnerType;
  dinner_style_allowed : list (Z * Z);
  dinner_options : list DinnerOption;
  default_items : list DinnerTypeDefaultItem
}.

End Catalog.

(* ------------------------------------------------------------------ *)
(** * apps/orders/services/pricing.py *)

Module Pricing.
Import Catalog.

Definition as_cents_dec (x : Decimal) : Decimal :=
  Dec.of_Z (Dec.round_half_up x).

Definition as_cents_int (x : Decimal) : Z := Dec.round_half_up x.

(** [s or "addon"]. *)
Definition mode_or_addon (s : string) : string :=
  if String.eqb s "" then "addon" else s.

Definition is_addon (mode : string) : bool :=
  String.eqb (mode_or_addon mode) "addon".

(** [Decimal(m or "1")]: a missing or zero multiplier counts as one. *)
Definition multiplier_or_one (m : option Decimal) : Decimal :=
  match m with
  | Some d => if Dec.truthy d then d else Dec.one
  | None => Dec.one
  end.

Definition validate_style_allowed (t : Tables) (dinner : DinnerType)
  (style : ServingStyle) : bool :=
  existsb (fun p => (fst p =? dinner_type_id dinner)
                    && (snd p =? style_id style))
          (dinner_style_allowed t).

Definition mem_Z (x : Z) (l : list Z) : bool := existsb (Z.eqb x) l.

(** Returns the selected options, or the ids of the options that belong to
    another item. *)
Definition validate_item_options_for_item (t : Tables) (item : MenuItem)
  (option_ids : list Z) : list Z + list ItemOption :=
  match option_ids with
  | [] => inr []
  | _ =>
    let opts := filter (fun o => mem_Z (io_option_id o) option_ids)
                       (item_options t) in
    let bad := map io_option_id
                 (filter (fun o => negb (iog_item_id (io_group o)
                                         =? item_id item)) opts) in
    match bad with
    | [] => inr opts
    | _ => inl bad
    end
  end.

Fixpoint dedup_Z (l : list Z) : list Z :=
  match l with
  | [] => []
  | x :: r => if mem_Z x r then dedup_Z r else x :: dedup_Z r
  end.

(** [None] is the ValueError.  The rows come back in the order of the
    query, whatever the order of [opt_ids]. *)
Definition resolve_dinner_options_for_dinner (t : Tables)
  (dinner : DinnerType) (opt_ids : list Z) : option (list DinnerOption) :=
  match opt_ids with
  | [] => Some []
  | _ =>
    let opts := filter (fun o => mem_Z (do_option_id o) opt_ids
                          && (dog_dinner_type_id (do_group o)
                              =? dinner_type_id dinner))
                       (dinner_options t) in
    if (List.length opts =? List.length (dedup_Z opt_ids))%nat
    then Some opts else None
  end.

(** An option snapshot as built by [calc_item_unit_cents]. *)
Record Snap : Type := mkSnap {
  snap_option_group_name : string;
  snap_option_name : string;
  snap_price_delta_cents : Z;
  snap_multiplier : option Decimal
}.

(** The loop state of [calc_item_unit_cents]: addon, mult, snaps. *)
Definition calc_step (st : Decimal * Decimal * list Snap) (o : ItemOption)
  : Decimal * Decimal * list Snap :=
  let '(addon, mult, snaps) := st in
  let g := io_group o in
  if is_addon (iog_price_mode g) then
    (Dec.add addon (Dec.of_Z (io_price_delta_cents o)), mult,
     snaps ++ [mkSnap (iog_name g) (io_name o)
                      (io_price_delta_cents o) None])
  else
    let m := multiplier_or_one (io_multiplier o) in
    (addon, Dec.mul mult m,
     snaps ++ [mkSnap (iog_name g) (io_name o) 0 (Some m)]).

Definition calc_item_unit_cents (item : MenuItem)
  (selected_opts : list ItemOption) : Z * list Snap :=
  let base := Dec.of_Z (item_base_price_cents item) in
  let '(addon, mult, snaps) :=
    fold_left calc_step selected_opts (Dec.zero, Dec.one, []) in
  let unit_dec := as_cents_dec (Dec.mul (Dec.add base addon) mult) in
  (Dec.coef unit_dec, snaps).

(** Returns (dinner unit price after the style, adjustment). *)
Definition apply_style_to_base (dinner : DinnerType) (style : ServingStyle)
  : Z * Z :=
  let base := Dec.of_Z (dinner_base_price_cents dinner) in
  if is_addon (style_price_mode style) then
    let inc := style_price_value style in
    let new_base := Dec.add base inc in
    (as_cents_int new_base, as_cents_int inc)
  else
    let m := if Dec.truthy (style_price_value style)
             then style_price_value style else Dec.one in
    let new_base := as_cents_dec (Dec.mul base m) in
    (Dec.coef new_base, as_cents_int (Dec.sub new_base base)).

End Pricing.

(* ------------------------------------------------------------------ *)
(** * Python string methods used by the services (ASCII text) *)

Module Str.

Definition is_space (c : ascii) : bool :=
  let n := nat_of_ascii c in
  ((n =? 32) || ((9 <=? n) && (n <=? 13)) || ((28 <=? n) && (n <=? 31)))%nat.

Definition upper_ascii (c : ascii) : ascii :=
  let n := nat_of_ascii c in
  if ((97 <=? n) && (n <=? 122))%nat then ascii_of_nat (n - 32) else c.

Definition lower_ascii (c : ascii) : ascii :=
  let n := nat_of_ascii c in
  if ((65 <=? n) && (n <=? 90))%nat then ascii_of_nat (n + 32) else c.

Fixpoint map_chars (f : ascii -> ascii) (s : string) : string :=
  match s with
  | EmptyString => EmptyString
  | String c r => String (f c) (map_chars f r)
  end.

Definition upper : string -> string := map_chars upper_ascii.

Definition lower : string -> string := map_chars lower_ascii.

Fixpoint lstrip (s : string) : string :=
  match s with
  | EmptyString => EmptyString
  | String c r => if is_space c then lstrip r else s
  end.

Fixpoint rstrip (s : string) : string :=
  match s with
  | EmptyString => EmptyString
  | String c r =>
    let r' := rstrip r in
    if is_space c && String.eqb r' "" then EmptyString else String c r'
  end.

Definition strip (s : string) : string := rstrip (lstrip s).

(** [a or b] on strings. *)
Definition or_else (a b : string) : string :=
  if String.eqb a "" then b else a.

End Str.

(* ------------------------------------------------------------------ *)
(** * apps/promotion: models and evaluate_discounts *)

Module Promotion.

Record Membership : Type := mkMembership {
  m_customer_id : Z;
  m_label : string;
  m_percent_off : Decimal;
  m_active : bool;
  m_valid_from : option Z;
  m_valid_until : option Z
}.

Record Coupon : Type := mkCoupon {
  code : string;
  name : string;
  label : string;
  active : bool;
  kind : string;
  value : Decimal;
  valid_from : option Z;
  valid_until : option Z;
  min_subtotal_cents : option Z;
  max_discount_cents : option Z;
  stackable_with_membership : bool;
  stackable_with_coupons : bool;
  channel : string;
  max_redemptions_global : option Z;
  max_redemptions_per_user : option Z
}.

Record CouponRedemption : Type := mkRedemption {
  r_coupon : string;
  r_customer_id : Z;
  r_order_id : Z;
  r_amount_cents : Z;
  r_channel : string
}.

Record Store : Type := mkStore {
  memberships : list Membership;
  coupons : list Coupon;
  redemptions : list CouponRedemption
}.

(** A discount line: the dict with keys type, label, code, amount_cents. *)
Record Line : Type := mkLine {
  l_type : string;
  l_label : string;
  l_code : option string;
  l_amount_cents : Z
}.

(** The window test shared by [Coupon.is_valid_now] and
    [Membership.is_valid_now]; times are instants on one clock. *)
Definition in_window (act : bool) (from until : option Z) (now : Z) : bool :=
  if negb act then false
  else if match from with Some f => now <? f | None => false end then false
  else if match until with Some u => u <? now | None => false end then false
  else true.

Definition membership_is_valid_now (m : Membership) (now : Z) : bool :=
  in_window (m_active m) (m_valid_from m) (m_valid_until m) now.

Definition is_valid_now (c : Coupon) (now : Z) : bool :=
  in_window (active c) (valid_from c) (valid_until c) now.

Definition _qcent (x : Decimal) : Decimal := Dec.of_Z (Dec.round_half_up x).

Definition _normalize_codes (codes : list string) : list string :=
  map (fun c => Str.strip (Str.upper c))
      (filter (fun c => negb (String.eqb (Str.strip c) "")) codes).

(** [if not customer_id]: None and 0 are falsy. *)
Definition customer_truthy (customer_id : option Z) : bool :=
  match customer_id with Some n => negb (n =? 0) | None => false end.

Definition _membership_line (s : Store) (now : Z) (customer_id : option Z)
  (subtotal_cents : Z) : option Line :=
  match customer_id with
  | None => None
  | Some cid =>
    if cid =? 0 then None else
    match find (fun m => (m_customer_id m =? cid) && m_active m)
               (memberships s) with
    | None => None
    | Some m =>
      if negb (membership_is_valid_now m now) then None else
      let pct := Dec.div100 (m_percent_off m) in
      let amt := _qcent (Dec.mul (Dec.of_Z subtotal_cents) pct) in
      if Dec.coef amt <=? 0 then None
      else Some (mkLine "membership" (Str.or_else (m_label m) "Membership")
                        None (Dec.coef amt))
    end
  end.

Definition _coupon_amount (coupon : Coupon) (base_amount_cents : Z) : Z :=
  let amt :=
    if String.eqb (kind coupon) "percent" then
      let pct := Dec.div100 (value coupon) in
      Dec.coef (_qcent (Dec.mul (Dec.of_Z base_amount_cents) pct))
    else Dec.coef (_qcent (value coupon)) in
  let amt := match max_discount_cents coupon with
             | Some cap => Z.min amt cap
             | None => amt
             end in
  Z.max 0 amt.

(** [{c.code: c for c in Coupon.objects.filter(code__in=codes)}.get(k)]. *)
Definition coupons_get (s : Store) (codes : list string) (k : string)
  : option Coupon :=
  fold_left (fun acc c => if String.eqb (code c) k then Some c else acc)
            (filter (fun c => existsb (String.eqb (code c)) codes)
                    (coupons s))
            None.

Definition count_redemptions (s : Store) (p : CouponRedemption -> bool) : Z :=
  Z.of_nat (List.length (filter p (redemptions s))).

(** One turn of the candidate loop: the checks in the order of the source,
    then the amount against [running]. *)
Definition candidate (s : Store) (now : Z) (subtotal_cents : Z)
  (customer_id : option Z) (chan : string) (membership : option Line)
  (running : Z) (codes : list string) (k : string) : option (Coupon * Z) :=
  match coupons_get s codes (Str.upper k) with
  | None => None
  | Some c =>
    if negb (is_valid_now c now) then None
    else if negb (String.eqb (channel c) "ANY"
                  || String.eqb (channel c) (Str.or_else chan "GUI"))
    then None
    else if match min_subtotal_cents c with
            | Some ms => subtotal_cents <? ms
            | None => false
            end
    then None
    else if match max_redemptions_per_user c, customer_id with
            | Some cap, Some cid =>
              negb (cid =? 0)
              && (cap <=? count_redemptions s (fun r =>
                     String.eqb (r_coupon r) (code c)
                     && (r_customer_id r =? cid)))
            | _, _ => false
            end
    then None
    else if match max_redemptions_global c with
            | Some cap =>
              cap <=? count_redemptions s (fun r =>
                        String.eqb (r_coupon r) (code c))
            | None => false
            end
    then None
    else if match membership with Some _ => true | None => false end
            && negb (stackable_with_membership c)
    then None
    else
      let amount := _coupon_amount c running in
      if 0 <? amount then Some (c, amount) else None
  end.

Definition coupon_line (c : Coupon) (amt : Z) : Line :=
  mkLine "coupon" (Str.or_else (label c) (Str.or_else (name c) (code c)))
         (Some (code c)) amt.

(** [max(eligible, key=lambda t: t[1])]: the first pair of greatest
    amount. *)
Definition best_of (first : Coupon * Z) (rest : list (Coupon * Z))
  : Coupon * Z :=
  fold_left (fun b t => if snd b <? snd t then t else b) rest first.

(** The stacking loop: state is (running, discounts). *)
Definition stack_step (st : Z * list Line) (t : Coupon * Z)
  : Z * list Line :=
  let '(running, discounts) := st in
  let amt := Z.min (snd t) running in
  if amt <=? 0 then st
  else (Dec.coef (_qcent (Dec.of_Z (running - amt))),
        discounts ++ [coupon_line (fst t) amt]).

Definition sum_amounts (discounts : list Line) : Z :=
  fold_right (fun d acc => l_amount_cents d + acc) 0 discounts.

Definition evaluate_discounts (s : Store) (now : Z) (subtotal_cents : Z)
  (customer_id : option Z) (chan : string) (coupon_codes : list string)
  : list Line * Z * Z :=
  let membership := _membership_line s now customer_id subtotal_cents in
  let running := subtotal_cents in
  let '(running, discounts) :=
    match membership with
    | Some m =>
      (Dec.coef (_qcent (Dec.of_Z (running - l_amount_cents m))), [m])
    | None => (running, [])
    end in
  let codes := _normalize_codes coupon_codes in
  match codes with
  | [] => (discounts, sum_amounts discounts, running)
  | _ =>
    let eligible :=
      flat_map (fun k =>
        match candidate s now subtotal_cents customer_id chan membership
                        running codes k with
        | Some t => [t]
        | None => []
        end) codes in
    match eligible with
    | [] => (discounts, sum_amounts discounts, running)
    | first :: rest =>
      if existsb (fun t => negb (stackable_with_coupons (fst t))) eligible
      then
        let best := best_of first rest in
        let apply_amt := Z.min (snd best) running in
        let running := Dec.coef (_qcent (Dec.of_Z (running - apply_amt))) in
        let discounts := discounts ++ [coupon_line (fst best) apply_amt] in
        (discounts, sum_amounts discounts, running)
      else
        let '(running, discounts) :=
          fold_left stack_step eligible (running, discounts) in
        (discounts, sum_amounts discounts,
         Dec.coef (_qcent (Dec.of_Z running)))
    end
  end.

End Promotion.

(* ------------------------------------------------------------------ *)
(** * apps/orders/models.py: Order, its operation log and transitions *)

Module Orders.

Inductive OrderStatus : Type :=
  | PENDING | PREP | OUT | DELIVERED | CANCELED.

Definition status_value (s : OrderStatus) : string :=
  match s with
  | PENDING => "pending"
  | PREP => "preparing"
  | OUT => "out_for_delivery"
  | DELIVERED => "delivered"
  | CANCELED => "canceled"
  end.

Definition status_eqb (a b : OrderStatus) : bool :=
  match a, b with
  | PENDING, PENDING | PREP, PREP | OUT, OUT
  | DELIVERED, DELIVERED | CANCELED, CANCELED => true
  | _, _ => false
  end.

(** One entry of [meta["staff_ops"]]. *)
Record StaffOp : Type := mkStaffOp {
  op_event : string;
  op_by : option Z;
  op_at : Z;
  op_note : string
}.

Record Order : Type := mkOrder {
  id : Z;
  customer_id : Z;
  status : OrderStatus;
  order_source : string;
  subtotal_cents : Z;
  discount_cents : Z;
  total_cents : Z;
  meta_discounts : list Promotion.Line;
  staff_ops : list StaffOp
}.

Definition set_status (o : Order) (s : OrderStatus) : Order :=
  mkOrder (id o) (customer_id o) s (order_source o) (subtotal_cents o)
          (discount_cents o) (total_cents o) (meta_discounts o) (staff_ops o).

Definition set_staff_ops (o : Order) (ops : list StaffOp) : Order :=
  mkOrder (id o) (customer_id o) (status o) (order_source o)
          (subtotal_cents o) (discount_cents o) (total_cents o)
          (meta_discounts o) ops.

(** The message handed to [json.dumps] by [_notify]. *)
Record Msg : Type := mkMsg {
  msg_event : string;
  msg_order_id : Z;
  msg_status : option string;
  msg_ready : option bool;
  msg_reason : option string
}.

(** The closure [_do_notify]: the channels and the encoded message. *)
Record Hook : Type := mkHook {
  hook_channels : list string;
  hook_msg : Msg
}.

(** The database connection as the transitions see it: the depth of open
    [atomic] blocks, the functions registered with [on_commit], the order's
    row as written inside the transaction, the row as last committed, and
    the notifications sent with pg_notify. *)
Record Conn : Type := mkConn {
  atomic_depth : nat;
  run_on_commit : list Hook;
  row : Order;
  committed : Order;
  notified : list (string * Msg)
}.

(** What can go wrong inside [_notify]: the settings lookup, the JSON
    encoding, the execution of pg_notify. *)
Record Env : Type := mkEnv {
  settings_ok : bool;
  notify_channels : list string;
  json_ok : bool;
  pg_notify_ok : bool
}.

Inductive Exn : Type :=
  | DomainError (msg : string)
  | SettingsError
  | EncodeError
  | DatabaseError.

Definition _append_staff_op (self : Order) (event : string) (by_ : option Z)
  (note : option string) (now : Z) : Order :=
  let ops := staff_ops self in
  set_staff_ops self
    (ops ++ [mkStaffOp event by_ now
                       (match note with Some n => n | None => "" end)]).

(** [_do_notify]: one pg_notify per channel. *)
Definition _do_notify (env : Env) (h : Hook) (c : Conn) : Exn + Conn :=
  if pg_notify_ok env then
    inr (mkConn (atomic_depth c) (run_on_commit c) (row c) (committed c)
                (notified c ++ map (fun ch => (ch, hook_msg h))
                                   (hook_channels h)))
  else inl DatabaseError.

(** The body of the [try] in [_notify]. *)
Definition notify_body (env : Env) (msg : Msg) (c : Conn) : Exn + Conn :=
  if negb (settings_ok env) then inl SettingsError
  else if negb (json_ok env) then inl EncodeError
  else
    let h := mkHook (notify_channels env) msg in
    if (0 <? atomic_depth c)%nat then
      inr (mkConn (atomic_depth c) (run_on_commit c ++ [h]) (row c)
                  (committed c) (notified c))
    else _do_notify env h c.

(** [try: ... except Exception: pass]. *)
Definition _notify (env : Env) (msg : Msg) (c : Conn) : Conn :=
  match notify_body env msg c with
  | inr c' => c'
  | inl _ => c
  end.

Definition atomic_enter (c : Conn) : Conn :=
  mkConn (S (atomic_depth c)) (run_on_commit c) (row c) (committed c)
         (notified c).

(** Django runs the functions registered with [on_commit] right after the
    outermost block has committed; they are registered with the default
    [robust=False], so the first one that raises ends the run and its
    exception leaves the [with] statement. *)
Fixpoint run_commit_hooks (env : Env) (hooks : list Hook) (c : Conn)
  : Conn * (Exn + unit) :=
  match hooks with
  | [] => (c, inr tt)
  | h :: rest =>
    match _do_notify env h c with
    | inl e => (c, inl e)
    | inr c' => run_commit_hooks env rest c'
    end
  end.

(** Leaving an [atomic] block without an exception. *)
Definition atomic_exit (env : Env) (c : Conn) : Conn * (Exn + unit) :=
  match atomic_depth c with
  | S O =>
    run_commit_hooks env (run_on_commit c)
      (mkConn O [] (row c) (row c) (notified c))
  | d => (mkConn (Nat.pred d) (run_on_commit c) (row c) (committed c)
                 (notified c), inr tt)
  end.

(** [self.save(update_fields=["status", "meta"])]. *)
Definition save_status_meta (self : Order) (c : Conn) : Conn :=
  mkConn (atomic_depth c) (run_on_commit c)
         (set_staff_ops (set_status (row c) (status self)) (staff_ops self))
         (committed c) (notified c).

(** [self.save(update_fields=["meta"])]. *)
Definition save_meta (self : Order) (c : Conn) : Conn :=
  mkConn (atomic_depth c) (run_on_commit c)
         (set_staff_ops (row c) (staff_ops self))
         (committed c) (notified c).

(** The result of a transition method: the object, the connection, and
    the exception if one left the method. *)
Definition Outcome : Type := Order * Conn * (Exn + unit).

Definition accept (env : Env) (now : Z) (by_staff_id : option Z)
  (self : Order) (c : Conn) : Outcome :=
  if negb (status_eqb (status self) PENDING) then
    (self, c, inl (DomainError "Only pending orders can be accepted."))
  else
    let c := atomic_enter c in
    let self := set_status self PREP in
    let self := _append_staff_op self "accept" by_staff_id None now in
    let c := save_status_meta self c in
    let c := _notify env (mkMsg "order_status_changed" (id self)
                           (Some (status_value (status self))) None None) c in
    let '(c, r) := atomic_exit env c in
    (self, c, r).

Definition mark_ready (env : Env) (now : Z) (by_staff_id : option Z)
  (self : Order) (c : Conn) : Outcome :=
  if negb (status_eqb (status self) PREP) then
    (self, c, inl (DomainError "Only preparing orders can be marked ready."))
  else
    let c := atomic_enter c in
    let self := _append_staff_op self "mark_ready" by_staff_id None now in
    let c := save_meta self c in
    let c := _notify env (mkMsg "order_updated" (id self)
                           None (Some true) None) c in
    let '(c, r) := atomic_exit env c in
    (self, c, r).

Definition out_for_delivery (env : Env) (now : Z) (by_staff_id : option Z)
  (self : Order) (c : Conn) : Outcome :=
  if negb (status_eqb (status self) PREP) then
    (self, c,
     inl (DomainError "Only preparing orders can go out for delivery."))
  else
    let c := atomic_enter c in
    let self := set_status self OUT in
    let self := _append_staff_op self "out_for_delivery" by_staff_id None
                                 now in
    let c := save_status_meta self c in
    let c := _notify env (mkMsg "order_status_changed" (id self)
                           (Some (status_value (status self))) None None) c in
    let '(c, r) := atomic_exit env c in
    (self, c, r).

Definition deliver (env : Env) (now : Z) (by_staff_id : option Z)
  (self : Order) (c : Conn) : Outcome :=
  if negb (status_eqb (status self) OUT) then
    (self, c,
     inl (DomainError "Only orders out for delivery can be delivered."))
  else
    let c := atomic_enter c in
    let self := set_status self DELIVERED in
    let self := _append_staff_op self "deliver" by_staff_id None now in
    let c := save_status_meta self c in
    let c := _notify env (mkMsg "order_status_changed" (id self)
                           (Some (status_value (status self))) None None) c in
    let '(c, r) := atomic_exit env c in
    (self, c, r).

Definition cancel (env : Env) (now : Z) (by_staff_id : option Z)
  (reason : option string) (self : Order) (c : Conn) : Outcome :=
  if status_eqb (status self) DELIVERED || status_eqb (status self) CANCELED
  then
    (self, c,
     inl (DomainError "Cannot cancel already completed/canceled order."))
  else
    let c := atomic_enter c in
    let self := set_status self CANCELED in
    let self := _append_staff_op self "cancel" by_staff_id reason now in
    let c := save_status_meta self c in
    let c := _notify env (mkMsg "order_status_changed" (id self)
                           (Some (status_value (status self))) None
                           (Some (match reason with
                                  | Some r => r | None => "" end))) c in
    let '(c, r) := atomic_exit env c in
    (self, c, r).

End Orders.

(* ------------------------------------------------------------------ *)
(** * apps/orders/views.py: creation, price preview and the action view *)

Module OrderViews.
Import Catalog Pricing.

(** ** Validated request data *)

Record ItemSel : Type := mkItemSel {
  sel_code : string;
  sel_qty : Decimal;
  sel_options : list Z
}.

Record OverrideSel : Type := mkOverrideSel {
  ov_code : string;
  ov_qty : Decimal
}.

Record DinnerSel : Type := mkDinnerSel {
  d_code : string;
  d_quantity : Decimal;
  d_style : string;
  d_dinner_options : list Z;
  d_default_overrides : list OverrideSel
}.

Record CreateRequest : Type := mkCreateRequest {
  req_customer_id : Z;
  req_order_source : string;
  req_dinner : DinnerSel;
  req_items : list ItemSel;
  req_coupons : list string
}.

Record PreviewRequest : Type := mkPreviewRequest {
  prev_customer_id : option Z;
  prev_order_source : string;
  prev_dinner : DinnerSel;
  prev_items : list ItemSel;
  prev_coupons : list string
}.

(** ** Rows written by order creation *)

Record OrderDinner : Type := mkOrderDinner {
  od_dinner_type : DinnerType;
  od_style : ServingStyle;
  od_quantity : Decimal;
  od_base_price_cents : Z;
  od_style_adjust_cents : Z
}.

Record OrderDinnerOption : Type := mkOrderDinnerOption {
  odo_option_group_name : string;
  odo_option_name : string;
  odo_price_delta_cents : Z;
  odo_multiplier : option Decimal
}.

Record OrderDinnerItem : Type := mkOrderDinnerItem {
  odi_item : MenuItem;
  odi_final_qty : Decimal;
  odi_unit_price_cents : Z;
  odi_is_default : bool;
  odi_change_type : string
}.

(** An option row hangs on the order-dinner item of [oio_item_id]; that
    item is unique within the order dinner. *)
Record OrderItemOption : Type := mkOrderItemOption {
  oio_item_id : Z;
  oio_option_group_name : string;
  oio_option_name : string;
  oio_price_delta_cents : Z;
  oio_multiplier : option Decimal
}.

(** The 400 responses of creation and preview. *)
Inductive BadRequest : Type :=
  | InvalidCustomer
  | InvalidDinnerCode
  | InvalidDinnerStyle
  | StyleNotAllowed
  | InvalidDinnerOptions
  | InvalidOverrideCode (code : string)
  | InvalidOverrideQty (code : string) (orig : Decimal)
  | InvalidItemCode (code : string)
  | InvalidItemOptions (bad : list Z).

(** The created order with its rows (the 201 response).  The redemption
    ledger, written last by [redeem_discounts], is kept out of it. *)
Record Created : Type := mkCreated {
  c_order : Orders.Order;
  c_dinner : OrderDinner;
  c_dinner_options : list OrderDinnerOption;
  c_items : list OrderDinnerItem;
  c_item_options : list OrderItemOption
}.

(** ** Shared steps *)

(** The dinner-option loop of both views: state is
    (unit_cents, opt_deltas).  [one] is the literal the view subtracts,
    Decimal("1") in creation and Decimal("1.0") in the preview. *)
Definition dinner_option_delta (one : Decimal) (unit_cents : Z)
  (dop : DinnerOption) : Z :=
  if is_addon (dog_price_mode (do_group dop)) then do_price_delta_cents dop
  else
    let m := match do_multiplier dop with
             | Some d => if Dec.truthy d then d else one
             | None => one
             end in
    as_cents_int (Dec.mul (Dec.of_Z unit_cents) (Dec.sub m one)).

Definition dinner_option_step (one : Decimal) (st : Z * list Z)
  (dop : DinnerOption) : Z * list Z :=
  let '(unit_cents, opt_deltas) := st in
  let delta := dinner_option_delta one unit_cents dop in
  (unit_cents + delta, opt_deltas ++ [delta]).

Definition dinner_options_loop (one : Decimal) (unit_cents : Z)
  (dinner_opts : list DinnerOption) : Z * list Z :=
  fold_left (dinner_option_step one) dinner_opts (unit_cents, []).

(** [Decimal(dsel.get("quantity") or "1")]. *)
Definition quantity_or_one (q : Decimal) : Decimal :=
  if Dec.truthy q then q else Dec.one.

Definition find_dinner (t : Tables) (c : string) : option DinnerType :=
  find (fun d => String.eqb (dinner_code d) c && dinner_active d)
       (dinner_types t).

Definition find_style (t : Tables) (c : string) : option ServingStyle :=
  find (fun s => String.eqb (style_code s) c) (serving_styles t).

Definition find_item (t : Tables) (c : string) : option MenuItem :=
  find (fun i => String.eqb (item_code i) c && item_active i)
       (menu_items t).

(** [.order_by("item__name")]. *)
Fixpoint insert_by_name (d : DinnerTypeDefaultItem)
  (l : list DinnerTypeDefaultItem) : list DinnerTypeDefaultItem :=
  match l with
  | [] => [d]
  | x :: r =>
    if String.leb (item_name (di_item d)) (item_name (di_item x))
    then d :: l else x :: insert_by_name d r
  end.

Definition defaults_by_name (t : Tables) (dinner : DinnerType)
  : list DinnerTypeDefaultItem :=
  fold_right insert_by_name []
    (filter (fun d => di_dinner_type_id d =? dinner_type_id dinner)
            (default_items t)).

Definition dinner_option_name (dop : DinnerOption) : string :=
  match do_item dop with
  | Some it => item_name it
  | None => match do_name dop with Some n => n | None => "" end
  end.

Definition default_row (di : DinnerTypeDefaultItem) : OrderDinnerItem :=
  mkOrderDinnerItem (di_item di) (di_default_qty di)
    (if di_included_in_base di then 0
     else item_base_price_cents (di_item di))
    true "unchanged".

(** ** OrderListCreateAPIView.post *)

(** [created_default_map[code]]: the default quantity of the last default
    row of that item code. *)
Definition default_qty_of (defaults : list DinnerTypeDefaultItem)
  (c : string) : option Decimal :=
  fold_left (fun acc d =>
               if String.eqb (item_code (di_item d)) c
               then Some (di_default_qty d) else acc)
            defaults None.

Definition override_tag (qty_override orig : Decimal) : string :=
  if Dec.eqb qty_override Dec.zero then "removed"
  else if Dec.ltb qty_override orig then "decreased"
  else "unchanged".

(** Rewrites final_qty and change_type of the row of item code [c]. *)
Definition apply_override (c : string) (q : Decimal) (tag : string)
  (rows : list OrderDinnerItem) : list OrderDinnerItem :=
  map (fun r =>
         if String.eqb (item_code (odi_item r)) c
         then mkOrderDinnerItem (odi_item r) q (odi_unit_price_cents r)
                                (odi_is_default r) tag
         else r) rows.

Fixpoint overrides_loop (defaults : list DinnerTypeDefaultItem)
  (ovs : list OverrideSel) (rows : list OrderDinnerItem)
  : BadRequest + list OrderDinnerItem :=
  match ovs with
  | [] => inr rows
  | ov :: rest =>
    let c := Str.strip (ov_code ov) in
    let qty_override := ov_qty ov in
    match default_qty_of defaults c with
    | None => inl (InvalidOverrideCode c)
    | Some orig =>
      if Dec.ltb qty_override Dec.zero || Dec.ltb orig qty_override
      then inl (InvalidOverrideQty c orig)
      else overrides_loop defaults rest
             (apply_override c qty_override
                             (override_tag qty_override orig) rows)
    end
  end.

(** [OrderDinnerItem.objects.get_or_create(order_dinner=od, item=item,
    defaults=...)] followed by the merge of an existing row. *)
Fixpoint get_or_create_item (item : MenuItem) (qty_item : Decimal)
  (unit_item_cents : Z) (rows : list OrderDinnerItem)
  : list OrderDinnerItem :=
  match rows with
  | [] => [mkOrderDinnerItem item qty_item unit_item_cents false "added"]
  | r :: rest =>
    if item_id (odi_item r) =? item_id item then
      mkOrderDinnerItem (odi_item r) (Dec.add (odi_final_qty r) qty_item)
        (odi_unit_price_cents r) (odi_is_default r)
        (if odi_is_default r && String.eqb (odi_change_type r) "unchanged"
         then "added" else odi_change_type r)
      :: rest
    else r :: get_or_create_item item qty_item unit_item_cents rest
  end.

Definition option_row (item : MenuItem) (sopt : Snap) : OrderItemOption :=
  mkOrderItemOption (item_id item) (snap_option_group_name sopt)
    (snap_option_name sopt) (snap_price_delta_cents sopt) None.

(** The free-item loop; state is (subtotal, item rows, option rows). *)
Fixpoint items_loop (t : Tables) (items : list ItemSel)
  (st : Z * list OrderDinnerItem * list OrderItemOption)
  : BadRequest + (Z * list OrderDinnerItem * list OrderItemOption) :=
  match items with
  | [] => inr st
  | it :: rest =>
    let '(subtotal, rows, opt_rows) := st in
    match find_item t (sel_code it) with
    | None => inl (InvalidItemCode (sel_code it))
    | Some item =>
      match validate_item_options_for_item t item (sel_options it) with
      | inl bad => inl (InvalidItemOptions bad)
      | inr sel_opts =>
        let '(unit_item_cents, snaps) :=
          calc_item_unit_cents item sel_opts in
        let qty_item := sel_qty it in
        let line_sub :=
          as_cents_int (Dec.mul (Dec.of_Z unit_item_cents) qty_item) in
        items_loop t rest
          (subtotal + line_sub,
           get_or_create_item item qty_item unit_item_cents rows,
           opt_rows ++ map (option_row item) snaps)
      end
    end
  end.

Definition create_post (t : Tables) (customers : list Z)
  (s : Promotion.Store) (now : Z) (new_id : Z) (data : CreateRequest)
  : BadRequest + Created :=
  if negb (mem_Z (req_customer_id data) customers) then inl InvalidCustomer
  else
  let dsel := req_dinner data in
  match find_dinner t (d_code dsel) with
  | None => inl InvalidDinnerCode
  | Some dinner =>
  match find_style t (d_style dsel) with
  | None => inl InvalidDinnerStyle
  | Some style =>
  if negb (validate_style_allowed t dinner style) then inl StyleNotAllowed
  else
  let '(unit_cents, style_adjust_cents) := apply_style_to_base dinner style in
  let qty := quantity_or_one (d_quantity dsel) in
  match resolve_dinner_options_for_dinner t dinner (d_dinner_options dsel)
  with
  | None => inl InvalidDinnerOptions
  | Some dinner_opts =>
  let '(unit_cents, opt_deltas) :=
    dinner_options_loop Dec.one unit_cents dinner_opts in
  let dinner_subtotal :=
    as_cents_int (Dec.mul (Dec.of_Z unit_cents) qty) in
  let od := mkOrderDinner dinner style qty (dinner_base_price_cents dinner)
                          style_adjust_cents in
  let dinner_option_rows :=
    map (fun p => mkOrderDinnerOption (dog_name (do_group (fst p)))
                    (dinner_option_name (fst p)) (snd p) None)
        (combine dinner_opts opt_deltas) in
  let defaults := defaults_by_name t dinner in
  match overrides_loop defaults (d_default_overrides dsel)
                       (map default_row defaults) with
  | inl e => inl e
  | inr rows =>
  match items_loop t (req_items data) (dinner_subtotal, rows, []) with
  | inl e => inl e
  | inr (subtotal, rows, opt_rows) =>
  let '(discounts, total_disc, total_after) :=
    Promotion.evaluate_discounts s now subtotal
      (Some (req_customer_id data))
      (Str.or_else (req_order_source data) "GUI") (req_coupons data) in
  inr (mkCreated
         (Orders.mkOrder new_id (req_customer_id data) Orders.PENDING
            (req_order_source data) subtotal total_disc total_after
            discounts [])
         od dinner_option_rows rows opt_rows)
  end end end end end.

(** ** OrderPricePreviewAPIView.post *)

Record LineItemOut : Type := mkLineItemOut {
  li_item_code : string;
  li_name : string;
  li_qty : Decimal;
  li_unit_price_cents : Z;
  li_options : list Snap;
  li_subtotal_cents : Z
}.

Record Adjustment : Type := mkAdjustment {
  adj_type : string;
  adj_label : string;
  adj_mode : string;
  adj_value_cents : Z
}.

Record Preview : Type := mkPreview {
  p_line_items : list LineItemOut;
  p_adjustments : list Adjustment;
  p_subtotal_cents : Z;
  p_discounts : list Promotion.Line;
  p_discount_cents : Z;
  p_total_cents : Z
}.

Definition dec_1_0 : Decimal := Dec.mkDec 10 1.

Definition preview_option_label (dop : DinnerOption) : string :=
  match do_name dop with
  | Some n =>
    if String.eqb n "" then
      match do_item dop with Some it => item_name it | None => "Option" end
    else n
  | None =>
    match do_item dop with Some it => item_name it | None => "Option" end
  end.

(** [default_map[code]]: the last default row of that item code. *)
Definition default_of (t : Tables) (dinner : DinnerType) (c : string)
  : option DinnerTypeDefaultItem :=
  fold_left (fun acc d =>
               if String.eqb (item_code (di_item d)) c then Some d else acc)
            (filter (fun d => di_dinner_type_id d =? dinner_type_id dinner)
                    (default_items t))
            None.

Fixpoint preview_overrides (t : Tables) (dinner : DinnerType)
  (ovs : list OverrideSel) (adjustments : list Adjustment)
  : BadRequest + list Adjustment :=
  match ovs with
  | [] => inr adjustments
  | ov :: rest =>
    let c := Str.strip (ov_code ov) in
    match default_of t dinner c with
    | None => inl (InvalidOverrideCode c)
    | Some d =>
      let orig := di_default_qty d in
      let newq := ov_qty ov in
      if Dec.ltb newq Dec.zero || Dec.ltb orig newq
      then inl (InvalidOverrideQty c orig)
      else
        let mode := if Dec.eqb newq Dec.zero then "remove"
                    else if Dec.ltb newq orig then "decrease" else "noop" in
        preview_overrides t dinner rest
          (if String.eqb mode "noop" then adjustments
           else adjustments ++
                [mkAdjustment "default_override" (item_name (di_item d))
                              mode 0])
    end
  end.

(** The item-line loop of the preview; state is (items_total, line_items). *)
Fixpoint preview_items (t : Tables) (items : list ItemSel)
  (st : Z * list LineItemOut) : BadRequest + (Z * list LineItemOut) :=
  match items with
  | [] => inr st
  | it :: rest =>
    let '(items_total, line_items) := st in
    match find_item t (sel_code it) with
    | None => inl (InvalidItemCode (sel_code it))
    | Some item =>
      match validate_item_options_for_item t item (sel_options it) with
      | inl bad => inl (InvalidItemOptions bad)
      | inr sel_opts =>
        let '(unit_item_cents, snaps) :=
          calc_item_unit_cents item sel_opts in
        let qty_item := sel_qty it in
        let line_sub :=
          as_cents_int (Dec.mul (Dec.of_Z unit_item_cents) qty_item) in
        preview_items t rest
          (items_total + line_sub,
           line_items ++
           [mkLineItemOut (item_code item) (item_name item) qty_item
                          unit_item_cents snaps line_sub])
      end
    end
  end.

Definition preview_post (t : Tables) (s : Promotion.Store) (now : Z)
  (data : PreviewRequest) : BadRequest + Preview :=
  let dsel := prev_dinner data in
  match find_dinner t (d_code dsel) with
  | None => inl InvalidDinnerCode
  | Some dinner =>
  match find_style t (d_style dsel) with
  | None => inl InvalidDinnerStyle
  | Some style =>
  if negb (validate_style_allowed t dinner style) then inl StyleNotAllowed
  else
  let '(unit_cents, style_adj) := apply_style_to_base dinner style in
  let qty := quantity_or_one (d_quantity dsel) in
  match resolve_dinner_options_for_dinner t dinner (d_dinner_options dsel)
  with
  | None => inl InvalidDinnerOptions
  | Some dinner_opts =>
  let adjustments :=
    [mkAdjustment "style" (style_name style) "addon" style_adj] in
  let '(unit_cents, opt_deltas) :=
    dinner_options_loop dec_1_0 unit_cents dinner_opts in
  let adjustments :=
    adjustments ++
    map (fun p => mkAdjustment "dinner_option"
                    (preview_option_label (fst p)) "addon" (snd p))
        (combine dinner_opts opt_deltas) in
  match preview_overrides t dinner (d_default_overrides dsel) adjustments
  with
  | inl e => inl e
  | inr adjustments =>
  let dinner_subtotal :=
    as_cents_int (Dec.mul (Dec.of_Z unit_cents) qty) in
  match preview_items t (prev_items data) (0, []) with
  | inl e => inl e
  | inr (items_total, line_items) =>
  let subtotal := dinner_subtotal + items_total in
  let '(discounts, total_disc, total_after) :=
    Promotion.evaluate_discounts s now subtotal (prev_customer_id data)
      (Str.or_else (prev_order_source data) "GUI") (prev_coupons data) in
  inr (mkPreview line_items adjustments subtotal discounts total_disc
                 total_after)
  end end end end end.

(** ** OrderActionAPIView.post *)

Inductive Response : Type :=
  | Ok200 (o : Orders.Order)
  | BadRequest400 (detail : string)
  | NotFound404
  | Conflict409 (detail : string).

Definition exn_detail (e : Orders.Exn) : string :=
  match e with
  | Orders.DomainError m => m
  | Orders.SettingsError => "settings"
  | Orders.EncodeError => "encode"
  | Orders.DatabaseError => "database"
  end.

Definition in_list (a : string) (l : list string) : bool :=
  existsb (String.eqb a) l.

(** Returns the connection after the request and the response.  The order
    is loaded from the committed row. *)
Definition action_post (env : Orders.Env) (now : Z) (staff_id : option Z)
  (pk : Z) (raw_action : string) (raw_reason : option string)
  (c : Orders.Conn) : Orders.Conn * Response :=
  if negb (Orders.id (Orders.committed c) =? pk) then (c, NotFound404)
  else
    let order := Orders.committed c in
    let action := Str.lower (Str.strip raw_action) in
    let reason := match raw_reason with
                  | Some r => if String.eqb r "" then None else Some r
                  | None => None
                  end in
    let run (m : Orders.Order -> Orders.Conn -> Orders.Outcome) :=
      match m order c with
      | (order', c', inr _) => (c', Ok200 order')
      | (_, c', inl e) => (c', Conflict409 (exn_detail e))
      end in
    if String.eqb action "accept" then run (Orders.accept env now staff_id)
    else if in_list action ["mark-ready"; "ready"]
    then run (Orders.mark_ready env now staff_id)
    else if in_list action ["out-for-delivery"; "dispatch"; "out"]
    then run (Orders.out_for_delivery env now staff_id)
    else if in_list action ["deliver"; "delivered"]
    then run (Orders.deliver env now staff_id)
    else if String.eqb action "cancel"
    then run (Orders.cancel env now staff_id reason)
    else (c, BadRequest400 "Unsupported action").

End OrderViews.

(* ------------------------------------------------------------------ *)
(** * apps/staff/eventbus.py: the relay loop *)

Module EventBus.

(** Values produced by [json.loads]; a dict keeps its keys in insertion
    order. *)
#[warnings="-register-all"] Inductive json : Type :=
  | JNull
  | JBool (b : bool)
  | JNum (n : Z)
  | JStr (s : string)
  | JArr (l : list json)
  | JObj (kv : list (string * json)).

Fixpoint dict_get (k : string) (kv : list (string * json)) : option json :=
  match kv with
  | [] => None
  | (k', v) :: r => if String.eqb k' k then Some v else dict_get k r
  end.

Definition dict_has (k : string) (kv : list (string * json)) : bool :=
  match dict_get k kv with Some _ => true | None => false end.

(** [d[k] = v]. *)
Fixpoint dict_set (k : string) (v : json) (kv : list (string * json))
  : list (string * json) :=
  match kv with
  | [] => [(k, v)]
  | (k', v') :: r =>
    if String.eqb k' k then (k', v) :: r else (k', v') :: dict_set k v r
  end.

(** Deep normalisation for json.dumps; the values here hold no bytes. *)
Fixpoint _jsonable (x : json) : json :=
  match x with
  | JArr l => JArr (map _jsonable l)
  | JObj kv => JObj (map (fun p => (fst p, _jsonable (snd p))) kv)
  | _ => x
  end.

(** A raw notification, after [_b2s]. *)
Record Notify : Type := mkNotify {
  channel : option string;
  payload : string
}.

Definition mapping (op : string) : option string :=
  if String.eqb op "INSERT" then Some "order_created"
  else if String.eqb op "UPDATE" then Some "order_updated"
  else if String.eqb op "DELETE" then Some "order_deleted"
  else None.

(** What the relay does between two yields. *)
Inductive Step : Type :=
  | Wake (notes : list Notify)
  | Timeout
  | TransportError.

Inductive Emit : Type :=
  | Yield (obj : json)
  | Sleep (ms : Z).

Section Relay.

(** [json.loads]: [None] when it raises. *)
Variable json_loads : string -> option json.

(** The validated LISTEN channels and the connection's identity fields of
    the diagnostic event (host, port, db, user, pid). *)
Variable chans : list string.
Variable conn_info : list (string * json).

(** [_b2s(getattr(note, "channel", None)) or "message"]. *)
Definition channel_name (note : Notify) : string :=
  match channel note with
  | Some c => Str.or_else c "message"
  | None => "message"
  end.

(** [json.loads(payload) if payload else {}], with the fallback of the
    [except] clause. *)
Definition decode (p : string) : json :=
  if String.eqb p "" then JObj []
  else match json_loads p with
       | Some obj => obj
       | None => JObj [("raw", JStr p)]
       end.

(** The body of the drain loop: the object yielded for one note. *)
Definition handle_note (note : Notify) : json :=
  let ch := channel_name note in
  match decode (payload note) with
  | JObj kv =>
    let kv' :=
      match dict_get "event" kv with
      | Some ev => dict_set "event" ev kv
      | None =>
        match dict_get "op" kv with
        | Some (JStr op) =>
          match mapping op with
          | Some e => dict_set "event" (JStr e) kv
          | None => dict_set "event" (JStr ch) kv
          end
        | _ => dict_set "event" (JStr ch) kv
        end
      end in
    _jsonable (JObj kv')
  | obj => JObj [("event", JStr ch); ("raw", _jsonable obj)]
  end.

Definition diagnostic : json :=
  _jsonable
    (JObj ([("event", JStr "diagnostic");
            ("listening", JArr (map JStr chans))]
           ++ conn_info ++ [("notify_impl", JStr "queue+libpq")])).

(** The generator after a connection is up, run against a script of
    what happens on the socket: what it yields and how long it sleeps.
    [backoff] is in milliseconds and is never reset; a reconnection is
    taken to succeed. *)
Fixpoint relay (backoff : Z) (steps : list Step) : list Emit :=
  match steps with
  | [] => []
  | Wake notes :: rest =>
    map (fun n => Yield (handle_note n)) notes ++ relay backoff rest
  | Timeout :: rest => relay backoff rest
  | TransportError :: rest =>
    Sleep backoff :: Yield diagnostic
    :: relay (Z.min (backoff * 2) 10000) rest
  end.

Definition iter_order_notifications (steps : list Step) : list Emit :=
  Yield diagnostic :: relay 500 steps.


End Relay.

End EventBus.

(* ------------------------------------------------------------------ *)
(** * apps/promotion/services.py: redeem_discounts *)

Module Redemption.
Import Promotion.

(** [per_code[code] = per_code.get(code, 0) + amount], the dict keeping
    its keys in insertion order. *)
Fixpoint per_code_add (k : string) (amt : Z) (pc : list (string * Z))
  : list (string * Z) :=
  match pc with
  | [] => [(k, amt)]
  | (k', v) :: r =>
    if String.eqb k' k then (k', v + amt) :: r
    else (k', v) :: per_code_add k amt r
  end.

(** One turn of the first loop: only coupon lines with a code count. *)
Definition per_code_step (pc : list (string * Z)) (d : Line)
  : list (string * Z) :=
  if negb (String.eqb (l_type d) "coupon") then pc
  else
    let k := Str.upper (match l_code d with Some c => c | None => "" end) in
    if String.eqb k "" then pc
    else per_code_add k (l_amount_cents d) pc.

Definition per_code_of (discounts : list Line) : list (string * Z) :=
  fold_left per_code_step discounts [].

Definition add_redemption (s : Store) (r : CouponRedemption) : Store :=
  mkStore (memberships s) (coupons s) (redemptions s ++ [r]).

(** One turn of the second loop, on the store and the rows created so
    far; [keys] are the codes the coupons were fetched for. *)
Definition redeem_step (now order_id customer_id : Z) (chan : string)
  (keys : list string) (st : Store * list CouponRedemption)
  (kv : string * Z) : Store * list CouponRedemption :=
  let '(s, rows) := st in
  match coupons_get s keys (fst kv) with
  | None => st
  | Some c =>
    if negb (is_valid_now c now) then st
    else if negb (String.eqb (channel c) "ANY"
                  || String.eqb (channel c) (Str.or_else chan "GUI"))
    then st
    else if match max_redemptions_per_user c with
            | Some cap =>
              cap <=? count_redemptions s (fun r =>
                        String.eqb (r_coupon r) (code c)
                        && (r_customer_id r =? customer_id))
            | None => false
            end
    then st
    else if match max_redemptions_global c with
            | Some cap =>
              cap <=? count_redemptions s (fun r =>
                        String.eqb (r_coupon r) (code c))
            | None => false
            end
    then st
    else if existsb (fun r => String.eqb (r_coupon r) (code c)
                              && (r_order_id r =? order_id))
                    (redemptions s)
    then st
    else
      let row := mkRedemption (code c) customer_id order_id (snd kv)
                              (Str.or_else chan "GUI") in
      (add_redemption s row, rows ++ [row])
  end.

(** Returns the store with the new ledger rows, and those rows. *)
Definition redeem_discounts (s : Store) (now order_id customer_id : Z)
  (chan : string) (discounts : list Line)
  : Store * list CouponRedemption :=
  match discounts with
  | [] => (s, [])
  | _ =>
    let per_code := per_code_of discounts in
    match per_code with
    | [] => (s, [])
    | _ =>
      fold_left (redeem_step now order_id customer_id chan
                             (map fst per_code))
                per_code (s, [])
    end
  end.

End Redemption.

(* ------------------------------------------------------------------ *)
(** * apps/promotion/models.py: the amount and the checks of a coupon *)

Module CouponModel.
Import Promotion.

(** [Coupon._calc_amount]; no operation in it raises on a stored
    coupon. *)
Definition _calc_amount (c : Coupon) (subtotal_cents : Z) : Z :=
  let amt :=
    if String.eqb (kind c) "percent" then
      Dec.round_half_up
        (Dec.mul (Dec.of_Z subtotal_cents) (Dec.div100 (value c)))
    else if String.eqb (kind c) "fixed" then Dec.round_half_up (value c)
    else 0 in
  let amt := match max_discount_cents c with
             | Some max_c => Z.min amt max_c
             | None => amt
             end in
  Z.max 0 amt.

(** [Coupon.can_redeem]: (ok, reason). *)
Definition can_redeem (s : Store) (now : Z) (c : Coupon)
  (customer_id : option Z) (subtotal_cents : Z) (chan : option string)
  : bool * option string :=
  if negb (active c) then (false, Some "inactive")
  else if match valid_from c with Some f => now <? f | None => false end
  then (false, Some "not_started")
  else if match valid_until c with Some u => u <? now | None => false end
  then (false, Some "expired")
  else if negb (String.eqb (channel c) "")
          && negb (String.eqb (channel c) "ANY")
          && negb (String.eqb
                     (match chan with
                      | Some ch => Str.or_else ch "ANY"
                      | None => "ANY"
                      end)
                     (channel c))
  then (false, Some "wrong_channel")
  else if match min_subtotal_cents c with
          | Some ms => negb (ms =? 0) && (subtotal_cents <? ms)
          | None => false
          end
  then (false, Some "min_subtotal")
  else if match max_redemptions_global c with
          | Some cap =>
            cap <=? count_redemptions s (fun r =>
                      String.eqb (r_coupon r) (code c))
          | None => false
          end
  then (false, Some "exhausted")
  else if match customer_id, max_redemptions_per_user c with
          | Some cid, Some cap =>
            negb (cid =? 0)
            && (cap <=? count_redemptions s (fun r =>
                          String.eqb (r_coupon r) (code c)
                          && (r_customer_id r =? cid)))
          | _, _ => false
          end
  then (false, Some "user_exhausted")
  else (true, None).

End CouponModel.

(* ------------------------------------------------------------------ *)

(** * apps/staff/views.py: the order stream of OrdersSSEView *)

Module StaffViews.
Import EventBus.

Definition nl : string := String (ascii_of_nat 10) EmptyString.

Section Stream.

Variable json_loads : string -> option json.
Variable chans : list string.
Variable conn_info : list (string * json).

(** [json.dumps(x, ensure_ascii=False)], and [str(x)] of a value that is
    not a string, as the f-string formats it. *)
Variable json_dumps : json -> string.
Variable py_str : json -> string.

(** [msg.get("event", "message")], formatted. *)
Definition event_label (kv : list (string * json)) : string :=
  match dict_get "event" kv with
  | Some (JStr s) => s
  | Some v => py_str v
  | None => "message"
  end.

(** The two chunks of one message; [None] when [msg.get] raises because
    the message is not a dict. *)
Definition frame (msg : json) : option (list string) :=
  match msg with
  | JObj kv =>
    Some [("event: " ++ event_label kv ++ nl)%string;
          ("data: " ++ json_dumps msg ++ nl ++ nl)%string]
  | _ => None
  end.

(** The loop over the generator: a sleep of the relay yields no chunk, an
    exception ends the stream. *)
Fixpoint frames (es : list Emit) : option (list string) :=
  match es with
  | [] => Some []
  | Sleep _ :: rest => frames rest
  | Yield msg :: rest =>
    match frame msg with
    | None => None
    | Some f =>
      match frames rest with
      | None => None
      | Some fs => Some (f ++ fs)
      end
    end
  end.

(** [stream()], given what [_bootstrap] returned. *)
Definition stream (bootstrap : json) (steps : list Step)
  : option (list string) :=
  match frames (iter_order_notifications json_loads chans conn_info steps)
  with
  | None => None
  | Some fs =>
    Some (("event: bootstrap" ++ nl)%string
          :: ("data: " ++ json_dumps bootstrap ++ nl ++ nl)%string
          :: fs)
  end.

End Stream.

End StaffViews.

(* ------------------------------------------------------------------ *)

(** * The pricing rules as the specification words them *)

Module PricingSpec.
Import Catalog Pricing.

Definition addon_opts (opts : list ItemOption) : list ItemOption :=
  filter (fun o => is_addon (iog_price_mode (io_group o))) opts.

Definition multiplier_opts (opts : list ItemOption) : list ItemOption :=
  filter (fun o => negb (is_addon (iog_price_mode (io_group o)))) opts.

Definition sum_addon_deltas (opts : list ItemOption) : Z :=
  fold_right Z.add 0 (map io_price_delta_cents (addon_opts opts)).

Definition product_of (ms : list Decimal) : Decimal :=
  fold_right Dec.mul Dec.one ms.

(** round_half_up((base + sum of addons) x product of multipliers), for a
    reading [mult_of] of an option's multiplier. *)
Definition formula_unit_cents (mult_of : ItemOption -> Decimal)
  (item : MenuItem) (opts : list ItemOption) : Z :=
  Dec.round_half_up
    (Dec.mul (Dec.of_Z (item_base_price_cents item + sum_addon_deltas opts))
             (product_of (map mult_of (multiplier_opts opts)))).

(** The multiplier as stored on the option row. *)
Definition stored_multiplier (o : ItemOption) : Decimal :=
  match io_multiplier o with Some m => m | None => Dec.one end.

(** The multiplier as the code reads it: null or zero counts as one. *)
Definition effective_multiplier (o : ItemOption) : Decimal :=
  multiplier_or_one (io_multiplier o).

Definition snapshot_of (o : ItemOption) : Snap :=
  if is_addon (iog_price_mode (io_group o))
  then mkSnap (iog_name (io_group o)) (io_name o)
              (io_price_delta_cents o) None
  else mkSnap (iog_name (io_group o)) (io_name o) 0
              (Some (effective_multiplier o)).

End PricingSpec.

(* ------------------------------------------------------------------ *)
(** * The dinner-option rule as the specification words it *)

Module DinnerSpec.
Import Catalog Pricing.

(** The multiplier as stored on the option row. *)
Definition stored_multiplier (o : DinnerOption) : Decimal :=
  match do_multiplier o with Some m => m | None => Dec.one end.

(** The multiplier as the code reads it: null or zero counts as one. *)
Definition effective_multiplier (o : DinnerOption) : Decimal :=
  multiplier_or_one (do_multiplier o).

(** The delta of one option against the running unit price: the fixed
    delta in addon mode, round_half_up(running x (multiplier - 1)) in
    multiplier mode. *)
Definition claimed_delta (mult_of : DinnerOption -> Decimal) (running : Z)
  (o : DinnerOption) : Z :=
  if is_addon (dog_price_mode (do_group o)) then do_price_delta_cents o
  else Dec.round_half_up
         (Dec.mul (Dec.of_Z running) (Dec.sub (mult_of o) Dec.one)).

(** The deltas of a list of options applied one after the other, each
    against the running unit price left by the ones before it. *)
Fixpoint deltas_from (mult_of : DinnerOption -> Decimal) (running : Z)
  (opts : list DinnerOption) : list Z :=
  match opts with
  | [] => []
  | o :: rest =>
    let d := claimed_delta mult_of running o in
    d :: deltas_from mult_of (running + d) rest
  end.

Definition sum_Z (l : list Z) : Z := fold_right Z.add 0 l.

(** The options of [dinner] named by [ids], in the order of [ids]. *)
Definition in_caller_order (t : Tables) (dinner : DinnerType)
  (ids : list Z) : list DinnerOption :=
  flat_map (fun i =>
              filter (fun o => (do_option_id o =? i)
                               && (dog_dinner_type_id (do_group o)
                                   =? dinner_type_id dinner))
                     (dinner_options t))
           ids.

(** The rows a query for [ids] yields. *)
Definition in_query_order (t : Tables) (dinner : DinnerType)
  (ids : list Z) : list DinnerOption :=
  filter (fun o => mem_Z (do_option_id o) ids
                   && (dog_dinner_type_id (do_group o)
                       =? dinner_type_id dinner))
         (dinner_options t).

End DinnerSpec.

(* ------------------------------------------------------------------ *)

(** * Reading the rows of a created order *)

Module OrderSpec.
Import Catalog Pricing OrderViews.

(** The lines of item [x] among the order-dinner items. *)
Definition rows_of (rows : list OrderDinnerItem) (x : Z)
  : list OrderDinnerItem :=
  filter (fun r => item_id (odi_item r) =? x) rows.

(** The free-item entries that name item [x]. *)
Definition entries_of (t : Tables) (items : list ItemSel) (x : Z)
  : list ItemSel :=
  filter (fun it => match find_item t (sel_code it) with
                    | Some i => item_id i =? x
                    | None => false
                    end) items.

(** The quantities requested for item [x], in request order. *)
Definition requested (t : Tables) (items : list ItemSel) (x : Z)
  : list Decimal :=
  map sel_qty (entries_of t items x).

Definition sum_qty (start : Decimal) (qs : list Decimal) : Decimal :=
  fold_left Dec.add qs start.

(** The change tag of an existing line after a request was merged into
    it. *)
Definition merged_tag (r : OrderDinnerItem) : string :=
  if odi_is_default r && String.eqb (odi_change_type r) "unchanged"
  then "added" else odi_change_type r.

(** An existing line after the quantities [qs] were merged into it. *)
Definition merged (r : OrderDinnerItem) (qs : list Decimal)
  : OrderDinnerItem :=
  match qs with
  | [] => r
  | _ => mkOrderDinnerItem (odi_item r) (sum_qty (odi_final_qty r) qs)
           (odi_unit_price_cents r) (odi_is_default r) (merged_tag r)
  end.

(** The unit price the loop computes for an entry of [item]. *)
Definition entry_unit_cents (t : Tables) (item : MenuItem) (it : ItemSel)
  : Z :=
  match validate_item_options_for_item t item (sel_options it) with
  | inr sel_opts => fst (calc_item_unit_cents item sel_opts)
  | inl _ => 0
  end.

(** The lines of item [x] after the entries [es] for it were processed,
    from the lines [start] of that item. *)
Definition lines_after (t : Tables) (start : list OrderDinnerItem)
  (es : list ItemSel) : list OrderDinnerItem :=
  match es with
  | [] => start
  | e :: rest =>
    match start with
    | r :: tail => merged r (map sel_qty es) :: tail
    | [] =>
      match find_item t (sel_code e) with
      | Some item =>
        [merged (mkOrderDinnerItem item (sel_qty e)
                   (entry_unit_cents t item e) false "added")
                (map sel_qty rest)]
      | None => []
      end
    end
  end.

(** Whether item [x] is one of the dinner's default items. *)
Definition is_default_item (t : Tables) (dinner : DinnerType) (x : Z)
  : bool :=
  existsb (fun d => (di_dinner_type_id d =? dinner_type_id dinner)
                    && (item_id (di_item d) =? x))
          (default_items t).



(** The line subtotal the item loops add for one entry of the free-item
    list. *)
Definition entry_subtotal (t : Tables) (it : ItemSel) : Z :=
  match find_item t (sel_code it) with
  | Some item =>
    as_cents_int (Dec.mul (Dec.of_Z (entry_unit_cents t item it))
                          (sel_qty it))
  | None => 0
  end.

Definition entries_subtotal (t : Tables) (items : list ItemSel) : Z :=
  fold_right Z.add 0 (map (entry_subtotal t) items).

(** The preview request that carries the data of a creation request. *)
Definition preview_of (data : CreateRequest) : PreviewRequest :=
  mkPreviewRequest (Some (req_customer_id data)) (req_order_source data)
                   (req_dinner data) (req_items data) (req_coupons data).

(** The creation request with other default overrides. *)
Definition with_overrides (data : CreateRequest) (ovs : list OverrideSel)
  : CreateRequest :=
  mkCreateRequest (req_customer_id data) (req_order_source data)
    (mkDinnerSel (d_code (req_dinner data)) (d_quantity (req_dinner data))
                 (d_style (req_dinner data))
                 (d_dinner_options (req_dinner data)) ovs)
    (req_items data) (req_coupons data).

(** [0 <= q <= orig] on quantities. *)
Definition qty_in_range (q orig : Decimal) : Prop :=
  Dec.ltb q Dec.zero = false /\ Dec.ltb orig q = false.

End OrderSpec.

(* ------------------------------------------------------------------ *)

(** * Reading the result of evaluate_discounts *)

Module PromotionSpec.
Import Promotion.

(** The running total after the membership line. *)
Definition after_membership (s : Store) (now : Z) (customer_id : option Z)
  (subtotal_cents : Z) : Z :=
  match _membership_line s now customer_id subtotal_cents with
  | Some m => subtotal_cents - l_amount_cents m
  | None => subtotal_cents
  end.

Definition membership_lines (s : Store) (now : Z) (customer_id : option Z)
  (subtotal_cents : Z) : list Line :=
  match _membership_line s now customer_id subtotal_cents with
  | Some m => [m]
  | None => []
  end.

(** The list [eligible] built by the candidate loop. *)
Definition eligible_of (s : Store) (now : Z) (subtotal_cents : Z)
  (customer_id : option Z) (chan : string) (coupon_codes : list string)
  : list (Coupon * Z) :=
  let codes := _normalize_codes coupon_codes in
  flat_map (fun k =>
    match candidate s now subtotal_cents customer_id chan
                    (_membership_line s now customer_id subtotal_cents)
                    (after_membership s now customer_id subtotal_cents)
                    codes k with
    | Some t => [t]
    | None => []
    end) codes.

(** The lines of coupons applied one after the other, each pre-computed
    amount capped by what is left of [running]. *)
Fixpoint stack_lines (running : Z) (eligible : list (Coupon * Z))
  : list Line :=
  match eligible with
  | [] => []
  | t :: rest =>
    let amt := Z.min (snd t) running in
    if amt <=? 0 then stack_lines running rest
    else coupon_line (fst t) amt :: stack_lines (running - amt) rest
  end.

(** The discount of a percent coupon as the specification words it for
    the second of two stacked coupons: against what the first left. *)
Definition amount_after (c : Coupon) (running : Z) (earlier : list Line)
  : Z :=
  _coupon_amount c (running - sum_amounts earlier).

(** The coupon lines of the result, from the eligible list: the single
    best one when a coupon that does not stack is among them, all of them
    stacked otherwise. *)
Definition applied_lines (running : Z) (eligible : list (Coupon * Z))
  : list Line :=
  match eligible with
  | [] => []
  | first :: rest =>
    if existsb (fun t => negb (stackable_with_coupons (fst t))) eligible
    then [coupon_line (fst (best_of first rest))
                      (Z.min (snd (best_of first rest)) running)]
    else stack_lines running eligible
  end.

(** A percentage between 0 and 100. *)
Definition percent_in_range (m : Membership) : Prop :=
  0 <= Dec.coef (m_percent_off m)
  /\ Dec.coef (m_percent_off m)
     <= 100 * Dec.pow10 (Dec.places (m_percent_off m)).

(** The checks a coupon has passed when it yields a line. *)
Definition passed_checks (s : Store) (now subtotal : Z)
  (customer_id : option Z) (chan : string) (c : Coupon) : Prop :=
  In c (coupons s)
  /\ is_valid_now c now = true
  /\ (channel c = "ANY" \/ channel c = Str.or_else chan "GUI")
  /\ (forall ms, min_subtotal_cents c = Some ms -> ms <= subtotal)
  /\ (forall cap cid,
        max_redemptions_per_user c = Some cap ->
        customer_id = Some cid -> cid <> 0 ->
        count_redemptions s (fun r => String.eqb (r_coupon r) (code c)
                                      && (r_customer_id r =? cid)) < cap)
  /\ (forall cap,
        max_redemptions_global c = Some cap ->
        count_redemptions s (fun r => String.eqb (r_coupon r) (code c))
        < cap)
  /\ (_membership_line s now customer_id subtotal <> None ->
      stackable_with_membership c = true).

(** The coupon lines that count for code [k] in [redeem_discounts]. *)
Definition lines_of_code (discounts : list Line) (k : string)
  : list Line :=
  filter (fun d => String.eqb (l_type d) "coupon"
                   && String.eqb
                        (Str.upper (match l_code d with
                                    | Some c => c | None => "" end)) k)
         discounts.

(** The key of the unique constraint of the ledger: (coupon, order). *)
Definition ledger_key (r : CouponRedemption) : string * Z :=
  (r_coupon r, r_order_id r).

Definition ledger_unique (s : Store) : Prop :=
  NoDup (map ledger_key (redemptions s)).

Definition used_global (s : Store) (c : Coupon) : Z :=
  count_redemptions s (fun r => String.eqb (r_coupon r) (code c)).

Definition used_by (s : Store) (c : Coupon) (customer_id : Z) : Z :=
  count_redemptions s (fun r => String.eqb (r_coupon r) (code c)
                                && (r_customer_id r =? customer_id)).

(** [per_code.get(k)]. *)
Definition pc_get (k : string) (pc : list (string * Z)) : option Z :=
  option_map snd (find (fun p => String.eqb (fst p) k) pc).


End PromotionSpec.

(* ------------------------------------------------------------------ *)

(** * The transition table as the specification gives it *)

Module LifecycleSpec.
Import Orders.

Inductive Action : Type :=
  | Accept
  | MarkReady
  | Dispatch
  | Deliver
  | Cancel (reason : option string).

(** The rows of the table. *)
Definition permitted (s : OrderStatus) (a : Action) : bool :=
  match a, s with
  | Accept, PENDING => true
  | MarkReady, PREP => true
  | Dispatch, PREP => true
  | Deliver, OUT => true
  | Cancel _, (PENDING | PREP | OUT) => true
  | _, _ => false
  end.

Definition target (s : OrderStatus) (a : Action) : OrderStatus :=
  match a with
  | Accept => PREP
  | MarkReady => s
  | Dispatch => OUT
  | Deliver => DELIVERED
  | Cancel _ => CANCELED
  end.

(** The operation-log entry of an action. *)
Definition log_entry (a : Action) (by_ : option Z) (now : Z) : StaffOp :=
  match a with
  | Accept => mkStaffOp "accept" by_ now ""
  | MarkReady => mkStaffOp "mark_ready" by_ now ""
  | Dispatch => mkStaffOp "out_for_delivery" by_ now ""
  | Deliver => mkStaffOp "deliver" by_ now ""
  | Cancel reason =>
    mkStaffOp "cancel" by_ now
              (match reason with Some r => r | None => "" end)
  end.

(** The method behind each action. *)
Definition run (env : Env) (now : Z) (by_ : option Z) (a : Action)
  : Order -> Conn -> Outcome :=
  match a with
  | Accept => accept env now by_
  | MarkReady => mark_ready env now by_
  | Dispatch => out_for_delivery env now by_
  | Deliver => deliver env now by_
  | Cancel reason => cancel env now by_ reason
  end.



(** The notification is encoded and registered, and pg_notify fails when
    it runs. *)
Definition delivery_fails (env : Env) : bool :=
  settings_ok env && json_ok env && negb (pg_notify_ok env).

(** A connection outside any transaction whose row of the order is [o]. *)
Definition at_rest (o : Order) (sent : list (string * Msg)) : Conn :=
  mkConn O [] o o sent.

Definition is_conflict (r : Exn + unit) : bool :=
  match r with inl (DomainError _) => true | _ => false end.

(** How far along its life an order is. *)
Definition rank (s : OrderStatus) : nat :=
  match s with
  | PENDING => 0
  | PREP => 1
  | OUT => 2
  | DELIVERED => 3
  | CANCELED => 3
  end.

Definition terminal (s : OrderStatus) : bool :=
  match s with DELIVERED | CANCELED => true | _ => false end.

(** The order after a permitted action. *)
Definition moved (o : Order) (a : Action) (by_ : option Z) (now : Z)
  : Order :=
  set_staff_ops (set_status o (target (status o) a))
                (staff_ops o ++ [log_entry a by_ now]).

(** The message of an action's notification. *)
Definition message_of (o : Order) (a : Action) : Msg :=
  match a with
  | MarkReady => mkMsg "order_updated" (id o) None (Some true) None
  | Cancel reason =>
    mkMsg "order_status_changed" (id o)
          (Some (status_value CANCELED)) None
          (Some (match reason with Some r => r | None => "" end))
  | _ =>
    mkMsg "order_status_changed" (id o)
          (Some (status_value (target (status o) a))) None None
  end.

(** The notification can be encoded. *)
Definition encodable (env : Env) : bool := settings_ok env && json_ok env.

End LifecycleSpec.

(* ------------------------------------------------------------------ *)
(** * The order stream, from a transition to the staff client *)

Module StreamSpec.
Import Orders EventBus.



Fixpoint yields (es : list Emit) : list json :=
  match es with
  | [] => []
  | Yield obj :: rest => obj :: yields rest
  | Sleep _ :: rest => yields rest
  end.

Fixpoint sleeps (es : list Emit) : list Z :=
  match es with
  | [] => []
  | Yield _ :: rest => sleeps rest
  | Sleep ms :: rest => ms :: sleeps rest
  end.

(** How many times the script loses the connection. *)
Fixpoint errors (steps : list Step) : nat :=
  match steps with
  | [] => O
  | TransportError :: rest => S (errors rest)
  | _ :: rest => errors rest
  end.

(** The chunks of one relayed dict. *)
Definition chunks_of (json_dumps : json -> string)
  (py_str : json -> string) (obj : json) : list string :=
  match obj with
  | JObj kv =>
    [("event: " ++ StaffViews.event_label py_str kv ++ StaffViews.nl)%string;
     ("data: " ++ json_dumps obj ++ StaffViews.nl ++ StaffViews.nl)%string]
  | _ => []
  end.

End StreamSpec.

(* ------------------------------------------------------------------ *)

(** * Concrete data used in the examples *)

Module Examples.
Import Catalog.

Definition steak : MenuItem := mkMenuItem 1 "steak" "Steak" 100000 true.

Definition sauce_group : ItemOptionGroup :=
  mkItemOptionGroup 1 1 "Sauce" "addon".

Definition size_group : ItemOptionGroup :=
  mkItemOptionGroup 2 1 "Size" "multiplier".

Definition truffle : ItemOption :=
  mkItemOption 1 sauce_group "Truffle" 2000 None.

Definition large : ItemOption :=
  mkItemOption 2 size_group "Large" 0 (Some (Dec.mkDec 1200 3)).

Definition free_size : ItemOption :=
  mkItemOption 3 size_group "Sample" 0 (Some (Dec.mkDec 0 3)).

Definition valentine : DinnerType :=
  mkDinnerType 1 "valentine" "Valentine Dinner" 150000 true.

Definition grand : ServingStyle :=
  mkServingStyle 1 "grand" "Grand" "multiplier" (Dec.mkDec 120 2).

Definition simple : ServingStyle :=
  mkServingStyle 2 "simple" "Simple" "addon" (Dec.mkDec 0 2).

Definition course_group : DinnerOptionGroup :=
  mkDinnerOptionGroup 1 1 "Course" "multiplier".

Definition extras_group : DinnerOptionGroup :=
  mkDinnerOptionGroup 2 1 "Extras" "addon".

Definition premium : DinnerOption :=
  mkDinnerOption 11 course_group None (Some "Premium") 0
                 (Some (Dec.mkDec 1100 3)).

Definition candles : DinnerOption :=
  mkDinnerOption 12 extras_group None (Some "Candles") 1000 None.

Definition unpriced : DinnerOption :=
  mkDinnerOption 13 course_group None (Some "Tasting") 0
                 (Some (Dec.mkDec 0 3)).

Definition wine : MenuItem := mkMenuItem 2 "wine" "Wine (Bottle)" 50000 true.

Definition tables : Tables :=
  mkTables [steak; wine] [truffle; large; free_size] [grand; simple]
           [valentine] [(1, 1); (1, 2)] [premium; candles; unpriced]
           [mkDefaultItem 1 wine (Dec.mkDec 100 2) true].

Definition one_dinner (opts : list Z) : OrderViews.DinnerSel :=
  OrderViews.mkDinnerSel "valentine" (Dec.mkDec 100 2) "simple" opts [].

Definition no_promotions : Promotion.Store := Promotion.mkStore [] [] [].


(** Steak requested twice, 1 and 2. *)
Definition steak_twice : list OrderViews.ItemSel :=
  [OrderViews.mkItemSel "steak" (Dec.mkDec 100 2) [];
   OrderViews.mkItemSel "steak" (Dec.mkDec 200 2) []].

Definition steak_twice_request : OrderViews.CreateRequest :=
  OrderViews.mkCreateRequest 7 "GUI" (one_dinner []) steak_twice [].

Definition steak_twice_preview : OrderViews.PreviewRequest :=
  OrderViews.mkPreviewRequest (Some 7) "GUI" (one_dinner []) steak_twice [].

Definition percent_coupon (c : string) : Promotion.Coupon :=
  Promotion.mkCoupon c c "" true "percent" (Dec.mkDec 1000 2) None None
    None None true true "ANY" None None.

Definition fixed_coupon (c : string) : Promotion.Coupon :=
  Promotion.mkCoupon c c "" true "fixed" (Dec.mkDec 100000 2) None None
    None None true true "ANY" None None.

(** Two stackable 10% coupons and a stackable fixed coupon of 1,000;
    customer 7 holds a membership of 150%. *)
Definition promotions : Promotion.Store :=
  Promotion.mkStore
    [Promotion.mkMembership 7 "Gold" (Dec.mkDec 15000 2) true None None]
    [percent_coupon "A10"; percent_coupon "B10"; fixed_coupon "SAVE10"]
    [].

Definition pending_order : Orders.Order :=
  Orders.mkOrder 1 7 Orders.PENDING "GUI" 1000 0 1000 [] [].

(** Everything works. *)
Definition healthy : Orders.Env :=
  Orders.mkEnv true ["orders_events"] true true.

(** pg_notify fails when it is executed. *)
Definition notify_down : Orders.Env :=
  Orders.mkEnv true ["orders_events"] true false.

(** A stand-in for json.loads that knows two payloads. *)
Definition toy_loads (p : string) : option EventBus.json :=
  if String.eqb p "{}" then Some (EventBus.JObj [])
  else if String.eqb p "[1]"
       then Some (EventBus.JArr [EventBus.JNum 1])
       else None.


(** The discount scenario of the specification: customer 9 holds a 5%
    membership, WELCOME10 is 10% capped at 5,000. *)
Definition welcome_store : Promotion.Store :=
  Promotion.mkStore
    [Promotion.mkMembership 9 "" (Dec.mkDec 500 2) true None None]
    [Promotion.mkCoupon "WELCOME10" "Welcome" "" true "percent"
       (Dec.mkDec 1000 2) None None None (Some 5000) true true "ANY"
       None None]
    [].



(** A coupon of 500 that can be redeemed once in all. *)
Definition once_coupon : Promotion.Coupon :=
  Promotion.mkCoupon "ONCE" "Once" "" true "fixed" (Dec.mkDec 50000 2)
    None None None None true true "ANY" (Some 1) None.

Definition once_store : Promotion.Store :=
  Promotion.mkStore [] [once_coupon; fixed_coupon "SAVE10"] [].

(** The lines of an order that used ONCE and, twice, SAVE10. *)
Definition once_lines : list Promotion.Line :=
  [Promotion.mkLine "membership" "Gold" None 100;
   Promotion.coupon_line once_coupon 500;
   Promotion.coupon_line (fixed_coupon "SAVE10") 1000;
   Promotion.coupon_line (fixed_coupon "SAVE10") 1000].






End Examples.

(* ================================================================== *)
(** * Properties *)

(** ** Decimal arithmetic *)

Lemma pow10_0 : Dec.pow10 0 = 1.
Proof. reflexivity. Qed.

Lemma dec_add_of_Z (a b : Z) :
  Dec.add (Dec.of_Z a) (Dec.of_Z b) = Dec.of_Z (a + b).
Proof.
  unfold Dec.add, Dec.rescale, Dec.of_Z; cbn [Dec.coef Dec.places Nat.max Nat.sub].
  rewrite pow10_0. f_equal. lia.
Qed.

Lemma dec_sub_of_Z (a b : Z) :
  Dec.sub (Dec.of_Z a) (Dec.of_Z b) = Dec.of_Z (a - b).
Proof.
  unfold Dec.sub, Dec.rescale, Dec.of_Z; cbn [Dec.coef Dec.places Nat.max Nat.sub].
  rewrite pow10_0. f_equal. lia.
Qed.

Lemma dec_mul_assoc (a b c : Decimal) :
  Dec.mul (Dec.mul a b) c = Dec.mul a (Dec.mul b c).
Proof.
  unfold Dec.mul; cbn [Dec.coef Dec.places]. f_equal; lia.
Qed.

Lemma dec_mul_one_r (a : Decimal) : Dec.mul a Dec.one = a.
Proof.
  destruct a as [c p]. unfold Dec.mul, Dec.one, Dec.of_Z; cbn [Dec.coef Dec.places].
  f_equal; lia.
Qed.

Lemma dec_mul_one_l (a : Decimal) : Dec.mul Dec.one a = a.
Proof.
  destruct a as [c p]. unfold Dec.mul, Dec.one, Dec.of_Z; cbn [Dec.coef Dec.places].
  f_equal; destruct c; reflexivity.
Qed.

Lemma round_half_up_of_Z (z : Z) : Dec.round_half_up (Dec.of_Z z) = z.
Proof.
  unfold Dec.round_half_up, Dec.of_Z; cbn [Dec.coef Dec.places].
  rewrite pow10_0.
  replace (2 * Z.abs z + 1) with (1 + Z.abs z * 2) by lia.
  replace (2 * 1) with 2 by lia.
  rewrite Z.div_add by lia. cbn [Z.div]. 
  change (1 / 2) with 0. rewrite Z.add_0_l. 
  rewrite Z.mul_comm. apply Z.abs_sgn.
Qed.

(** ** Item unit price *)

Section ItemUnitPrice.
Import Catalog Pricing PricingSpec.

Lemma calc_loop_invariant (opts : list ItemOption) :
  forall (a : Z) (m : Decimal) (snaps : list Snap),
    fold_left calc_step opts (Dec.of_Z a, m, snaps)
    = (Dec.of_Z (a + sum_addon_deltas opts),
       Dec.mul m (product_of (map effective_multiplier
                                  (multiplier_opts opts))),
       snaps ++ map snapshot_of opts).
Proof.
  induction opts as [|o opts IH]; intros a m snaps.
  - cbn. rewrite dec_mul_one_r, app_nil_r. f_equal. f_equal. f_equal. lia.
  - cbn [fold_left]. unfold calc_step at 2.
    unfold sum_addon_deltas, addon_opts, multiplier_opts, snapshot_of.
    cbn [filter map].
    destruct (is_addon (iog_price_mode (io_group o))) eqn:Hm; cbn [negb].
    + rewrite dec_add_of_Z, IH. cbn [map fold_right].
      unfold sum_addon_deltas, addon_opts, multiplier_opts.
      rewrite <- app_assoc. cbn [app]. f_equal. f_equal. f_equal. lia.
    + rewrite IH. cbn [map fold_right product_of].
      unfold sum_addon_deltas, addon_opts, multiplier_opts, effective_multiplier.
      rewrite <- app_assoc, dec_mul_assoc. reflexivity.
Qed.

Lemma calc_item_unit_cents_eq (item : MenuItem) (opts : list ItemOption) :
  calc_item_unit_cents item opts
  = (formula_unit_cents effective_multiplier item opts,
     map snapshot_of opts).
Proof.
  unfold calc_item_unit_cents, formula_unit_cents.
  change Dec.zero with (Dec.of_Z 0).
  rewrite calc_loop_invariant.
  rewrite dec_add_of_Z, dec_mul_one_l. cbn [app].
  unfold as_cents_dec, Dec.of_Z; cbn [Dec.coef]. reflexivity.
Qed.


(** The scenario of the specification: base 100,000 with a +2,000 addon
    and a x1.2 multiplier gives 122,400. *)
Example calc_item_unit_cents_scenario :
  fst (calc_item_unit_cents Examples.steak
         [Examples.truffle; Examples.large]) = 122400.
Proof. reflexivity. Qed.


End ItemUnitPrice.

(** ** Dinner options *)

Section DinnerOptions.
Import Catalog Pricing OrderViews DinnerSpec.

Lemma mem_Z_perm (x : Z) (l l' : list Z) :
  Permutation l l' -> mem_Z x l = mem_Z x l'.
Proof.
  unfold mem_Z. induction 1 as [|a l l' _ IH|a b l|l l' l'' _ IH1 _ IH2];
    cbn [existsb].
  - reflexivity.
  - now rewrite IH.
  - destruct (x =? b), (x =? a); reflexivity.
  - now rewrite IH1.
Qed.

Lemma dedup_Z_length_perm (l l' : list Z) :
  Permutation l l' ->
  List.length (dedup_Z l) = List.length (dedup_Z l').
Proof.
  induction 1 as [|a l l' HP IH|a b l|l l' l'' _ IH1 _ IH2].
  - reflexivity.
  - cbn [dedup_Z]. rewrite (mem_Z_perm a l l' HP).
    destruct (mem_Z a l'); cbn [List.length]; now rewrite IH.
  - cbn [dedup_Z]. unfold mem_Z; cbn [existsb]. fold (mem_Z a l) (mem_Z b l).
    destruct (Z.eqb_spec b a) as [->|Hne].
    + rewrite Z.eqb_refl. reflexivity.
    + assert (Hab : (a =? b) = false) by (apply Z.eqb_neq; congruence).
      rewrite Hab. cbn [orb].
      destruct (mem_Z a l), (mem_Z b l); reflexivity.
  - now rewrite IH1.
Qed.

Lemma resolve_perm (t : Tables) (dinner : DinnerType) (ids ids' : list Z) :
  Permutation ids ids' ->
  resolve_dinner_options_for_dinner t dinner ids'
  = resolve_dinner_options_for_dinner t dinner ids.
Proof.
  intros HP. unfold resolve_dinner_options_for_dinner.
  destruct ids as [|i ids], ids' as [|i' ids'].
  - reflexivity.
  - apply Permutation_nil in HP. discriminate.
  - apply Permutation_sym, Permutation_nil in HP. discriminate.
  - rewrite (dedup_Z_length_perm _ _ HP).
    rewrite (filter_ext
               (fun o => mem_Z (do_option_id o) (i' :: ids')
                         && (dog_dinner_type_id (do_group o)
                             =? dinner_type_id dinner))
               (fun o => mem_Z (do_option_id o) (i :: ids)
                         && (dog_dinner_type_id (do_group o)
                             =? dinner_type_id dinner))).
    + reflexivity.
    + intros o. now rewrite (mem_Z_perm _ _ _ HP).
Qed.

Lemma resolve_query_order (t : Tables) (dinner : DinnerType)
  (ids : list Z) (opts : list DinnerOption) :
  resolve_dinner_options_for_dinner t dinner ids = Some opts ->
  opts = in_query_order t dinner ids.
Proof.
  unfold resolve_dinner_options_for_dinner, in_query_order.
  destruct ids as [|i ids].
  - intros [= <-]. cbn [mem_Z existsb andb].
    induction (dinner_options t) as [|o l IH]; [reflexivity|exact IH].
  - destruct (_ =? _)%nat; [intros [= <-]; reflexivity | discriminate].
Qed.

Lemma dinner_option_delta_claimed (running : Z) (o : DinnerOption) :
  dinner_option_delta Dec.one running o
  = claimed_delta effective_multiplier running o.
Proof.
  unfold dinner_option_delta, claimed_delta, effective_multiplier,
    multiplier_or_one, as_cents_int.
  reflexivity.
Qed.

Lemma dinner_loop_from (opts : list DinnerOption) :
  forall (u : Z) (acc : list Z),
    fold_left (dinner_option_step Dec.one) opts (u, acc)
    = (u + sum_Z (deltas_from effective_multiplier u opts),
       acc ++ deltas_from effective_multiplier u opts).
Proof.
  induction opts as [|o opts IH]; intros u acc.
  - cbn. rewrite app_nil_r. f_equal. lia.
  - cbn [fold_left deltas_from]. unfold dinner_option_step at 2.
    rewrite dinner_option_delta_claimed, IH.
    cbn [sum_Z fold_right]. rewrite <- app_assoc. cbn [app].
    f_equal. unfold sum_Z. lia.
Qed.

Lemma deltas_from_nth (mult_of : DinnerOption -> Decimal)
  (opts : list DinnerOption) :
  forall (u : Z) (i : nat) (o : DinnerOption),
    nth_error opts i = Some o ->
    nth_error (deltas_from mult_of u opts) i
    = Some (claimed_delta mult_of
              (u + sum_Z (firstn i (deltas_from mult_of u opts))) o).
Proof.
  induction opts as [|o' opts IH]; intros u i o Hi.
  - destruct i; discriminate.
  - destruct i as [|i]; cbn [nth_error deltas_from firstn] in *.
    + injection Hi as ->. cbn. now rewrite Z.add_0_r.
    + rewrite (IH _ _ _ Hi). cbn [sum_Z fold_right].
      do 2 f_equal. unfold sum_Z. lia.
Qed.

Lemma deltas_from_length (mult_of : DinnerOption -> Decimal)
  (opts : list DinnerOption) :
  forall u, List.length (deltas_from mult_of u opts) = List.length opts.
Proof.
  induction opts as [|o opts IH]; intros u; cbn; [reflexivity|].
  now rewrite IH.
Qed.

(** C5, as amended: the options are applied one after the other in the
    order in which the catalog query returns them (the same for every
    ordering of the requested ids), on a running unit price that starts at
    the style-adjusted base; an addon-mode option contributes its fixed
    delta, a multiplier-mode option
    round_half_up(running x (multiplier - 1)) against the running unit
    price left by the options before it, a null or zero multiplier counting
    as 1; the final unit price is the start plus all deltas. *)
Theorem dinner_options_sequential (t : Tables) (dinner : DinnerType)
  (ids ids' : list Z) (opts : list DinnerOption) (unit_cents : Z) :
  resolve_dinner_options_for_dinner t dinner ids = Some opts ->
  Permutation ids ids' ->
  resolve_dinner_options_for_dinner t dinner ids' = Some opts
  /\ opts = in_query_order t dinner ids
  /\ let '(final, deltas) := dinner_options_loop Dec.one unit_cents opts in
     List.length deltas = List.length opts
     /\ final = unit_cents + sum_Z deltas
     /\ forall (i : nat) (o : DinnerOption),
          nth_error opts i = Some o ->
          nth_error deltas i
          = Some (claimed_delta effective_multiplier
                    (unit_cents + sum_Z (firstn i deltas)) o).
Proof.
  intros Hres HP. split; [|split].
  - now rewrite (resolve_perm _ _ _ _ HP).
  - now apply resolve_query_order.
  - unfold dinner_options_loop. rewrite dinner_loop_from. cbn [app].
    split; [apply deltas_from_length|]. split; [reflexivity|].
    intros i o Hi. now apply deltas_from_nth.
Qed.

Lemma dinner_options_sequential_witness :
  resolve_dinner_options_for_dinner Examples.tables Examples.valentine
    [11; 12] = Some [Examples.premium; Examples.candles]
  /\ dinner_options_loop Dec.one 150000
       [Examples.premium; Examples.candles] = (166000, [15000; 1000]).
Proof.
  pose proof (dinner_options_sequential Examples.tables Examples.valentine
                [12; 11] [11; 12] [Examples.premium; Examples.candles]
                150000 eq_refl (perm_swap 11 12 [])) as [H1 _].
  split; [exact H1 | reflexivity].
Defined.

(** The scenario of the specification: base 150,000 with a x1.2 style
    gives 180,000 (+30,000); a x1.1 dinner option then gives 198,000
    (+18,000). *)
Example dinner_options_scenario :
  apply_style_to_base Examples.valentine Examples.grand = (180000, 30000)
  /\ dinner_options_loop Dec.one 180000 [Examples.premium]
     = (198000, [18000]).
Proof. split; reflexivity. Qed.

(** C5 as stated fails twice.  The ids [12; 11] are applied in the order
    of the table, 11 then 12, and the price differs from the one of the
    requested order; and a multiplier of zero contributes nothing, not
    running x (0 - 1). *)
Lemma dinner_options_not_in_caller_order :
  resolve_dinner_options_for_dinner Examples.tables Examples.valentine
    [12; 11] = Some [Examples.premium; Examples.candles]
  /\ in_caller_order Examples.tables Examples.valentine [12; 11]
     = [Examples.candles; Examples.premium]
  /\ fst (dinner_options_loop Dec.one 150000
            [Examples.premium; Examples.candles]) = 166000
  /\ fst (dinner_options_loop Dec.one 150000
            (in_caller_order Examples.tables Examples.valentine [12; 11]))
     = 166100
  /\ dinner_options_loop Dec.one 180000 [Examples.unpriced] = (180000, [0])
  /\ claimed_delta stored_multiplier 180000 Examples.unpriced = -180000
  /\ dinner_option_delta Dec.one 180000 Examples.unpriced
     <> claimed_delta stored_multiplier 180000 Examples.unpriced.
Proof. repeat split; vm_compute; congruence. Qed.

End DinnerOptions.

(** ** Rows of a created order and lines of a preview *)

Section CreatedRows.
Import Catalog Pricing OrderViews DinnerSpec OrderSpec.

Lemma merged_tag_idem (r : OrderDinnerItem) :
  merged_tag (mkOrderDinnerItem (odi_item r) (odi_final_qty r)
                (odi_unit_price_cents r) (odi_is_default r) (merged_tag r))
  = merged_tag r.
Proof.
  unfold merged_tag; cbn.
  destruct (odi_is_default r); cbn [andb]; [|reflexivity].
  destruct (String.eqb (odi_change_type r) "unchanged") eqn:E;
    [reflexivity | now rewrite E].
Qed.

Lemma merged_cons (r : OrderDinnerItem) (q : Decimal) (qs : list Decimal) :
  merged (mkOrderDinnerItem (odi_item r) (Dec.add (odi_final_qty r) q)
            (odi_unit_price_cents r) (odi_is_default r) (merged_tag r)) qs
  = merged r (q :: qs).
Proof.
  destruct qs as [|q' qs]; [reflexivity|].
  unfold merged. cbn [odi_item odi_final_qty odi_unit_price_cents
                      odi_is_default sum_qty fold_left].
  f_equal.
  pose proof (merged_tag_idem r) as H. unfold merged_tag in *. cbn in *.
  exact H.
Qed.

Lemma rows_of_get_or_create (item : MenuItem) (q : Decimal) (u : Z)
  (rows : list OrderDinnerItem) (x : Z) :
  rows_of (get_or_create_item item q u rows) x
  = if item_id item =? x then
      match rows_of rows x with
      | r :: tail => merged r [q] :: tail
      | [] => [mkOrderDinnerItem item q u false "added"]
      end
    else rows_of rows x.
Proof.
  unfold rows_of.
  induction rows as [|r rows IH]; cbn [get_or_create_item filter odi_item].
  - destruct (item_id item =? x); reflexivity.
  - destruct (Z.eqb_spec (item_id (odi_item r)) (item_id item)) as [He|Hne].
    + cbn [filter odi_item]. rewrite He.
      destruct (item_id item =? x); reflexivity.
    + cbn [filter]. rewrite IH.
      destruct (Z.eqb_spec (item_id item) x) as [Hx|Hx].
      * destruct (Z.eqb_spec (item_id (odi_item r)) x);
          [congruence|reflexivity].
      * destruct (item_id (odi_item r) =? x); reflexivity.
Qed.

Lemma find_item_code (t : Tables) (c : string) (item : MenuItem) :
  find_item t c = Some item -> item_code item = c.
Proof.
  unfold find_item. intros H. apply find_some in H as [_ H].
  apply andb_prop in H as [H _]. now apply String.eqb_eq.
Qed.

Lemma items_loop_rows (t : Tables) (items : list ItemSel) :
  forall sub rows opts sub' rows' opts' x,
    items_loop t items (sub, rows, opts) = inr (sub', rows', opts') ->
    rows_of rows' x = lines_after t (rows_of rows x) (entries_of t items x).
Proof.
  induction items as [|it items IH]; intros sub rows opts sub' rows' opts' x H.
  - cbn in H. injection H as _ <- _. reflexivity.
  - cbn [items_loop] in H.
    destruct (find_item t (sel_code it)) as [item|] eqn:Hf; [|discriminate].
    destruct (validate_item_options_for_item t item (sel_options it))
      as [bad|sel_opts] eqn:Hv; [discriminate|].
    destruct (calc_item_unit_cents item sel_opts) as [u snaps] eqn:Hc.
    apply IH with (x := x) in H. rewrite H, rows_of_get_or_create.
    unfold entries_of at 2. cbn [filter]. rewrite Hf.
    fold (entries_of t items x).
    destruct (item_id item =? x); [|reflexivity].
    destruct (rows_of rows x) as [|r tail].
    + unfold lines_after at 2. rewrite Hf.
      unfold entry_unit_cents. rewrite Hv, Hc. cbn [fst].
      destruct (entries_of t items x) as [|e es]; reflexivity.
    + destruct (entries_of t items x) as [|e es]; [reflexivity|].
      cbn [lines_after map]. f_equal.
      unfold merged at 2. cbn [sum_qty fold_left]. apply merged_cons.
Qed.

Lemma rows_of_apply_override (c : string) (q : Decimal) (tag : string)
  (rows : list OrderDinnerItem) :
  map odi_item (apply_override c q tag rows) = map odi_item rows.
Proof.
  unfold apply_override. rewrite map_map. apply map_ext.
  intros r. destruct (String.eqb _ _); reflexivity.
Qed.

Lemma overrides_loop_items (defaults : list DinnerTypeDefaultItem)
  (ovs : list OverrideSel) :
  forall rows rows',
    overrides_loop defaults ovs rows = inr rows' ->
    map odi_item rows' = map odi_item rows.
Proof.
  induction ovs as [|ov ovs IH]; intros rows rows' H; cbn in H.
  - now injection H as <-.
  - destruct (default_qty_of defaults (Str.strip (ov_code ov)));
      [|discriminate].
    destruct (_ || _); [discriminate|].
    apply IH in H. now rewrite H, rows_of_apply_override.
Qed.

Lemma insert_by_name_in (d x : DinnerTypeDefaultItem)
  (l : list DinnerTypeDefaultItem) :
  In x (insert_by_name d l) -> x = d \/ In x l.
Proof.
  induction l as [|y l IH]; cbn.
  - intros [<-|[]]; now left.
  - destruct (String.leb _ _); cbn.
    + intros [<-|H]; [now left | now right].
    + intros [<-|H]; [right; now left|].
      apply IH in H as [->|H]; [now left | right; now right].
Qed.

Lemma defaults_by_name_in (t : Tables) (dinner : DinnerType)
  (x : DinnerTypeDefaultItem) :
  In x (defaults_by_name t dinner) ->
  In x (default_items t) /\ di_dinner_type_id x = dinner_type_id dinner.
Proof.
  unfold defaults_by_name.
  induction (default_items t) as [|d l IH]; cbn [filter fold_right].
  - intros [].
  - destruct (Z.eqb_spec (di_dinner_type_id d) (dinner_type_id dinner))
      as [He|Hne]; cbn [fold_right].
    + intros H. apply insert_by_name_in in H as [->|H].
      * split; [now left | exact He].
      * apply IH in H as [H1 H2]. split; [now right | exact H2].
    + intros H. apply IH in H as [H1 H2]. split; [now right | exact H2].
Qed.

Lemma rows_of_nil_not_default (t : Tables) (dinner : DinnerType)
  (rows : list OrderDinnerItem) (x : Z) :
  map odi_item rows = map di_item (defaults_by_name t dinner) ->
  is_default_item t dinner x = false ->
  rows_of rows x = [].
Proof.
  intros Hm Hx. unfold rows_of.
  destruct (filter _ rows) as [|r tail] eqn:Hf; [reflexivity|exfalso].
  assert (Hin : In r (filter (fun r => item_id (odi_item r) =? x) rows))
    by (rewrite Hf; now left).
  apply filter_In in Hin as [Hin Hid].
  apply (in_map odi_item) in Hin. rewrite Hm in Hin.
  apply in_map_iff in Hin as [d [Hd Hind]].
  apply defaults_by_name_in in Hind as [Hind Hdt].
  unfold is_default_item in Hx.
  assert (Ht : existsb
                 (fun d => (di_dinner_type_id d =? dinner_type_id dinner)
                           && (item_id (di_item d) =? x))
                 (default_items t) = true).
  { apply existsb_exists. exists d. split; [exact Hind|].
    rewrite Hd, Hid, Hdt, Z.eqb_refl. reflexivity. }
  congruence.
Qed.

Lemma map_snd_combine_len {A B : Type} (l : list A) (l' : list B) :
  List.length l = List.length l' -> map snd (combine l l') = l'.
Proof.
  revert l'. induction l as [|a l IH]; intros [|b l'] H; cbn in *;
    try discriminate; [reflexivity|].
  f_equal. apply IH. now injection H.
Qed.

(** What a successful creation went through. *)
Lemma create_post_inv (t : Tables) (customers : list Z)
  (s : Promotion.Store) (now new_id : Z) (data : CreateRequest)
  (created : Created) :
  create_post t customers s now new_id data = inr created ->
  exists dinner style opts rows0 dinner_subtotal subtotal,
    find_dinner t (d_code (req_dinner data)) = Some dinner
    /\ find_style t (d_style (req_dinner data)) = Some style
    /\ resolve_dinner_options_for_dinner t dinner
         (d_dinner_options (req_dinner data)) = Some opts
    /\ map odi_item rows0 = map di_item (defaults_by_name t dinner)
    /\ items_loop t (req_items data) (dinner_subtotal, rows0, [])
       = inr (subtotal, c_items created, c_item_options created)
    /\ c_dinner_options created
       = map (fun p => mkOrderDinnerOption (dog_name (do_group (fst p)))
                         (dinner_option_name (fst p)) (snd p) None)
             (combine opts
                (snd (dinner_options_loop Dec.one
                        (fst (apply_style_to_base dinner style)) opts)))
    /\ Promotion.evaluate_discounts s now subtotal
         (Some (req_customer_id data))
         (Str.or_else (req_order_source data) "GUI") (req_coupons data)
       = (Orders.meta_discounts (c_order created),
          Orders.discount_cents (c_order created),
          Orders.total_cents (c_order created))
    /\ Orders.subtotal_cents (c_order created) = subtotal.
Proof.
  unfold create_post. intros H.
  destruct (negb (mem_Z (req_customer_id data) customers)); [discriminate|].
  destruct (find_dinner t (d_code (req_dinner data))) as [dinner|];
    [|discriminate].
  destruct (find_style t (d_style (req_dinner data))) as [style|];
    [|discriminate].
  destruct (negb (validate_style_allowed t dinner style)); [discriminate|].
  destruct (apply_style_to_base dinner style) as [u0 adj] eqn:Hs.
  destruct (resolve_dinner_options_for_dinner t dinner
              (d_dinner_options (req_dinner data))) as [opts|] eqn:Hr;
    [|discriminate].
  destruct (dinner_options_loop Dec.one u0 opts) as [u ds] eqn:Hl.
  destruct (overrides_loop _ _ _) as [e|rows0] eqn:Ho; [discriminate|].
  destruct (items_loop _ _ _) as [e|[[subtotal rows] opt_rows]] eqn:Hi;
    [discriminate|].
  destruct (Promotion.evaluate_discounts _ _ _ _ _ _)
    as [[discounts total_disc] total_after] eqn:He.
  injection H as <-. cbn.
  exists dinner, style, opts, rows0.
  eexists. exists subtotal.
  split; [reflexivity|]. split; [reflexivity|]. split; [exact Hr|].
  split.
  { apply overrides_loop_items in Ho. rewrite Ho, map_map. reflexivity. }
  split; [exact Hi|].
  split; [rewrite Hs; cbn [fst]; rewrite Hl; reflexivity|].
  split; [exact He | reflexivity].
Qed.






Lemma preview_items_lines (t : Tables) (items : list ItemSel) :
  forall tot lines tot' lines',
    preview_items t items (tot, lines) = inr (tot', lines') ->
    map li_item_code lines' = map li_item_code lines ++ map sel_code items
    /\ map li_qty lines' = map li_qty lines ++ map sel_qty items.
Proof.
  induction items as [|it items IH]; intros tot lines tot' lines' H.
  - cbn in H. injection H as _ <-. now rewrite !app_nil_r.
  - cbn [preview_items] in H.
    destruct (find_item t (sel_code it)) as [item|] eqn:Hf; [|discriminate].
    destruct (validate_item_options_for_item t item (sel_options it))
      as [bad|sel_opts]; [discriminate|].
    destruct (calc_item_unit_cents item sel_opts) as [u snaps].
    apply IH in H as [H1 H2]. rewrite H1, H2, !map_app. cbn [map].
    rewrite (find_item_code _ _ _ Hf), <- !app_assoc. split; reflexivity.
Qed.

Lemma preview_post_inv (t : Tables) (s : Promotion.Store) (now : Z)
  (data : PreviewRequest) (p : Preview) :
  preview_post t s now data = inr p ->
  exists tot,
    preview_items t (prev_items data) (0, []) = inr (tot, p_line_items p).
Proof.
  unfold preview_post. intros H.
  destruct (find_dinner t _) as [dinner|]; [|discriminate].
  destruct (find_style t _) as [style|]; [|discriminate].
  destruct (negb _); [discriminate|].
  destruct (apply_style_to_base dinner style) as [u0 adj].
  destruct (resolve_dinner_options_for_dinner t dinner _) as [opts|];
    [|discriminate].
  destruct (dinner_options_loop dec_1_0 u0 opts) as [u ds].
  destruct (preview_overrides _ _ _ _) as [e|adjs]; [discriminate|].
  destruct (preview_items _ _ _) as [e|[tot lines]] eqn:Hp; [discriminate|].
  destruct (Promotion.evaluate_discounts _ _ _ _ _ _) as [[ds' td] ta].
  injection H as <-. cbn. now exists tot.
Qed.

(** C8, as amended: in order creation the entries of the free-item list
    that name the same item (not one of the dinner's default items) end
    up in a single line whose quantity is the sum of the requested
    quantities and whose change tag is "added"; the price preview does
    not merge, it returns one line item per entry, in request order,
    each with its own quantity. *)
Theorem duplicate_item_lines (t : Tables) (customers : list Z)
  (s : Promotion.Store) (now new_id : Z) (data : CreateRequest)
  (created : Created) (dinner : DinnerType) (pdata : PreviewRequest)
  (p : Preview) :
  create_post t customers s now new_id data = inr created ->
  find_dinner t (d_code (req_dinner data)) = Some dinner ->
  preview_post t s now pdata = inr p ->
  (forall x q qs,
      is_default_item t dinner x = false ->
      requested t (req_items data) x = q :: qs ->
      exists r, rows_of (c_items created) x = [r]
                /\ item_id (odi_item r) = x
                /\ odi_final_qty r = sum_qty q qs
                /\ odi_is_default r = false
                /\ odi_change_type r = "added")
  /\ map li_item_code (p_line_items p) = map sel_code (prev_items pdata)
  /\ map li_qty (p_line_items p) = map sel_qty (prev_items pdata).
Proof.
  intros Hc Hd Hp. split.
  - intros x q qs Hx Hq.
    destruct (create_post_inv _ _ _ _ _ _ _ Hc)
      as (dinner' & style & opts & rows0 & dsub & subtotal
          & Hd' & _ & _ & Hm & Hi & _).
    rewrite Hd in Hd'. injection Hd' as <-.
    rewrite (items_loop_rows _ _ _ _ _ _ _ _ x Hi).
    rewrite (rows_of_nil_not_default _ _ _ _ Hm Hx).
    unfold requested in Hq.
    destruct (entries_of t (req_items data) x) as [|e es] eqn:He;
      [discriminate|].
    cbn [map] in Hq. injection Hq as Hq1 Hq2.
    assert (Hin : In e (entries_of t (req_items data) x))
      by (rewrite He; now left).
    apply filter_In in Hin as [_ Hin].
    cbn [lines_after].
    destruct (find_item t (sel_code e)) as [item|]; [|discriminate].
    apply Z.eqb_eq in Hin.
    eexists. split; [reflexivity|].
    rewrite Hq1, Hq2. destruct qs; cbn; auto.
  - destruct (preview_post_inv _ _ _ _ _ Hp) as [tot Hi].
    apply preview_items_lines in Hi. exact Hi.
Qed.

Lemma duplicate_item_lines_witness :
  exists created r,
    create_post Examples.tables [7] Examples.no_promotions 0 1
      Examples.steak_twice_request = inr created
    /\ rows_of (c_items created) 1 = [r]
    /\ odi_final_qty r = Dec.mkDec 300 2.
Proof.
  destruct (create_post Examples.tables [7] Examples.no_promotions 0 1
              Examples.steak_twice_request) as [e|created] eqn:Hc;
    [vm_compute in Hc; discriminate|].
  destruct (preview_post Examples.tables Examples.no_promotions 0
              Examples.steak_twice_preview) as [e|p] eqn:Hp;
    [vm_compute in Hp; discriminate|].
  destruct (duplicate_item_lines _ _ _ _ _ _ _ Examples.valentine _ _
              Hc eq_refl Hp) as [H _].
  destruct (H 1 (Dec.mkDec 100 2) [Dec.mkDec 200 2] eq_refl eq_refl)
    as (r & Hr & _ & Hq & _).
  exists created, r. repeat split; assumption.
Defined.

(** C8 as stated fails for the preview: steak requested twice, 1 and 2,
    comes back as two line items, none of quantity 3. *)
Lemma preview_keeps_duplicate_lines :
  exists p,
    preview_post Examples.tables Examples.no_promotions 0
      Examples.steak_twice_preview = inr p
    /\ map li_item_code (p_line_items p) = ["steak"; "steak"]
    /\ map li_qty (p_line_items p) = [Dec.mkDec 100 2; Dec.mkDec 200 2].
Proof.
  eexists. split; [vm_compute; reflexivity|]. split; reflexivity.
Qed.

End CreatedRows.

(** ** Discount evaluation *)

Section Discounts.
Import Promotion PromotionSpec.

Lemma qcent_of_Z (z : Z) : Dec.coef (_qcent (Dec.of_Z z)) = z.
Proof. unfold _qcent. cbn [Dec.coef Dec.of_Z]. apply round_half_up_of_Z. Qed.

Lemma sum_amounts_app (a b : list Line) :
  sum_amounts (a ++ b) = sum_amounts a + sum_amounts b.
Proof.
  unfold sum_amounts.
  induction a as [|x a IH]; cbn [app fold_right]; [reflexivity|].
  rewrite IH. lia.
Qed.

Lemma candidate_amount (s : Store) (now subtotal : Z) (cid : option Z)
  (chan : string) (m : option Line) (running : Z) (codes : list string)
  (k : string) (c : Coupon) (a : Z) :
  candidate s now subtotal cid chan m running codes k = Some (c, a) ->
  a = _coupon_amount c running /\ 0 < a.
Proof.
  unfold candidate. intros H.
  repeat match type of H with
         | (match ?x with _ => _ end) = _ =>
           destruct x eqn:?; try discriminate
         | (if ?x then _ else _) = _ => destruct x eqn:?; try discriminate
         end.
  injection H as <- <-. split; [reflexivity|]. now apply Z.ltb_lt.
Qed.

Lemma eligible_amounts (s : Store) (now subtotal : Z) (cid : option Z)
  (chan : string) (codes : list string) :
  Forall (fun t => snd t
                   = _coupon_amount (fst t)
                       (after_membership s now cid subtotal)
                   /\ 0 < snd t)
         (eligible_of s now subtotal cid chan codes).
Proof.
  unfold eligible_of. apply Forall_forall. intros [c a] Hin.
  apply in_flat_map in Hin as [k [_ Hk]].
  destruct (candidate _ _ _ _ _ _ _ _ _) as [t|] eqn:Hc; [|contradiction].
  destruct Hk as [->|[]]. now apply candidate_amount in Hc.
Qed.

Lemma stack_loop (eligible : list (Coupon * Z)) :
  forall (running : Z) (discounts : list Line),
    fold_left stack_step eligible (running, discounts)
    = (running - sum_amounts (stack_lines running eligible),
       discounts ++ stack_lines running eligible).
Proof.
  induction eligible as [|t eligible IH]; intros running discounts.
  - cbn. rewrite app_nil_r. f_equal. lia.
  - cbn [fold_left stack_lines]. unfold stack_step at 2.
    destruct (Z.min (snd t) running <=? 0).
    + apply IH.
    + rewrite qcent_of_Z, IH, <- app_assoc. cbn [app sum_amounts fold_right].
      f_equal. unfold sum_amounts, coupon_line. cbn [l_amount_cents]. lia.
Qed.

(** The shape of the result: the membership line first, then the coupon
    lines, and the totals. *)
Lemma evaluate_discounts_shape (s : Store) (now subtotal : Z)
  (cid : option Z) (chan : string) (codes : list string) :
  exists coupon_lines,
    evaluate_discounts s now subtotal cid chan codes
    = (membership_lines s now cid subtotal ++ coupon_lines,
       sum_amounts (membership_lines s now cid subtotal ++ coupon_lines),
       after_membership s now cid subtotal - sum_amounts coupon_lines)
    /\ (existsb (fun t => negb (stackable_with_coupons (fst t)))
                (eligible_of s now subtotal cid chan codes) = false ->
        coupon_lines
        = stack_lines (after_membership s now cid subtotal)
                      (eligible_of s now subtotal cid chan codes))
    /\ (0 <= after_membership s now cid subtotal ->
        0 <= after_membership s now cid subtotal - sum_amounts coupon_lines).
Proof.
  unfold evaluate_discounts, eligible_of, membership_lines, after_membership.
  set (m := _membership_line s now cid subtotal).
  set (r0 := match m with Some l => subtotal - l_amount_cents l
             | None => subtotal end).
  set (ml := match m with Some l => [l] | None => [] end).
  replace (match m with
           | Some m0 =>
             (Dec.coef (_qcent (Dec.of_Z (subtotal - l_amount_cents m0))),
              [m0])
           | None => (subtotal, [])
           end) with (r0, ml)
    by (unfold r0, ml; destruct m; [now rewrite qcent_of_Z | reflexivity]).
  destruct (_normalize_codes codes) as [|k ks] eqn:Hn.
  - exists []. rewrite app_nil_r. cbn. split; [f_equal; lia|].
    split; [reflexivity | lia].
  - set (el := flat_map _ (k :: ks)).
    destruct el as [|first rest] eqn:He.
    + exists []. rewrite app_nil_r. cbn. split; [f_equal; lia|].
      split; [reflexivity | lia].
    + destruct (existsb _ (first :: rest)) eqn:Hx.
      * exists [coupon_line (fst (best_of first rest))
                            (Z.min (snd (best_of first rest)) r0)].
        rewrite qcent_of_Z. cbn [sum_amounts fold_right l_amount_cents
                                 coupon_line].
        split; [f_equal; lia|]. split; [discriminate | lia].
      * rewrite stack_loop, qcent_of_Z.
        exists (stack_lines r0 (first :: rest)).
        split; [reflexivity|]. split; [reflexivity|].
        intros Hr. clear He Hx el. revert Hr. generalize r0.
        induction (first :: rest) as [|t l IH]; intros r Hr; cbn; [lia|].
        destruct (Z.leb_spec (Z.min (snd t) r) 0) as [Hle|Hgt].
        -- now apply IH.
        -- cbn [sum_amounts fold_right l_amount_cents coupon_line].
           assert (H := IH (r - Z.min (snd t) r) ltac:(lia)).
           unfold sum_amounts in *. lia.
Qed.


(** The total is not negative as long as the membership line leaves a
    total that is not negative. *)
Lemma evaluate_discounts_total_nonneg (s : Store) (now subtotal : Z)
  (cid : option Z) (chan : string) (codes : list string) :
  0 <= after_membership s now cid subtotal ->
  0 <= snd (evaluate_discounts s now subtotal cid chan codes).
Proof.
  intros H.
  destruct (evaluate_discounts_shape s now subtotal cid chan codes)
    as [cl [-> [_ Hn]]].
  cbn [snd]. now apply Hn.
Qed.

(** C1, as amended: the amount of every eligible coupon is computed once,
    in the candidate loop, against the running total left by the
    membership line (not by earlier coupons), capped by
    max_discount_cents and rounded half-up; when the eligible coupons
    stack, each is applied in input order with that amount capped by the
    running total of the moment.  With two stackable percent coupons the
    second one's amount is its percentage of the post-membership total,
    capped by what the first one left. *)
Theorem coupon_amounts_against_membership_total (s : Store)
  (now subtotal : Z) (cid : option Z) (chan : string)
  (codes : list string) :
  existsb (fun t => negb (stackable_with_coupons (fst t)))
          (eligible_of s now subtotal cid chan codes) = false ->
  Forall (fun t => snd t
                   = _coupon_amount (fst t)
                       (after_membership s now cid subtotal)
                   /\ 0 < snd t)
         (eligible_of s now subtotal cid chan codes)
  /\ fst (fst (evaluate_discounts s now subtotal cid chan codes))
     = membership_lines s now cid subtotal
       ++ stack_lines (after_membership s now cid subtotal)
                      (eligible_of s now subtotal cid chan codes).
Proof.
  intros Hst. split; [apply eligible_amounts|].
  destruct (evaluate_discounts_shape s now subtotal cid chan codes)
    as [cl [-> [Hcl _]]].
  cbn [fst]. now rewrite (Hcl Hst).
Qed.

Lemma coupon_amounts_against_membership_total_witness :
  fst (fst (evaluate_discounts Examples.promotions 0 1000 None "GUI"
              ["A10"; "B10"]))
  = [coupon_line (Examples.percent_coupon "A10") 100;
     coupon_line (Examples.percent_coupon "B10") 100].
Proof.
  exact (proj2 (coupon_amounts_against_membership_total
                  Examples.promotions 0 1000 None "GUI" ["A10"; "B10"]
                  eq_refl)).
Defined.

(** C1 as stated fails: of two stackable 10% coupons on 1,000 the second
    takes 100, ten percent of the total before the first, not 90, ten
    percent of what the first left. *)
Lemma second_coupon_not_compounded :
  map l_amount_cents
      (fst (fst (evaluate_discounts Examples.promotions 0 1000 None "GUI"
                   ["A10"; "B10"]))) = [100; 100]
  /\ amount_after (Examples.percent_coupon "B10") 1000
       [coupon_line (Examples.percent_coupon "A10") 100] = 90
  /\ nth 1 (map l_amount_cents
              (fst (fst (evaluate_discounts Examples.promotions 0 1000 None
                           "GUI" ["A10"; "B10"])))) 0
     <> amount_after (Examples.percent_coupon "B10") 1000
          [coupon_line (Examples.percent_coupon "A10") 100].
Proof. repeat split; vm_compute; congruence. Qed.

(** The scenario of the specification: subtotal 210,000, membership 5%
    leaves 199,500; WELCOME10 (10%, capped at 5,000) takes 5,000; total
    194,500. *)
Example evaluate_discounts_scenario :
  evaluate_discounts Examples.welcome_store 0 210000 (Some 9) "GUI"
    ["welcome10"]
  = ([mkLine "membership" "Membership" None 10500;
      mkLine "coupon" "Welcome" (Some "WELCOME10") 5000], 15500, 194500).
Proof. vm_compute. reflexivity. Qed.

(** C2 at a membership of 150%: the discount of 1,500 on a subtotal of
    1,000 is subtracted as it is, and the total returned is -500. *)
Theorem membership_over_subtotal_goes_negative :
  evaluate_discounts Examples.promotions 0 1000 (Some 7) "GUI" []
  = ([mkLine "membership" "Gold" None 1500], 1500, -500).
Proof. vm_compute. reflexivity. Qed.

(** C7 at the same code sent twice: both spellings are normalised to
    SAVE10, both pass the candidate loop, and two lines of that code are
    returned. *)
Theorem same_code_twice_gives_two_lines :
  _normalize_codes ["SAVE10"; " save10 "] = ["SAVE10"; "SAVE10"]
  /\ evaluate_discounts Examples.promotions 0 10000 None "GUI"
       ["SAVE10"; " save10 "]
     = ([mkLine "coupon" "SAVE10" (Some "SAVE10") 1000;
         mkLine "coupon" "SAVE10" (Some "SAVE10") 1000], 2000, 8000).
Proof. split; vm_compute; reflexivity. Qed.

End Discounts.

(** ** Order lifecycle *)

Section Lifecycle.
Import Orders OrderViews LifecycleSpec.

(** Whatever goes wrong in the body of [_notify] leaves the connection
    as it was. *)
Lemma notify_swallows (env : Env) (msg : Msg) (c : Conn) (e : Exn) :
  notify_body env msg c = inl e -> _notify env msg c = c.
Proof. unfold _notify. now intros ->. Qed.

(** Inside an atomic block nothing is executed: the hook is registered,
    or nothing happens at all. *)
Lemma notify_in_atomic (env : Env) (msg : Msg) (c : Conn) :
  (0 < atomic_depth c)%nat ->
  _notify env msg c = c
  \/ _notify env msg c
     = mkConn (atomic_depth c)
              (run_on_commit c ++ [mkHook (notify_channels env) msg])
              (row c) (committed c) (notified c).
Proof.
  intros Hd. unfold _notify, notify_body.
  destruct (settings_ok env), (json_ok env); cbn [negb]; auto.
  apply Nat.ltb_lt in Hd. rewrite Hd. auto.
Qed.

Ltac case_env env H :=
  destruct env as [so chs jo po]; unfold delivery_fails in H; cbn in H;
  destruct so, jo, po; try discriminate H.






(** The scenario of the specification: accept on a pending order moves
    it to PREPARING, and a second accept on the same order is a
    conflict. *)
Example accept_twice (env : Env) (now : Z) (by_ : option Z) (o : Order)
  (sent : list (string * Msg)) :
  delivery_fails env = false ->
  status o = PENDING ->
  let '(o1, c1, r1) := accept env now by_ o (at_rest o sent) in
  let '(o2, c2, r2) := accept env now by_ o1 c1 in
  r1 = inr tt /\ status o1 = PREP
  /\ is_conflict r2 = true /\ status o2 = PREP /\ c2 = c1.
Proof.
  intros H Hs. destruct o as [i cu st src sub dis tot md ops].
  cbn in Hs. subst st. case_env env H; cbn; repeat split; reflexivity.
Qed.

(** C10 where pg_notify fails: the hook registered by [_notify] runs
    after the commit and outside its try, the transition is committed,
    and the exception leaves [accept]; the action view answers 409 for an
    order that did move to PREPARING. *)
Theorem notify_failure_leaves_accept :
  accept Examples.notify_down 0 (Some 3) Examples.pending_order
         (at_rest Examples.pending_order [])
  = (set_staff_ops (set_status Examples.pending_order PREP)
                   [mkStaffOp "accept" (Some 3) 0 ""],
     at_rest (set_staff_ops (set_status Examples.pending_order PREP)
                            [mkStaffOp "accept" (Some 3) 0 ""]) [],
     inl DatabaseError)
  /\ snd (action_post Examples.notify_down 0 (Some 3) 1 "accept" None
                      (at_rest Examples.pending_order []))
     = Conflict409 "database".
Proof. split; vm_compute; reflexivity. Qed.

End Lifecycle.

(** ** Event relay *)

Section RelayFacts.
Import EventBus.

Variable json_loads : string -> option json.
Variable chans : list string.
Variable conn_info : list (string * json).

Lemma jsonable_id : forall x : json, _jsonable x = x.
Proof.
  fix self 1. intros x.
  destruct x as [| | | |l|kv]; cbn [_jsonable]; try reflexivity.
  - f_equal. induction l as [|y l IH]; cbn [map]; [reflexivity|].
    now rewrite self, IH.
  - f_equal. induction kv as [|[k v] kv IH]; cbn [map fst snd];
      [reflexivity|].
    now rewrite self, IH.
Qed.


Lemma dict_set_fresh (k : string) (v : json) (kv : list (string * json)) :
  dict_get k kv = None -> dict_set k v kv = kv ++ [(k, v)].
Proof.
  induction kv as [|[k' v'] kv IH]; cbn; [reflexivity|].
  destruct (String.eqb k' k); [discriminate|].
  intros H. now rewrite IH.
Qed.



End RelayFacts.


(** A note without a channel name is relayed under the name "message". *)
Example relay_without_channel :
  EventBus.handle_note Examples.toy_loads (EventBus.mkNotify None "{}")
  = EventBus.JObj [("event", EventBus.JStr "message")].
Proof. reflexivity. Qed.

(** A transport error does not end the generator: it sleeps, doubles the
    backoff up to ten seconds, yields a new diagnostic event and goes on
    with the script. *)
Lemma relay_reconnects (json_loads : string -> option EventBus.json)
  (chans : list string) (conn_info : list (string * EventBus.json))
  (backoff : Z) (rest : list EventBus.Step) :
  EventBus.relay json_loads chans conn_info backoff
    (EventBus.TransportError :: rest)
  = EventBus.Sleep backoff
    :: EventBus.Yield (EventBus.diagnostic chans conn_info)
    :: EventBus.relay json_loads chans conn_info
         (Z.min (backoff * 2) 10000) rest.
Proof. reflexivity. Qed.

(* ================================================================== *)
(** * Further properties of the code *)

(** ** pricing.py *)

Section PricingFacts.
Import Catalog Pricing PricingSpec.

Lemma pow10_pos (n : nat) : 0 < Dec.pow10 n.
Proof. unfold Dec.pow10. apply Z.pow_pos_nonneg; lia. Qed.

(** Rounding commutes with adding a whole number of cents, on amounts
    that are not negative. *)
Lemma round_half_up_add_of_Z (b : Z) (d : Decimal) :
  0 <= b -> 0 <= Dec.coef d ->
  Dec.round_half_up (Dec.add (Dec.of_Z b) d) = b + Dec.round_half_up d.
Proof.
  intros Hb Hd. destruct d as [c p]. cbn [Dec.coef] in Hd.
  unfold Dec.round_half_up, Dec.add, Dec.rescale, Dec.of_Z.
  cbn [Dec.coef Dec.places Nat.max]. rewrite Nat.sub_0_r, Nat.sub_diag, pow10_0.
  pose proof (pow10_pos p) as HP. set (P := Dec.pow10 p) in *.
  rewrite Z.mul_1_r.
  assert (Hn : 0 <= b * P + c) by nia.
  rewrite (Z.abs_eq _ Hn), (Z.abs_eq _ Hd).
  replace (2 * (b * P + c) + P) with (b * (2 * P) + (2 * c + P)) by lia.
  rewrite Z.div_add_l by lia.
  destruct (Z.eq_dec c 0) as [->|Hc].
  - cbn [Z.sgn]. rewrite Z.add_0_r.
    replace ((2 * 0 + P) / (2 * P)) with 0
      by (symmetry; apply Z.div_small; lia).
    destruct (Z.eq_dec b 0) as [->|Hb0]; [reflexivity|].
    rewrite Z.sgn_pos by nia. lia.
  - rewrite (Z.sgn_pos c) by lia. rewrite Z.sgn_pos by nia. lia.
Qed.

(** X1: with addon-mode options only, the unit price of an item is its
    base price plus the deltas of the options, with no rounding loss. *)
Theorem addon_only_unit_price (item : MenuItem) (opts : list ItemOption) :
  (forall o, In o opts -> is_addon (iog_price_mode (io_group o)) = true) ->
  fst (calc_item_unit_cents item opts)
  = item_base_price_cents item
    + fold_right Z.add 0 (map io_price_delta_cents opts).
Proof.
  intros H. rewrite calc_item_unit_cents_eq. cbn [fst].
  unfold formula_unit_cents, sum_addon_deltas, addon_opts, multiplier_opts.
  assert (Ha : filter (fun o => is_addon (iog_price_mode (io_group o))) opts
               = opts).
  { induction opts as [|o l IH]; [reflexivity|]. cbn [filter].
    rewrite (H o (or_introl eq_refl)), IH; [reflexivity|].
    intros o' Ho'. apply H. now right. }
  assert (Hm : filter (fun o => negb (is_addon (iog_price_mode (io_group o))))
                      opts = []).
  { induction opts as [|o l IH]; [reflexivity|]. cbn [filter].
    rewrite (H o (or_introl eq_refl)). cbn [negb]. apply IH.
    - intros o' Ho'. apply H. now right.
    - clear IH Ha. induction l as [|o' l IHl]; [reflexivity|].
      cbn [filter]. rewrite (H o' (or_intror (or_introl eq_refl))), IHl;
        [reflexivity|].
      intros o'' [->|Ho'']; apply H; [now left | right; now right]. }
  rewrite Ha, Hm. cbn [map product_of fold_right].
  now rewrite dec_mul_one_r, round_half_up_of_Z.
Qed.

Lemma addon_only_unit_price_witness :
  fst (calc_item_unit_cents Examples.steak [Examples.truffle]) = 102000.
Proof.
  rewrite (addon_only_unit_price Examples.steak [Examples.truffle]).
  - reflexivity.
  - intros o [<-|[]]. reflexivity.
Defined.

Lemma mem_Z_In (x : Z) (l : list Z) : mem_Z x l = true <-> In x l.
Proof.
  unfold mem_Z. rewrite existsb_exists. split.
  - intros [y [Hy He]]. apply Z.eqb_eq in He. now subst.
  - intros H. exists x. split; [exact H | apply Z.eqb_refl].
Qed.

(** X2: the item-option check accepts a selection exactly when none of
    the selected options belongs to another item; then it returns the
    selected options of the catalog (ids that name no option are
    ignored); otherwise it reports the ids of the foreign options, at
    least one. *)
Theorem validate_item_options_result (t : Tables) (item : MenuItem)
  (ids : list Z) :
  match validate_item_options_for_item t item ids with
  | inr opts =>
    (forall o, In o opts <->
               In o (item_options t) /\ In (io_option_id o) ids)
    /\ (forall o, In o opts -> iog_item_id (io_group o) = item_id item)
  | inl bad =>
    bad <> []
    /\ (forall b, In b bad <->
                  exists o, In o (item_options t)
                            /\ io_option_id o = b
                            /\ In b ids
                            /\ iog_item_id (io_group o) <> item_id item)
  end.
Proof.
  unfold validate_item_options_for_item.
  destruct ids as [|i ids].
  - split; [|intros o []]. intros o. split; [intros []|intros [_ []]].
  - set (sel := filter (fun o => mem_Z (io_option_id o) (i :: ids))
                       (item_options t)).
    assert (Hsel : forall o, In o sel <->
                     In o (item_options t)
                     /\ In (io_option_id o) (i :: ids)).
    { intros o. unfold sel. rewrite filter_In, mem_Z_In. reflexivity. }
    assert (Hbad : forall b,
               In b (map io_option_id
                       (filter (fun o => negb (iog_item_id (io_group o)
                                               =? item_id item)) sel)) <->
               exists o, In o (item_options t) /\ io_option_id o = b
                         /\ In b (i :: ids)
                         /\ iog_item_id (io_group o) <> item_id item).
    { intros b. rewrite in_map_iff. split.
      - intros [o [<- Ho]]. apply filter_In in Ho as [Ho Hn].
        apply Hsel in Ho as [Ho1 Ho2]. exists o.
        repeat split; try assumption.
        apply negb_true_iff, Z.eqb_neq in Hn. exact Hn.
      - intros [o (Ho1 & <- & Ho2 & Hn)]. exists o. split; [reflexivity|].
        apply filter_In. split; [now apply Hsel|].
        now apply negb_true_iff, Z.eqb_neq. }
    destruct (map io_option_id _) as [|b bad] eqn:Eb.
    + split; [exact Hsel|]. intros o Ho.
      destruct (Z.eq_dec (iog_item_id (io_group o)) (item_id item))
        as [He|Hne]; [exact He|exfalso].
      apply Hsel in Ho as [Ho1 Ho2].
      apply (proj2 (Hbad (io_option_id o))).
      exists o. repeat split; assumption.
    + split; [discriminate | exact Hbad].
Qed.

Lemma dedup_Z_In (x : Z) (l : list Z) : In x (dedup_Z l) <-> In x l.
Proof.
  induction l as [|y l IH]; cbn [dedup_Z]; [reflexivity|].
  destruct (mem_Z y l) eqn:Hm.
  - rewrite IH. split; [now right|]. intros [<-|H]; [|exact H].
    now apply mem_Z_In.
  - cbn [In]. now rewrite IH.
Qed.

Lemma dedup_Z_NoDup (l : list Z) : NoDup (dedup_Z l).
Proof.
  induction l as [|y l IH]; cbn [dedup_Z]; [constructor|].
  destruct (mem_Z y l) eqn:Hm; [exact IH|].
  constructor; [|exact IH]. rewrite dedup_Z_In, <- mem_Z_In. congruence.
Qed.

Lemma filter_keeps_keys_distinct {Row : Type} (key : Row -> Z)
  (keep : Row -> bool) (rows : list Row) (Hkeys : NoDup (map key rows)) :
  NoDup (map key (filter keep rows)).
Proof.
  induction rows as [|r rows IH]; cbn [map filter]; [constructor|].
  inversion Hkeys as [|? ? Hfresh Hrest]; subst.
  destruct (keep r); cbn [map]; [|now apply IH].
  constructor; [|now apply IH].
  intros Hin. apply Hfresh.
  apply in_map_iff in Hin as [r' [Hk Hr']].
  apply filter_In in Hr' as [Hr' _].
  apply in_map_iff. now exists r'.
Qed.

(** X3: with option ids being primary keys, the dinner options of a
    request resolve exactly when every requested id names an option of
    one of the dinner's groups (an id may be repeated); the rows returned
    are then those options, each once, in table order. *)
Theorem resolve_dinner_options_accepts (t : Tables) (dinner : DinnerType)
  (ids : list Z) :
  NoDup (map do_option_id (dinner_options t)) ->
  ((forall i, In i ids ->
      exists o, In o (dinner_options t) /\ do_option_id o = i
                /\ dog_dinner_type_id (do_group o) = dinner_type_id dinner)
   -> resolve_dinner_options_for_dinner t dinner ids
      = Some (DinnerSpec.in_query_order t dinner ids))
  /\ ((exists i, In i ids
        /\ forall o, In o (dinner_options t) -> do_option_id o = i ->
             dog_dinner_type_id (do_group o) <> dinner_type_id dinner)
      -> resolve_dinner_options_for_dinner t dinner ids = None).
Proof.
  intros Hpk.
  destruct ids as [|i0 ids0].
  { split; [|intros [i [[] _]]]. intros _. cbn. f_equal.
    unfold DinnerSpec.in_query_order. cbn [mem_Z existsb andb].
    clear Hpk. induction (dinner_options t) as [|o l IH];
      [reflexivity | exact IH]. }
  set (ids := i0 :: ids0).
  set (sel := DinnerSpec.in_query_order t dinner ids).
  assert (Hsel : forall o, In o sel <->
                   In o (dinner_options t) /\ In (do_option_id o) ids
                   /\ dog_dinner_type_id (do_group o)
                      = dinner_type_id dinner).
  { intros o. unfold sel, DinnerSpec.in_query_order.
    rewrite filter_In, andb_true_iff, mem_Z_In, Z.eqb_eq. tauto. }
  assert (Hnd : NoDup (map do_option_id sel))
    by (apply filter_keeps_keys_distinct; exact Hpk).
  assert (Hincl : incl (map do_option_id sel) (dedup_Z ids)).
  { intros i Hi. apply in_map_iff in Hi as [o [<- Ho]].
    apply dedup_Z_In. now apply Hsel in Ho. }
  assert (Hres : resolve_dinner_options_for_dinner t dinner ids
                 = if (List.length sel =? List.length (dedup_Z ids))%nat
                   then Some sel else None)
    by reflexivity.
  rewrite Hres. split.
  - intros Hall.
    assert (Hrev : incl (dedup_Z ids) (map do_option_id sel)).
    { intros i Hi. apply (proj1 (dedup_Z_In _ _)) in Hi.
      destruct (Hall i Hi) as [o (Ho & <- & Hd)].
      apply in_map. apply Hsel. repeat split; assumption. }
    assert (Hlen : List.length sel = List.length (dedup_Z ids)).
    { rewrite <- (length_map do_option_id sel).
      apply Nat.le_antisymm; apply NoDup_incl_length;
        auto using dedup_Z_NoDup. }
    now rewrite Hlen, Nat.eqb_refl.
  - intros [i [Hi Hno]].
    destruct (Nat.eqb_spec (List.length sel) (List.length (dedup_Z ids)))
      as [Hlen|Hlen]; [exfalso|reflexivity].
    assert (Hrev : incl (dedup_Z ids) (map do_option_id sel)).
    { apply NoDup_length_incl; [exact Hnd| |exact Hincl].
      rewrite length_map. lia. }
    assert (Hin : In i (map do_option_id sel))
      by (apply Hrev, dedup_Z_In; exact Hi).
    apply in_map_iff in Hin as [o [He Ho]]. apply Hsel in Ho as (Ho & _ & Hd).
    exact (Hno o Ho He Hd).
Qed.

Lemma resolve_dinner_options_accepts_witness :
  resolve_dinner_options_for_dinner Examples.tables Examples.valentine
    [12; 11; 12] = Some [Examples.premium; Examples.candles]
  /\ resolve_dinner_options_for_dinner Examples.tables Examples.valentine
       [11; 99] = None.
Proof.
  assert (Hpk : NoDup (map do_option_id (dinner_options Examples.tables))).
  { cbn. repeat constructor; cbn; intuition discriminate. }
  destruct (resolve_dinner_options_accepts Examples.tables
              Examples.valentine [12; 11; 12] Hpk) as [H1 _].
  destruct (resolve_dinner_options_accepts Examples.tables
              Examples.valentine [11; 99] Hpk) as [_ H2].
  split.
  - rewrite H1; [reflexivity|].
    intros i [<-|[<-|[<-|[]]]];
      [exists Examples.candles | exists Examples.premium
       | exists Examples.candles]; cbn; intuition.
  - apply H2. exists 99. split; [cbn; intuition|].
    intros o [<-|[<-|[<-|[]]]]; cbn; discriminate.
Defined.

(** X4: the adjustment returned with the style-adjusted unit price is
    the difference to the dinner's base price; always for a multiplier
    style, and for an addon style when neither the base price nor the
    style's amount is negative. *)
Theorem style_adjustment_is_difference (dinner : DinnerType)
  (style : ServingStyle) :
  (is_addon (style_price_mode style) = true ->
   0 <= dinner_base_price_cents dinner
   /\ 0 <= Dec.coef (style_price_value style)) ->
  fst (apply_style_to_base dinner style)
  = dinner_base_price_cents dinner + snd (apply_style_to_base dinner style).
Proof.
  intros H. unfold apply_style_to_base.
  destruct (is_addon (style_price_mode style)); cbn [fst snd].
  - destruct (H eq_refl) as [Hb Hv]. unfold as_cents_int.
    now apply round_half_up_add_of_Z.
  - unfold as_cents_dec, as_cents_int.
    rewrite dec_sub_of_Z, round_half_up_of_Z. cbn [Dec.coef Dec.of_Z]. lia.
Qed.

Lemma style_adjustment_is_difference_witness :
  fst (apply_style_to_base Examples.valentine Examples.simple)
  = 150000 + snd (apply_style_to_base Examples.valentine Examples.simple).
Proof.
  apply (style_adjustment_is_difference Examples.valentine Examples.simple).
  intros _. split; cbn; lia.
Defined.

(** Where X4's precondition fails: a style of -0.50 on a base of 1 gives
    a unit price of 1 and an adjustment of -1. *)
Example style_adjustment_negative_half :
  apply_style_to_base (mkDinnerType 9 "d" "D" 1 true)
    (mkServingStyle 9 "s" "S" "addon" (Dec.mkDec (-50) 2)) = (1, -1).
Proof. reflexivity. Qed.

End PricingFacts.

(** ** Order creation and price preview *)

Section CreationFacts.
Import Catalog Pricing OrderViews DinnerSpec OrderSpec.

Lemma round_half_up_tenths (k : Z) :
  Dec.round_half_up (Dec.mkDec (k * 10) 1) = k.
Proof.
  unfold Dec.round_half_up. cbn [Dec.coef Dec.places].
  change (Dec.pow10 1) with 10.
  replace (Z.sgn (k * 10)) with (Z.sgn k) by lia.
  replace (2 * Z.abs (k * 10) + 10) with (Z.abs k * (2 * 10) + 10) by lia.
  rewrite Z.div_add_l by lia.
  change (10 / (2 * 10)) with 0. rewrite Z.add_0_r, Z.mul_comm.
  apply Z.abs_sgn.
Qed.

(** The preview's literal 1.0 gives the same deltas as the creation's 1. *)
Lemma dinner_option_delta_literal (u : Z) (o : DinnerOption) :
  dinner_option_delta dec_1_0 u o = dinner_option_delta Dec.one u o.
Proof.
  unfold dinner_option_delta.
  destruct (is_addon (dog_price_mode (do_group o))); [reflexivity|].
  assert (Hdef : as_cents_int (Dec.mul (Dec.of_Z u) (Dec.sub dec_1_0 dec_1_0))
                 = as_cents_int (Dec.mul (Dec.of_Z u)
                                         (Dec.sub Dec.one Dec.one))).
  { unfold as_cents_int, Dec.mul, Dec.sub, Dec.rescale, dec_1_0, Dec.one,
      Dec.of_Z. cbn [Dec.coef Dec.places Nat.max Nat.sub Nat.add].
    rewrite Z.sub_diag, Z.sub_diag, Z.mul_0_r. reflexivity. }
  destruct (do_multiplier o) as [[c p]|]; [|exact Hdef].
  destruct (Dec.truthy (Dec.mkDec c p)); [|exact Hdef].
  unfold as_cents_int, Dec.mul, Dec.sub, Dec.rescale, dec_1_0, Dec.one,
    Dec.of_Z. cbn [Dec.coef Dec.places Nat.add].
  destruct p as [|q].
  - cbn [Nat.max Nat.sub]. rewrite pow10_0. change (Dec.pow10 1) with 10.
    replace (u * (c * 10 - 10 * 1)) with (u * (c - 1) * 10) by lia.
    rewrite round_half_up_tenths.
    replace (u * (c * 1 - 1 * 1)) with (u * (c - 1)) by lia.
    symmetry. apply round_half_up_of_Z.
  - replace (Nat.max (S q) 1) with (S q) by lia.
    replace (Nat.max (S q) 0) with (S q) by lia.
    rewrite Nat.sub_diag, Nat.sub_0_r. cbn [Nat.sub]. rewrite Nat.sub_0_r.
    assert (HS : Dec.pow10 (S q) = 10 * Dec.pow10 q).
    { unfold Dec.pow10. rewrite Nat2Z.inj_succ, Z.pow_succ_r by lia.
      reflexivity. }
    rewrite HS, pow10_0. do 2 f_equal. lia.
Qed.

Lemma dinner_options_loop_literal (opts : list DinnerOption) (u : Z) :
  dinner_options_loop dec_1_0 u opts = dinner_options_loop Dec.one u opts.
Proof.
  unfold dinner_options_loop. generalize (@nil Z) as acc. revert u.
  induction opts as [|o opts IH]; intros u acc; [reflexivity|].
  cbn [fold_left]. unfold dinner_option_step at 2 4.
  rewrite dinner_option_delta_literal. apply IH.
Qed.

Lemma items_loop_subtotal (t : Tables) (items : list ItemSel) :
  forall sub rows opts sub' rows' opts',
    items_loop t items (sub, rows, opts) = inr (sub', rows', opts') ->
    sub' = sub + entries_subtotal t items.
Proof.
  unfold entries_subtotal.
  induction items as [|it items IH]; intros sub rows opts sub' rows' opts' H.
  - cbn in H. injection H as <- _ _. cbn. lia.
  - cbn [items_loop] in H. cbn [map fold_right]. unfold entry_subtotal at 1.
    unfold entry_unit_cents.
    destruct (find_item t (sel_code it)) as [item|]; [|discriminate].
    destruct (validate_item_options_for_item t item (sel_options it))
      as [bad|sel_opts]; [discriminate|].
    destruct (calc_item_unit_cents item sel_opts) as [u snaps].
    apply IH in H. cbn [fst]. lia.
Qed.

Lemma preview_items_subtotal (t : Tables) (items : list ItemSel) :
  forall tot lines tot' lines',
    preview_items t items (tot, lines) = inr (tot', lines') ->
    tot' = tot + entries_subtotal t items.
Proof.
  unfold entries_subtotal.
  induction items as [|it items IH]; intros tot lines tot' lines' H.
  - cbn in H. injection H as <- _. cbn. lia.
  - cbn [preview_items] in H. cbn [map fold_right].
    unfold entry_subtotal at 1. unfold entry_unit_cents.
    destruct (find_item t (sel_code it)) as [item|]; [|discriminate].
    destruct (validate_item_options_for_item t item (sel_options it))
      as [bad|sel_opts]; [discriminate|].
    destruct (calc_item_unit_cents item sel_opts) as [u snaps].
    apply IH in H. cbn [fst]. lia.
Qed.

(** What a successful creation computed, totals included. *)
Lemma create_post_totals (t : Tables) (customers : list Z)
  (s : Promotion.Store) (now new_id : Z) (data : CreateRequest)
  (created : Created) :
  create_post t customers s now new_id data = inr created ->
  exists dinner style opts rows0,
    mem_Z (req_customer_id data) customers = true
    /\ find_dinner t (d_code (req_dinner data)) = Some dinner
    /\ find_style t (d_style (req_dinner data)) = Some style
    /\ validate_style_allowed t dinner style = true
    /\ resolve_dinner_options_for_dinner t dinner
         (d_dinner_options (req_dinner data)) = Some opts
    /\ overrides_loop (defaults_by_name t dinner)
         (d_default_overrides (req_dinner data))
         (map default_row (defaults_by_name t dinner)) = inr rows0
    /\ c_dinner created
       = mkOrderDinner dinner style
           (quantity_or_one (d_quantity (req_dinner data)))
           (dinner_base_price_cents dinner)
           (snd (apply_style_to_base dinner style))
    /\ Orders.subtotal_cents (c_order created)
       = as_cents_int
           (Dec.mul
              (Dec.of_Z (fst (dinner_options_loop Dec.one
                                (fst (apply_style_to_base dinner style))
                                opts)))
              (quantity_or_one (d_quantity (req_dinner data))))
         + entries_subtotal t (req_items data)
    /\ Promotion.evaluate_discounts s now
         (Orders.subtotal_cents (c_order created))
         (Some (req_customer_id data))
         (Str.or_else (req_order_source data) "GUI") (req_coupons data)
       = (Orders.meta_discounts (c_order created),
          Orders.discount_cents (c_order created),
          Orders.total_cents (c_order created))
    /\ Orders.status (c_order created) = Orders.PENDING
    /\ Orders.staff_ops (c_order created) = []
    /\ Orders.id (c_order created) = new_id
    /\ Orders.customer_id (c_order created) = req_customer_id data.
Proof.
  unfold create_post. intros H.
  destruct (mem_Z (req_customer_id data) customers) eqn:Hcust;
    [|discriminate]. cbn [negb] in H.
  destruct (find_dinner t (d_code (req_dinner data))) as [dinner|];
    [|discriminate].
  destruct (find_style t (d_style (req_dinner data))) as [style|];
    [|discriminate].
  destruct (validate_style_allowed t dinner style) eqn:Hal; [|discriminate].
  cbn [negb] in H.
  destruct (apply_style_to_base dinner style) as [u0 adj] eqn:Hs.
  destruct (resolve_dinner_options_for_dinner t dinner
              (d_dinner_options (req_dinner data))) as [opts|] eqn:Hr;
    [|discriminate].
  destruct (dinner_options_loop Dec.one u0 opts) as [u ds] eqn:Hl.
  destruct (overrides_loop _ _ _) as [e|rows0] eqn:Ho; [discriminate|].
  destruct (items_loop _ _ _) as [e|[[subtotal rows] opt_rows]] eqn:Hi;
    [discriminate|].
  destruct (Promotion.evaluate_discounts _ _ _ _ _ _)
    as [[discounts total_disc] total_after] eqn:He.
  injection H as <-. cbn.
  exists dinner, style, opts, rows0.
  apply items_loop_subtotal in Hi. rewrite Hs. cbn [fst snd].
  rewrite Hl. cbn [fst]. subst subtotal.
  repeat split; try reflexivity; try assumption.
Qed.

Lemma preview_post_totals (t : Tables) (s : Promotion.Store) (now : Z)
  (data : PreviewRequest) (p : Preview) :
  preview_post t s now data = inr p ->
  exists dinner style opts,
    find_dinner t (d_code (prev_dinner data)) = Some dinner
    /\ find_style t (d_style (prev_dinner data)) = Some style
    /\ resolve_dinner_options_for_dinner t dinner
         (d_dinner_options (prev_dinner data)) = Some opts
    /\ p_subtotal_cents p
       = as_cents_int
           (Dec.mul
              (Dec.of_Z (fst (dinner_options_loop Dec.one
                                (fst (apply_style_to_base dinner style))
                                opts)))
              (quantity_or_one (d_quantity (prev_dinner data))))
         + entries_subtotal t (prev_items data)
    /\ Promotion.evaluate_discounts s now (p_subtotal_cents p)
         (prev_customer_id data)
         (Str.or_else (prev_order_source data) "GUI") (prev_coupons data)
       = (p_discounts p, p_discount_cents p, p_total_cents p).
Proof.
  unfold preview_post. intros H.
  destruct (find_dinner t _) as [dinner|]; [|discriminate].
  destruct (find_style t _) as [style|]; [|discriminate].
  destruct (negb _); [discriminate|].
  destruct (apply_style_to_base dinner style) as [u0 adj] eqn:Hs.
  destruct (resolve_dinner_options_for_dinner t dinner _) as [opts|] eqn:Hr;
    [|discriminate].
  rewrite dinner_options_loop_literal in H.
  destruct (dinner_options_loop Dec.one u0 opts) as [u ds] eqn:Hl.
  destruct (preview_overrides _ _ _ _) as [e|adjs]; [discriminate|].
  destruct (preview_items _ _ _) as [e|[tot lines]] eqn:Hp; [discriminate|].
  destruct (Promotion.evaluate_discounts _ _ _ _ _ _) as [[ds' td] ta] eqn:He.
  injection H as <-. cbn.
  exists dinner, style, opts.
  apply preview_items_subtotal in Hp. subst tot. rewrite Hs. cbn [fst].
  rewrite Hl. cbn [fst].
  repeat split; try reflexivity; try assumption.
Qed.

(** X5: for the same request data and the same promotion state, the
    price preview and the order creation arrive at the same subtotal,
    the same discount lines, the same discount and the same total. *)
Theorem preview_matches_creation (t : Tables) (customers : list Z)
  (s : Promotion.Store) (now new_id : Z) (data : CreateRequest)
  (created : Created) (p : Preview) :
  create_post t customers s now new_id data = inr created ->
  preview_post t s now (preview_of data) = inr p ->
  p_subtotal_cents p = Orders.subtotal_cents (c_order created)
  /\ p_discounts p = Orders.meta_discounts (c_order created)
  /\ p_discount_cents p = Orders.discount_cents (c_order created)
  /\ p_total_cents p = Orders.total_cents (c_order created).
Proof.
  intros Hc Hp.
  destruct (create_post_totals _ _ _ _ _ _ _ Hc)
    as (dinner & style & opts & rows0 & _ & Hd & Hs & _ & Hr & _ & _
        & Hsub & He & _).
  destruct (preview_post_totals _ _ _ _ _ Hp)
    as (dinner' & style' & opts' & Hd' & Hs' & Hr' & Hsub' & He').
  cbn [preview_of prev_dinner prev_items prev_customer_id prev_order_source
       prev_coupons] in *.
  rewrite Hd in Hd'. injection Hd' as <-.
  rewrite Hs in Hs'. injection Hs' as <-.
  rewrite Hr in Hr'. injection Hr' as <-.
  rewrite <- Hsub in Hsub'. rewrite Hsub', He in He'.
  injection He' as <- <- <-. repeat split; assumption.
Qed.

Lemma preview_matches_creation_witness :
  exists created p,
    create_post Examples.tables [7] Examples.no_promotions 0 1
      Examples.steak_twice_request = inr created
    /\ preview_post Examples.tables Examples.no_promotions 0
         Examples.steak_twice_preview = inr p
    /\ p_total_cents p = Orders.total_cents (c_order created).
Proof.
  destruct (create_post Examples.tables [7] Examples.no_promotions 0 1
              Examples.steak_twice_request) as [e|created] eqn:Hc;
    [vm_compute in Hc; discriminate|].
  destruct (preview_post Examples.tables Examples.no_promotions 0
              Examples.steak_twice_preview) as [e|p] eqn:Hp;
    [vm_compute in Hp; discriminate|].
  exists created, p. split; [reflexivity|]. split; [reflexivity|].
  exact (proj2 (proj2 (proj2
           (preview_matches_creation _ _ _ _ _ _ _ _ Hc Hp)))).
Defined.

(** X6: default overrides change no amount: two creations that differ
    only in their default overrides have the same subtotal, discount
    lines, discount and total. *)
Theorem overrides_change_no_total (t : Tables) (customers : list Z)
  (s : Promotion.Store) (now id1 id2 : Z) (data : CreateRequest)
  (ovs : list OverrideSel) (c1 c2 : Created) :
  create_post t customers s now id1 data = inr c1 ->
  create_post t customers s now id2 (with_overrides data ovs) = inr c2 ->
  Orders.subtotal_cents (c_order c2) = Orders.subtotal_cents (c_order c1)
  /\ Orders.meta_discounts (c_order c2) = Orders.meta_discounts (c_order c1)
  /\ Orders.discount_cents (c_order c2) = Orders.discount_cents (c_order c1)
  /\ Orders.total_cents (c_order c2) = Orders.total_cents (c_order c1)
  /\ c_dinner c2 = c_dinner c1.
Proof.
  intros H1 H2.
  destruct (create_post_totals _ _ _ _ _ _ _ H1)
    as (dinner & style & opts & rows0 & _ & Hd & Hs & _ & Hr & _ & Hod
        & Hsub & He & _).
  destruct (create_post_totals _ _ _ _ _ _ _ H2)
    as (dinner' & style' & opts' & rows0' & _ & Hd' & Hs' & _ & Hr' & _
        & Hod' & Hsub' & He' & _).
  cbn [with_overrides req_dinner req_items req_customer_id req_order_source
       req_coupons d_code d_style d_quantity d_dinner_options] in *.
  rewrite Hd in Hd'. injection Hd' as <-.
  rewrite Hs in Hs'. injection Hs' as <-.
  rewrite Hr in Hr'. injection Hr' as <-.
  rewrite <- Hsub in Hsub'. rewrite Hsub', He in He'.
  injection He' as <- <- <-. rewrite Hod, Hod'. repeat split; assumption.
Qed.

Lemma overrides_change_no_total_witness :
  exists c1 c2,
    create_post Examples.tables [7] Examples.no_promotions 0 1
      Examples.steak_twice_request = inr c1
    /\ create_post Examples.tables [7] Examples.no_promotions 0 2
         (with_overrides Examples.steak_twice_request
            [mkOverrideSel "wine" (Dec.mkDec 0 2)]) = inr c2
    /\ Orders.total_cents (c_order c2) = Orders.total_cents (c_order c1).
Proof.
  destruct (create_post Examples.tables [7] Examples.no_promotions 0 1
              Examples.steak_twice_request) as [e|c1] eqn:H1;
    [vm_compute in H1; discriminate|].
  destruct (create_post Examples.tables [7] Examples.no_promotions 0 2
              (with_overrides Examples.steak_twice_request
                 [mkOverrideSel "wine" (Dec.mkDec 0 2)]))
    as [e|c2] eqn:H2; [vm_compute in H2; discriminate|].
  exists c1, c2. split; [reflexivity|]. split; [reflexivity|].
  exact (proj1 (proj2 (proj2 (proj2
           (overrides_change_no_total _ _ _ _ _ _ _ _ _ _ H1 H2))))).
Defined.



(** X8: the subtotal of a created order is rebuilt from what is stored
    and requested: the style-adjusted unit price plus the stored
    dinner-option deltas, times the dinner quantity, rounded half-up,
    plus one rounded line subtotal per entry of the free-item list (also
    for entries that were merged into one line). *)
Theorem created_subtotal_decomposition (t : Tables) (customers : list Z)
  (s : Promotion.Store) (now new_id : Z) (data : CreateRequest)
  (created : Created) :
  create_post t customers s now new_id data = inr created ->
  Orders.subtotal_cents (c_order created)
  = as_cents_int
      (Dec.mul
         (Dec.of_Z
            (fst (apply_style_to_base (od_dinner_type (c_dinner created))
                                      (od_style (c_dinner created)))
             + sum_Z (map odo_price_delta_cents
                          (c_dinner_options created))))
         (od_quantity (c_dinner created)))
    + entries_subtotal t (req_items data).
Proof.
  intros Hc.
  destruct (create_post_totals _ _ _ _ _ _ _ Hc)
    as (dinner & style & opts & rows0 & _ & Hd & Hs & _ & Hr & _ & Hod
        & Hsub & _).
  destruct (create_post_inv _ _ _ _ _ _ _ Hc)
    as (dinner' & style' & opts' & rows0' & dsub & subtotal
        & Hd' & Hs' & Hr' & _ & _ & Ho & _).
  rewrite Hd in Hd'. injection Hd' as <-.
  rewrite Hs in Hs'. injection Hs' as <-.
  rewrite Hr in Hr'. injection Hr' as <-.
  rewrite Hsub, Hod, Ho. cbn [od_dinner_type od_style od_quantity].
  rewrite map_map. cbn [odo_price_delta_cents].
  unfold dinner_options_loop. rewrite dinner_loop_from. cbn [fst snd app].
  rewrite map_snd_combine_len by (now rewrite deltas_from_length).
  reflexivity.
Qed.

Lemma created_subtotal_decomposition_witness :
  exists created,
    create_post Examples.tables [7] Examples.no_promotions 0 1
      Examples.steak_twice_request = inr created
    /\ Orders.subtotal_cents (c_order created) = 150000 + 300000.
Proof.
  destruct (create_post Examples.tables [7] Examples.no_promotions 0 1
              Examples.steak_twice_request) as [e|created] eqn:Hc;
    [vm_compute in Hc; discriminate|].
  exists created. split; [reflexivity|].
  rewrite (created_subtotal_decomposition _ _ _ _ _ _ _ Hc).
  vm_compute in Hc. injection Hc as <-. reflexivity.
Defined.

Lemma default_qty_of_in (defaults : list DinnerTypeDefaultItem)
  (c : string) (q : Decimal) :
  default_qty_of defaults c = Some q ->
  exists d, In d defaults /\ item_code (di_item d) = c
            /\ di_default_qty d = q.
Proof.
  unfold default_qty_of.
  assert (H : forall l acc,
             fold_left (fun acc d =>
                          if String.eqb (item_code (di_item d)) c
                          then Some (di_default_qty d) else acc) l acc
             = Some q ->
             acc = Some q
             \/ exists d, In d l /\ item_code (di_item d) = c
                          /\ di_default_qty d = q).
  { induction l as [|d l IH]; intros acc Hf; cbn in Hf; [now left|].
    apply IH in Hf as [Hf|[d' (Hin & Hc & Hq)]].
    - destruct (String.eqb_spec (item_code (di_item d)) c) as [He|Hne].
      + injection Hf as Hf. right. exists d. repeat split; auto. now left.
      + now left.
    - right. exists d'. repeat split; auto. now right. }
  intros Hf. apply H in Hf as [Hf|Hf]; [discriminate | exact Hf].
Qed.

Lemma overrides_loop_valid (defaults : list DinnerTypeDefaultItem)
  (ovs : list OverrideSel) :
  forall rows rows',
    overrides_loop defaults ovs rows = inr rows' ->
    Forall (fun ov =>
              exists orig,
                default_qty_of defaults (Str.strip (ov_code ov)) = Some orig
                /\ qty_in_range (ov_qty ov) orig) ovs.
Proof.
  induction ovs as [|ov ovs IH]; intros rows rows' H; [constructor|].
  cbn [overrides_loop] in H.
  destruct (default_qty_of defaults (Str.strip (ov_code ov)))
    as [orig|] eqn:Hq; [|discriminate].
  destruct (Dec.ltb (ov_qty ov) Dec.zero) eqn:H0; [discriminate|].
  destruct (Dec.ltb orig (ov_qty ov)) eqn:H1; [discriminate|].
  cbn [orb] in H. constructor; [|now apply IH in H].
  exists orig. repeat split; assumption.
Qed.

(** X9: when a creation succeeds, every default override of the request
    names (by its stripped code) a default item of the dinner, with a
    quantity between 0 and that item's default quantity. *)
Theorem created_overrides_in_range (t : Tables) (customers : list Z)
  (s : Promotion.Store) (now new_id : Z) (data : CreateRequest)
  (created : Created) :
  create_post t customers s now new_id data = inr created ->
  Forall (fun ov =>
            exists d,
              In d (default_items t)
              /\ di_dinner_type_id d
                 = dinner_type_id (od_dinner_type (c_dinner created))
              /\ item_code (di_item d) = Str.strip (ov_code ov)
              /\ qty_in_range (ov_qty ov) (di_default_qty d))
         (d_default_overrides (req_dinner data)).
Proof.
  intros Hc.
  destruct (create_post_totals _ _ _ _ _ _ _ Hc)
    as (dinner & style & opts & rows0 & _ & _ & _ & _ & _ & Ho & Hod & _).
  rewrite Hod. cbn [od_dinner_type].
  apply overrides_loop_valid in Ho.
  eapply Forall_impl; [|exact Ho].
  intros ov [orig [Hq Hr]].
  apply default_qty_of_in in Hq as [d (Hin & Hcode & Hqty)].
  apply defaults_by_name_in in Hin as [Hin Hdt].
  exists d. subst orig. repeat split; try assumption; apply Hr.
Qed.

Lemma created_overrides_in_range_witness :
  exists created,
    create_post Examples.tables [7] Examples.no_promotions 0 2
      (with_overrides Examples.steak_twice_request
         [mkOverrideSel " wine" (Dec.mkDec 0 2)]) = inr created
    /\ qty_in_range (Dec.mkDec 0 2) (Dec.mkDec 100 2).
Proof.
  destruct (create_post Examples.tables [7] Examples.no_promotions 0 2
              (with_overrides Examples.steak_twice_request
                 [mkOverrideSel " wine" (Dec.mkDec 0 2)]))
    as [e|created] eqn:Hc; [vm_compute in Hc; discriminate|].
  exists created. split; [reflexivity|].
  pose proof (created_overrides_in_range _ _ _ _ _ _ _ Hc) as H.
  cbn in H. inversion H as [|ov l [d (Hin & _ & _ & Hr)] _]; subst.
  destruct Hin as [<-|[]]. exact Hr.
Defined.

End CreationFacts.

(** ** Discount evaluation, further *)

Section DiscountFacts.
Import Promotion PromotionSpec.

Lemma stack_lines_sum_le (eligible : list (Coupon * Z)) :
  forall r, 0 <= r -> 0 <= r - sum_amounts (stack_lines r eligible).
Proof.
  unfold sum_amounts.
  induction eligible as [|t l IH]; intros r Hr; cbn [stack_lines fold_right];
    [lia|].
  destruct (Z.leb_spec (Z.min (snd t) r) 0) as [Hle|Hgt].
  - now apply IH.
  - cbn [fold_right coupon_line l_amount_cents].
    specialize (IH (r - Z.min (snd t) r) ltac:(lia)). lia.
Qed.

(** The result of the evaluation in terms of the eligible list. *)
Lemma evaluate_discounts_applied (s : Store) (now subtotal : Z)
  (cid : option Z) (chan : string) (codes : list string) :
  evaluate_discounts s now subtotal cid chan codes
  = (membership_lines s now cid subtotal
       ++ applied_lines (after_membership s now cid subtotal)
                        (eligible_of s now subtotal cid chan codes),
     sum_amounts
       (membership_lines s now cid subtotal
          ++ applied_lines (after_membership s now cid subtotal)
                           (eligible_of s now subtotal cid chan codes)),
     after_membership s now cid subtotal
     - sum_amounts
         (applied_lines (after_membership s now cid subtotal)
                        (eligible_of s now subtotal cid chan codes))).
Proof.
  unfold evaluate_discounts, eligible_of, membership_lines, after_membership.
  set (m := _membership_line s now cid subtotal).
  set (r0 := match m with Some l => subtotal - l_amount_cents l
             | None => subtotal end).
  set (ml := match m with Some l => [l] | None => [] end).
  replace (match m with
           | Some m0 =>
             (Dec.coef (_qcent (Dec.of_Z (subtotal - l_amount_cents m0))),
              [m0])
           | None => (subtotal, [])
           end) with (r0, ml)
    by (unfold r0, ml; destruct m; [now rewrite qcent_of_Z | reflexivity]).
  destruct (_normalize_codes codes) as [|k ks] eqn:Hn.
  - cbn. rewrite app_nil_r. f_equal. lia.
  - set (el := flat_map _ (k :: ks)).
    unfold applied_lines.
    destruct el as [|first rest] eqn:He.
    + cbn. rewrite app_nil_r. f_equal. lia.
    + destruct (existsb _ (first :: rest)) eqn:Hx.
      * rewrite qcent_of_Z. cbn [sum_amounts fold_right l_amount_cents
                                 coupon_line]. f_equal. lia.
      * rewrite stack_loop, qcent_of_Z. reflexivity.
Qed.

(** X10: for every input the evaluation returns the sum of the amounts of
    its discount lines as the discount, and the subtotal minus that
    discount as the total. *)
Theorem evaluate_discounts_totals (s : Store) (now subtotal : Z)
  (cid : option Z) (chan : string) (codes : list string) :
  snd (fst (evaluate_discounts s now subtotal cid chan codes))
  = sum_amounts (fst (fst (evaluate_discounts s now subtotal cid chan codes)))
  /\ snd (evaluate_discounts s now subtotal cid chan codes)
     = subtotal
       - snd (fst (evaluate_discounts s now subtotal cid chan codes)).
Proof.
  rewrite evaluate_discounts_applied. cbn [fst snd].
  split; [reflexivity|]. rewrite sum_amounts_app.
  unfold membership_lines, after_membership.
  destruct (_membership_line s now cid subtotal); cbn; lia.
Qed.

Lemma coupons_get_in (s : Store) (codes : list string) (k : string)
  (c : Coupon) :
  coupons_get s codes k = Some c -> In c (coupons s) /\ code c = k.
Proof.
  unfold coupons_get.
  assert (H : forall l acc,
             fold_left (fun acc c => if String.eqb (code c) k
                                     then Some c else acc) l acc = Some c ->
             acc = Some c \/ (In c l /\ code c = k)).
  { induction l as [|x l IH]; intros acc Hf; cbn in Hf; [now left|].
    apply IH in Hf as [Hf|[Hin Hc]].
    - destruct (String.eqb_spec (code x) k) as [He|Hne].
      + injection Hf as ->. right. split; [now left | exact He].
      + now left.
    - right. split; [now right | exact Hc]. }
  intros Hf. apply H in Hf as [Hf|[Hin Hc]]; [discriminate|].
  apply filter_In in Hin as [Hin _]. now split.
Qed.

Lemma qcent_of_Z_round (x : Decimal) :
  Dec.coef (_qcent x) = Dec.round_half_up x.
Proof. reflexivity. Qed.

Lemma pow10_add2 (k : nat) : Dec.pow10 (k + 2) = 100 * Dec.pow10 k.
Proof.
  unfold Dec.pow10. rewrite Nat2Z.inj_add, Z.pow_add_r by lia.
  change (10 ^ Z.of_nat 2) with 100. lia.
Qed.

(** A percentage of at most 100 of an amount that is not negative is at
    most the amount, after rounding. *)
Lemma percent_of_le (n : Z) (pct : Decimal) :
  0 <= n -> 0 <= Dec.coef pct ->
  Dec.coef pct <= 100 * Dec.pow10 (Dec.places pct) ->
  Dec.round_half_up (Dec.mul (Dec.of_Z n) (Dec.div100 pct)) <= n.
Proof.
  intros Hn H0 H1. destruct pct as [c k]. cbn [Dec.coef Dec.places] in *.
  unfold Dec.round_half_up, Dec.mul, Dec.div100, Dec.of_Z.
  cbn [Dec.coef Dec.places Nat.add]. rewrite pow10_add2.
  pose proof (pow10_pos k) as HP. set (P := Dec.pow10 k) in *.
  assert (Hnc : 0 <= n * c) by nia.
  rewrite (Z.abs_eq _ Hnc).
  destruct (Z.eq_dec (n * c) 0) as [->|Hz]; [cbn; lia|].
  rewrite Z.sgn_pos by lia. rewrite Z.mul_1_l.
  apply Z.lt_succ_r. apply Z.div_lt_upper_bound; [lia|]. nia.
Qed.

Lemma after_membership_nonneg (s : Store) (now subtotal : Z)
  (cid : option Z) :
  Forall percent_in_range (memberships s) ->
  0 <= subtotal ->
  0 <= after_membership s now cid subtotal.
Proof.
  intros Hp Hs. unfold after_membership, _membership_line.
  destruct cid as [c|]; [|exact Hs].
  destruct (c =? 0); [exact Hs|].
  destruct (find _ (memberships s)) as [m|] eqn:Hf; [|exact Hs].
  destruct (negb (membership_is_valid_now m now)); [exact Hs|].
  destruct (Dec.coef _ <=? 0); [exact Hs|].
  cbn [l_amount_cents]. apply find_some in Hf as [Hin _].
  rewrite Forall_forall in Hp. destruct (Hp m Hin) as [H0 H1].
  rewrite qcent_of_Z_round.
  pose proof (percent_of_le subtotal (m_percent_off m) Hs H0 H1). lia.
Qed.

(** X11: with every membership percentage between 0 and 100 and a
    subtotal that is not negative, the total after discounts is not
    negative, whatever coupons are requested. *)
Theorem total_not_negative (s : Store) (now subtotal : Z) (cid : option Z)
  (chan : string) (codes : list string) :
  Forall percent_in_range (memberships s) ->
  0 <= subtotal ->
  0 <= snd (evaluate_discounts s now subtotal cid chan codes).
Proof.
  intros Hp Hs. apply evaluate_discounts_total_nonneg.
  now apply after_membership_nonneg.
Qed.

Lemma total_not_negative_witness :
  0 <= snd (evaluate_discounts Examples.welcome_store 0 210000 (Some 9)
              "GUI" ["welcome10"]).
Proof.
  apply total_not_negative; [|lia].
  repeat constructor; cbn; lia.
Defined.

Lemma stack_lines_from (r : Z) (eligible : list (Coupon * Z)) :
  Forall (fun l => exists t, In t eligible
                             /\ l = coupon_line (fst t) (l_amount_cents l)
                             /\ 0 < l_amount_cents l <= snd t)
         (stack_lines r eligible).
Proof.
  revert r. induction eligible as [|t el IH]; intros r; cbn [stack_lines];
    [constructor|].
  assert (Hw : forall l' : list Line,
             Forall (fun l => exists t0, In t0 el
                        /\ l = coupon_line (fst t0) (l_amount_cents l)
                        /\ 0 < l_amount_cents l <= snd t0) l' ->
             Forall (fun l => exists t0, In t0 (t :: el)
                        /\ l = coupon_line (fst t0) (l_amount_cents l)
                        /\ 0 < l_amount_cents l <= snd t0) l').
  { intros l' H. eapply Forall_impl; [|exact H].
    intros l [t0 (Hin & Hl & Ha)]. exists t0. split; [now right|auto]. }
  destruct (Z.leb_spec (Z.min (snd t) r) 0) as [Hle|Hgt].
  - apply Hw, IH.
  - constructor; [|apply Hw, IH].
    exists t. split; [now left|]. cbn [coupon_line l_amount_cents].
    split; [reflexivity | lia].
Qed.

Lemma best_of_spec (first : Coupon * Z) (rest : list (Coupon * Z)) :
  In (best_of first rest) (first :: rest)
  /\ forall t, In t (first :: rest) -> snd t <= snd (best_of first rest).
Proof.
  unfold best_of. revert first.
  induction rest as [|x rest IH]; intros first; cbn [fold_left].
  - split; [now left|]. intros t [<-|[]]. lia.
  - destruct (Z.ltb_spec (snd first) (snd x)) as [Hlt|Hge].
    + destruct (IH x) as [Hin Hmax]. split.
      * destruct Hin as [<-|Hin]; [right; now left | right; now right].
      * intros t [<-|[<-|Ht]].
        -- specialize (Hmax x (or_introl eq_refl)). lia.
        -- apply Hmax. now left.
        -- apply Hmax. now right.
    + destruct (IH first) as [Hin Hmax]. split.
      * destruct Hin as [<-|Hin]; [now left | right; now right].
      * intros t [<-|[<-|Ht]].
        -- apply Hmax. now left.
        -- specialize (Hmax first (or_introl eq_refl)). lia.
        -- apply Hmax. now right.
Qed.

(** X12: the discount lines are the membership line, if there is one,
    followed by coupon lines only: at most one line has type
    "membership", it comes first and carries no code, and every line
    after it has type "coupon" and the code of a coupon. *)
Theorem membership_line_first (s : Store) (now subtotal : Z)
  (cid : option Z) (chan : string) (codes : list string) :
  exists coupon_lines,
    fst (fst (evaluate_discounts s now subtotal cid chan codes))
    = membership_lines s now cid subtotal ++ coupon_lines
    /\ (List.length (membership_lines s now cid subtotal) <= 1)%nat
    /\ Forall (fun l => l_type l = "membership" /\ l_code l = None
                        /\ 0 < l_amount_cents l)
              (membership_lines s now cid subtotal)
    /\ Forall (fun l => l_type l = "coupon"
                        /\ exists c, In c (coupons s)
                                     /\ l_code l = Some (code c))
              coupon_lines.
Proof.
  rewrite evaluate_discounts_applied. cbn [fst].
  exists (applied_lines (after_membership s now cid subtotal)
                        (eligible_of s now subtotal cid chan codes)).
  split; [reflexivity|]. split; [|split].
  - unfold membership_lines. destruct (_membership_line _ _ _ _); cbn; lia.
  - unfold membership_lines, _membership_line.
    destruct cid as [c|]; [|constructor].
    destruct (c =? 0); [constructor|].
    destruct (find _ _) as [m|]; [|constructor].
    destruct (negb _); [constructor|].
    destruct (Z.leb_spec (Dec.coef (_qcent (Dec.mul (Dec.of_Z subtotal)
                                    (Dec.div100 (m_percent_off m))))) 0);
      constructor; [|constructor].
    cbn. repeat split. assumption.
  - assert (Hel : forall t, In t (eligible_of s now subtotal cid chan codes)
                    -> In (fst t) (coupons s)).
    { intros [c a] Hin. unfold eligible_of in Hin.
      apply in_flat_map in Hin as [k [_ Hk]].
      destruct (candidate _ _ _ _ _ _ _ _ _) as [t|] eqn:Hc;
        [|contradiction].
      destruct Hk as [->|[]]. cbn [fst].
      unfold candidate in Hc.
      destruct (coupons_get s _ _) as [c'|] eqn:Hg; [|discriminate].
      assert (c' = c).
      { repeat match type of Hc with
               | (if ?x then _ else _) = _ =>
                 destruct x; try discriminate
               end. now injection Hc. }
      subst c'. exact (proj1 (coupons_get_in _ _ _ _ Hg)). }
    unfold applied_lines.
    destruct (eligible_of s now subtotal cid chan codes)
      as [|first rest] eqn:He; [constructor|].
    destruct (existsb _ (first :: rest)).
    + constructor; [|constructor]. split; [reflexivity|].
      exists (fst (best_of first rest)). split; [|reflexivity].
      apply Hel. apply best_of_spec.
    + eapply Forall_impl; [|apply stack_lines_from].
      intros l [t (Hin & Hl & _)]. rewrite Hl. split; [reflexivity|].
      exists (fst t). split; [now apply Hel | reflexivity].
Qed.



Lemma candidate_sound (s : Store) (now subtotal : Z) (cid : option Z)
  (chan : string) (running : Z) (codes : list string) (k : string)
  (c : Coupon) (a : Z) :
  candidate s now subtotal cid chan (_membership_line s now cid subtotal)
            running codes k = Some (c, a) ->
  passed_checks s now subtotal cid chan c /\ code c = Str.upper k.
Proof.
  unfold candidate, passed_checks. intros H.
  destruct (coupons_get s codes (Str.upper k)) as [c'|] eqn:Hg;
    [|discriminate].
  destruct (negb (is_valid_now c' now)) eqn:Hv; [discriminate|].
  destruct (negb (String.eqb (channel c') "ANY"
                  || String.eqb (channel c') (Str.or_else chan "GUI")))
    eqn:Hch; [discriminate|].
  destruct (match min_subtotal_cents c' with
            | Some ms => subtotal <? ms | None => false end) eqn:Hms;
    [discriminate|].
  destruct (match max_redemptions_per_user c', cid with
            | Some cap, Some cid0 => _ | _, _ => false end) eqn:Hpu;
    [discriminate|].
  destruct (match max_redemptions_global c' with
            | Some cap => _ | None => false end) eqn:Hgl; [discriminate|].
  destruct (match _membership_line s now cid subtotal with
            | Some _ => true | None => false end
            && negb (stackable_with_membership c')) eqn:Hst;
    [discriminate|].
  cbv zeta in H. destruct (0 <? _coupon_amount c' running); [|discriminate].
  injection H as -> _.
  apply coupons_get_in in Hg as [Hin Hcode].
  split; [|exact Hcode].
  split; [exact Hin|].
  split; [now apply negb_false_iff in Hv|].
  split.
  { apply negb_false_iff, orb_true_iff in Hch as [Hc|Hc];
      apply String.eqb_eq in Hc; auto. }
  split.
  { intros ms Hm. rewrite Hm in Hms. apply Z.ltb_ge in Hms. exact Hms. }
  split.
  { intros cap cv Hcap Hcid Hnz. rewrite Hcap, Hcid in Hpu.
    apply Z.eqb_neq in Hnz. rewrite Hnz in Hpu. cbn [negb andb] in Hpu.
    apply Z.leb_gt in Hpu. exact Hpu. }
  split.
  { intros cap Hcap. rewrite Hcap in Hgl. apply Z.leb_gt in Hgl.
    exact Hgl. }
  intros Hm. destruct (_membership_line s now cid subtotal);
    [|contradiction]. cbn [andb] in Hst. now apply negb_false_iff in Hst.
Qed.

Lemma coupon_amount_le_cap (c : Coupon) (base cap : Z) :
  max_discount_cents c = Some cap -> _coupon_amount c base <= Z.max 0 cap.
Proof. unfold _coupon_amount. intros ->. lia. Qed.

(** X14: every coupon line of the result belongs to a coupon of the
    store that passed every check of the candidate loop (active and
    inside its validity window, channel, minimum subtotal against the
    original subtotal, per-user and global redemption counts below their
    caps, stackable with the membership when a membership line is
    applied); its amount is at most the coupon's amount against the
    post-membership total, hence at most the coupon's max_discount_cents
    when that is set and not negative. *)
Theorem coupon_lines_passed_checks (s : Store) (now subtotal : Z)
  (cid : option Z) (chan : string) (codes : list string) :
  Forall (fun l =>
            forall k, l_code l = Some k ->
              exists c,
                code c = k
                /\ passed_checks s now subtotal cid chan c
                /\ l_amount_cents l
                   <= _coupon_amount c (after_membership s now cid subtotal)
                /\ (forall cap, max_discount_cents c = Some cap ->
                                0 <= cap -> l_amount_cents l <= cap))
         (fst (fst (evaluate_discounts s now subtotal cid chan codes))).
Proof.
  rewrite evaluate_discounts_applied. cbn [fst].
  apply Forall_app. split.
  - unfold membership_lines, _membership_line.
    destruct cid as [c|]; [|constructor].
    destruct (c =? 0); [constructor|].
    destruct (find _ _) as [m|]; [|constructor].
    destruct (negb _); [constructor|].
    destruct (_ <=? 0); constructor; [|constructor].
    intros k Hk. discriminate Hk.
  - assert (Hel : forall t,
               In t (eligible_of s now subtotal cid chan codes) ->
               passed_checks s now subtotal cid chan (fst t)
               /\ snd t = _coupon_amount (fst t)
                            (after_membership s now cid subtotal)).
    { intros [c a] Hin. unfold eligible_of in Hin.
      apply in_flat_map in Hin as [k [_ Hk]].
      destruct (candidate _ _ _ _ _ _ _ _ _) as [t|] eqn:Hc;
        [|contradiction].
      destruct Hk as [->|[]]. cbn [fst snd]. split.
      - exact (proj1 (candidate_sound _ _ _ _ _ _ _ _ _ _ Hc)).
      - exact (proj1 (candidate_amount _ _ _ _ _ _ _ _ _ _ _ Hc)). }
    assert (Hline : forall t a,
               In t (eligible_of s now subtotal cid chan codes) ->
               a <= snd t ->
               forall k, l_code (coupon_line (fst t) a) = Some k ->
                 exists c,
                   code c = k
                   /\ passed_checks s now subtotal cid chan c
                   /\ l_amount_cents (coupon_line (fst t) a)
                      <= _coupon_amount c
                           (after_membership s now cid subtotal)
                   /\ (forall cap, max_discount_cents c = Some cap ->
                                   0 <= cap ->
                                   l_amount_cents (coupon_line (fst t) a)
                                   <= cap)).
    { intros t a Hin Ha k Hk. cbn in Hk. injection Hk as <-.
      destruct (Hel t Hin) as [Hp Hamt]. exists (fst t).
      cbn [coupon_line l_amount_cents].
      split; [reflexivity|]. split; [exact Hp|]. split; [lia|].
      intros cap Hcap H0.
      pose proof (coupon_amount_le_cap (fst t)
                    (after_membership s now cid subtotal) cap Hcap). lia. }
    unfold applied_lines.
    destruct (eligible_of s now subtotal cid chan codes)
      as [|first rest] eqn:He; [constructor|].
    destruct (existsb _ (first :: rest)).
    + constructor; [|constructor].
      apply Hline; [apply best_of_spec | lia].
    + eapply Forall_impl; [|apply stack_lines_from].
      intros l [t (Hin & Hl & Ha)]. rewrite Hl.
      apply Hline; [exact Hin | lia].
Qed.

End DiscountFacts.

(** ** Redemption *)

Section RedemptionFacts.
Import Promotion PromotionSpec Redemption.

Variables (now order_id customer_id : Z) (chan : string).

(** A turn of the redeem loop either leaves the state alone or appends
    one row, for the coupon of the key, after every check. *)
Lemma redeem_step_cases (keys : list string) (s : Store)
  (rows : list CouponRedemption) (kv : string * Z) :
  redeem_step now order_id customer_id chan keys (s, rows) kv = (s, rows)
  \/ exists c,
       coupons_get s keys (fst kv) = Some c
       /\ is_valid_now c now = true
       /\ (channel c = "ANY" \/ channel c = Str.or_else chan "GUI")
       /\ (forall cap, max_redemptions_per_user c = Some cap ->
                       used_by s c customer_id < cap)
       /\ (forall cap, max_redemptions_global c = Some cap ->
                       used_global s c < cap)
       /\ ~ In (code c, order_id) (map ledger_key (redemptions s))
       /\ redeem_step now order_id customer_id chan keys (s, rows) kv
          = (add_redemption s
               (mkRedemption (code c) customer_id order_id (snd kv)
                             (Str.or_else chan "GUI")),
             rows ++ [mkRedemption (code c) customer_id order_id (snd kv)
                                   (Str.or_else chan "GUI")]).
Proof.
  unfold redeem_step.
  destruct (coupons_get s keys (fst kv)) as [c|] eqn:Hg; [|now left].
  destruct (negb (is_valid_now c now)) eqn:Hv; [now left|].
  destruct (negb (_ || _)) eqn:Hch; [now left|].
  destruct (match max_redemptions_per_user c with
            | Some cap => _ | None => false end) eqn:Hpu; [now left|].
  destruct (match max_redemptions_global c with
            | Some cap => _ | None => false end) eqn:Hgl; [now left|].
  destruct (existsb _ (redemptions s)) eqn:Hex; [now left|].
  right. exists c. split; [reflexivity|].
  split; [now apply negb_false_iff in Hv|].
  split.
  { apply negb_false_iff, orb_true_iff in Hch as [H|H];
      apply String.eqb_eq in H; auto. }
  split.
  { intros cap Hcap. rewrite Hcap in Hpu. now apply Z.leb_gt in Hpu. }
  split.
  { intros cap Hcap. rewrite Hcap in Hgl. now apply Z.leb_gt in Hgl. }
  split; [|reflexivity].
  intros Hin. apply in_map_iff in Hin as [r [Hk Hr]].
  unfold ledger_key in Hk. injection Hk as Hk1 Hk2.
  assert (Ht : existsb (fun r => String.eqb (r_coupon r) (code c)
                                 && (r_order_id r =? order_id))
                       (redemptions s) = true).
  { apply existsb_exists. exists r. split; [exact Hr|].
    rewrite Hk1, Hk2, String.eqb_refl, Z.eqb_refl. reflexivity. }
  congruence.
Qed.

Lemma NoDup_snoc {A : Type} (l : list A) (x : A) :
  NoDup l -> ~ In x l -> NoDup (l ++ [x]).
Proof.
  induction l as [|a l IH]; cbn; intros Hn Hx.
  - constructor; [intros []|constructor].
  - inversion Hn as [|? ? Ha Hl]; subst. constructor.
    + rewrite in_app_iff. cbn. intuition.
    + apply IH; intuition.
Qed.

Lemma redeem_loop_unique (keys : list string) (pc : list (string * Z)) :
  forall s rows,
    ledger_unique s ->
    ledger_unique
      (fst (fold_left (redeem_step now order_id customer_id chan keys)
                      pc (s, rows))).
Proof.
  induction pc as [|kv pc IH]; intros s rows Hu; [exact Hu|].
  cbn [fold_left].
  destruct (redeem_step_cases keys s rows kv)
    as [->|(c & _ & _ & _ & _ & _ & Hnew & ->)].
  - now apply IH.
  - apply IH. unfold ledger_unique, add_redemption. cbn [redemptions].
    rewrite map_app. cbn [map ledger_key r_coupon r_order_id].
    now apply NoDup_snoc.
Qed.











Lemma redeem_discounts_loop (s : Store) (discounts : list Line) :
  redeem_discounts s now order_id customer_id chan discounts
  = fold_left (redeem_step now order_id customer_id chan
                           (map fst (per_code_of discounts)))
              (per_code_of discounts) (s, []).
Proof.
  unfold redeem_discounts. destruct discounts as [|d ds]; [reflexivity|].
  destruct (per_code_of (d :: ds)); reflexivity.
Qed.

(** X15: redemption keeps the ledger's unique (coupon, order) pairs: if no
    pair occurs twice before the call, none does after it. *)
Theorem redeem_keeps_ledger_unique (s : Store) (discounts : list Line) :
  ledger_unique s ->
  ledger_unique
    (fst (redeem_discounts s now order_id customer_id chan discounts)).
Proof.
  intros Hu. rewrite redeem_discounts_loop. now apply redeem_loop_unique.
Qed.


Lemma count_add (s : Store) (r : CouponRedemption)
  (p : CouponRedemption -> bool) :
  count_redemptions (add_redemption s r) p
  = count_redemptions s p + (if p r then 1 else 0).
Proof.
  unfold count_redemptions, add_redemption. cbn [redemptions].
  rewrite filter_app, length_app. cbn [filter].
  destruct (p r); cbn [List.length]; lia.
Qed.

Lemma same_code_same_coupon (s : Store) (a b : Coupon) :
  NoDup (map code (coupons s)) ->
  In a (coupons s) -> In b (coupons s) -> code a = code b -> a = b.
Proof.
  induction (coupons s) as [|x l IH]; cbn [map]; intros Hn Ha Hb He;
    [destruct Ha|].
  inversion Hn as [|? ? Hx Hl]; subst.
  destruct Ha as [->|Ha], Hb as [->|Hb].
  - reflexivity.
  - exfalso. apply Hx. rewrite He. now apply in_map.
  - exfalso. apply Hx. rewrite <- He. now apply in_map.
  - now apply IH.
Qed.

Lemma redeem_loop_caps_global (keys : list string)
  (pc : list (string * Z)) (c : Coupon) (s0 : Store) :
  NoDup (map code (coupons s0)) ->
  In c (coupons s0) ->
  forall s rows,
    coupons s = coupons s0 ->
    (forall cap, max_redemptions_global c = Some cap ->
                 used_global s c <= cap) ->
    forall cap, max_redemptions_global c = Some cap ->
      used_global
        (fst (fold_left (redeem_step now order_id customer_id chan keys)
                        pc (s, rows))) c <= cap.
Proof.
  intros Hnd Hc.
  induction pc as [|kv pc IH]; intros s rows Hcs Hg; [exact Hg|].
  cbn [fold_left].
  destruct (redeem_step_cases keys s rows kv)
    as [->|(c' & Hget & _ & _ & Hpu & Hgl & _ & ->)].
  - now apply IH.
  - apply IH; [exact Hcs|].
    intros cap Hcap. unfold used_global. rewrite count_add.
    cbn [r_coupon]. fold (used_global s c).
    destruct (String.eqb_spec (code c') (code c)) as [He|Hne].
    + apply coupons_get_in in Hget as [Hin' _]. rewrite Hcs in Hin'.
      assert (c' = c) by (eapply same_code_same_coupon; eassumption).
      subst c'. specialize (Hgl cap Hcap). lia.
    + specialize (Hg cap Hcap). lia.
Qed.

Lemma redeem_loop_caps_user (keys : list string)
  (pc : list (string * Z)) (c : Coupon) (s0 : Store) :
  NoDup (map code (coupons s0)) ->
  In c (coupons s0) ->
  forall s rows,
    coupons s = coupons s0 ->
    (forall cap, max_redemptions_per_user c = Some cap ->
                 used_by s c customer_id <= cap) ->
    forall cap, max_redemptions_per_user c = Some cap ->
      used_by
        (fst (fold_left (redeem_step now order_id customer_id chan keys)
                        pc (s, rows))) c customer_id <= cap.
Proof.
  intros Hnd Hc.
  induction pc as [|kv pc IH]; intros s rows Hcs Hu; [exact Hu|].
  cbn [fold_left].
  destruct (redeem_step_cases keys s rows kv)
    as [->|(c' & Hget & _ & _ & Hpu & Hgl & _ & ->)].
  - now apply IH.
  - apply IH; [exact Hcs|].
    intros cap Hcap. unfold used_by. rewrite count_add.
    cbn [r_coupon r_customer_id]. fold (used_by s c customer_id).
    destruct (String.eqb_spec (code c') (code c)) as [He|Hne].
    + apply coupons_get_in in Hget as [Hin' _]. rewrite Hcs in Hin'.
      assert (c' = c) by (eapply same_code_same_coupon; eassumption).
      subst c'. specialize (Hpu cap Hcap). rewrite Z.eqb_refl.
      cbn [andb]. lia.
    + cbn [andb]. specialize (Hu cap Hcap). lia.
Qed.

(** X17: with coupon codes unique, redemption never takes a coupon over
    a cap it was within: for every coupon, a global count that is at most
    max_redemptions_global before the call is so after it, and likewise
    the count of the customer against max_redemptions_per_user. *)
Theorem redeem_respects_caps (s : Store) (discounts : list Line)
  (c : Coupon) :
  NoDup (map code (coupons s)) ->
  In c (coupons s) ->
  (forall cap, max_redemptions_global c = Some cap ->
     used_global s c <= cap ->
     used_global
       (fst (redeem_discounts s now order_id customer_id chan discounts)) c
     <= cap)
  /\ (forall cap, max_redemptions_per_user c = Some cap ->
        used_by s c customer_id <= cap ->
        used_by
          (fst (redeem_discounts s now order_id customer_id chan discounts))
          c customer_id <= cap).
Proof.
  intros Hnd Hc. rewrite redeem_discounts_loop. split.
  - intros cap Hcap Hle.
    assert (Hstep := redeem_loop_caps_global
                       (map fst (per_code_of discounts))
                       (per_code_of discounts) c s Hnd Hc s [] eq_refl).
    apply Hstep; [|exact Hcap].
    intros cap' Hcap'. congruence.
  - intros cap Hcap Hle.
    assert (Hstep := redeem_loop_caps_user
                       (map fst (per_code_of discounts))
                       (per_code_of discounts) c s Hnd Hc s [] eq_refl).
    apply Hstep; [|exact Hcap].
    intros cap' Hcap'. congruence.
Qed.

Lemma pc_get_add_same (k : string) (a : Z) (pc : list (string * Z)) :
  pc_get k (per_code_add k a pc)
  = Some (match pc_get k pc with Some v => v | None => 0 end + a).
Proof.
  unfold pc_get. induction pc as [|[k' v] pc IH]; cbn.
  - now rewrite String.eqb_refl.
  - destruct (String.eqb k' k) eqn:E; cbn; rewrite E; [reflexivity|].
    exact IH.
Qed.

Lemma pc_get_add_other (k k' : string) (a : Z) (pc : list (string * Z)) :
  k' <> k -> pc_get k (per_code_add k' a pc) = pc_get k pc.
Proof.
  intros Hne. unfold pc_get. induction pc as [|[k0 v] pc IH]; cbn.
  - destruct (String.eqb_spec k' k); [contradiction|reflexivity].
  - destruct (String.eqb_spec k0 k') as [->|Hn0]; cbn.
    + destruct (String.eqb_spec k' k); [contradiction|reflexivity].
    + destruct (String.eqb k0 k); [reflexivity | exact IH].
Qed.

Lemma per_code_add_keys (k : string) (a : Z) (pc : list (string * Z))
  (x : string) :
  In x (map fst (per_code_add k a pc)) <-> x = k \/ In x (map fst pc).
Proof.
  induction pc as [|[k' v] pc IH]; cbn.
  - intuition.
  - destruct (String.eqb_spec k' k) as [->|Hne]; cbn; [intuition|].
    rewrite IH. intuition.
Qed.

Lemma per_code_add_NoDup (k : string) (a : Z) (pc : list (string * Z)) :
  NoDup (map fst pc) -> NoDup (map fst (per_code_add k a pc)).
Proof.
  induction pc as [|[k' v] pc IH]; cbn; intros Hn.
  - constructor; [intros []|constructor].
  - inversion Hn as [|? ? Hx Hl]; subst.
    destruct (String.eqb_spec k' k) as [->|Hne]; cbn.
    + now constructor.
    + constructor; [|now apply IH].
      rewrite per_code_add_keys. intuition.
Qed.

Lemma per_code_fold (k : string) (ds : list Line) :
  k <> "" ->
  forall pc,
    pc_get k (fold_left per_code_step ds pc)
    = match lines_of_code ds k with
      | [] => pc_get k pc
      | ls => Some (match pc_get k pc with Some v => v | None => 0 end
                    + sum_amounts ls)
      end.
Proof.
  intros Hk. induction ds as [|d ds IH]; intros pc; [reflexivity|].
  cbn [fold_left]. rewrite IH. unfold per_code_step, lines_of_code.
  cbn [filter].
  destruct (String.eqb (l_type d) "coupon"); cbn [negb andb];
    [|reflexivity].
  set (kd := Str.upper (match l_code d with Some c => c | None => "" end)).
  fold (lines_of_code ds k).
  destruct (String.eqb_spec kd "") as [He|Hne].
  - rewrite He. destruct (String.eqb_spec "" k); [congruence|reflexivity].
  - destruct (String.eqb_spec kd k) as [->|Hkd].
    + rewrite pc_get_add_same.
      destruct (lines_of_code ds k) as [|l ls];
        cbn [sum_amounts fold_right]; f_equal; lia.
    + rewrite (pc_get_add_other k kd _ _ Hkd). reflexivity.
Qed.

Lemma per_code_fold_keys (ds : list Line) :
  forall pc,
    NoDup (map fst pc) -> ~ In "" (map fst pc) ->
    NoDup (map fst (fold_left per_code_step ds pc))
    /\ ~ In "" (map fst (fold_left per_code_step ds pc)).
Proof.
  induction ds as [|d ds IH]; intros pc Hn He; [now split|].
  cbn [fold_left]. apply IH; unfold per_code_step;
    destruct (negb _); try assumption;
    destruct (String.eqb_spec
                (Str.upper (match l_code d with
                            | Some c => c | None => "" end)) "")
      as [H0|H0]; try assumption.
  - now apply per_code_add_NoDup.
  - rewrite per_code_add_keys. intuition.
Qed.

Lemma pc_get_in (pc : list (string * Z)) (k : string) (v : Z) :
  NoDup (map fst pc) -> In (k, v) pc -> pc_get k pc = Some v.
Proof.
  unfold pc_get. induction pc as [|[k' v'] pc IH]; cbn; intros Hn Hin;
    [destruct Hin|].
  inversion Hn as [|? ? Hx Hl]; subst.
  destruct Hin as [[= -> ->]|Hin].
  - now rewrite String.eqb_refl.
  - destruct (String.eqb_spec k' k) as [->|Hne]; [|now apply IH].
    exfalso. apply Hx. apply in_map_iff. now exists (k, v).
Qed.

(** What the first loop of [redeem_discounts] leaves for a code. *)
Lemma per_code_of_in (ds : list Line) (k : string) (v : Z) :
  In (k, v) (per_code_of ds) ->
  k <> "" /\ lines_of_code ds k <> []
  /\ v = sum_amounts (lines_of_code ds k).
Proof.
  intros Hin. unfold per_code_of in *.
  destruct (per_code_fold_keys ds [] (NoDup_nil _) (fun H => H))
    as [Hn He].
  assert (Hk : k <> "").
  { intros ->. apply He. apply in_map_iff. now exists ("", v). }
  split; [exact Hk|].
  pose proof (pc_get_in _ _ _ Hn Hin) as Hg.
  rewrite (per_code_fold k ds Hk) in Hg.
  destruct (lines_of_code ds k) as [|l ls]; [discriminate|].
  split; [discriminate|]. cbn in Hg. injection Hg as <-. cbn. lia.
Qed.

Lemma redeem_loop_rows (keys : list string) (pc_all : list (string * Z))
  (s0 : Store) (Q : CouponRedemption -> Prop) :
  (forall kv c,
      In kv pc_all -> In c (coupons s0) -> code c = fst kv ->
      is_valid_now c now = true ->
      Q (mkRedemption (code c) customer_id order_id (snd kv)
                      (Str.or_else chan "GUI"))) ->
  forall pc s rows,
    incl pc pc_all ->
    coupons s = coupons s0 ->
    NoDup (map fst pc) ->
    (forall r, In r rows -> ~ In (r_coupon r) (map fst pc)) ->
    NoDup (map r_coupon rows) ->
    Forall Q rows ->
    exists new,
      fold_left (redeem_step now order_id customer_id chan keys)
                pc (s, rows)
      = (mkStore (memberships s) (coupons s) (redemptions s ++ new),
         rows ++ new)
      /\ NoDup (map r_coupon (rows ++ new))
      /\ Forall Q (rows ++ new).
Proof.
  intros HQ. induction pc as [|kv pc IH];
    intros s rows Hincl Hcs Hn Hfresh Hnd HF.
  - exists []. cbn. rewrite !app_nil_r. destruct s. now repeat split.
  - cbn [fold_left]. inversion Hn as [|? ? Hx Hl]; subst.
    assert (Hincl' : incl pc pc_all)
      by (intros x Hx'; apply Hincl; now right).
    destruct (redeem_step_cases keys s rows kv)
      as [->|(c & Hget & Hv & _ & _ & _ & _ & ->)].
    + apply IH; try assumption.
      intros r Hr Hin. apply (Hfresh r Hr). now right.
    + apply coupons_get_in in Hget as [Hinc Hcode].
      set (row := mkRedemption (code c) customer_id order_id (snd kv)
                               (Str.or_else chan "GUI")).
      destruct (IH (add_redemption s row) (rows ++ [row]))
        as (new & Hf & Hnd' & HF'); try assumption.
      * intros r Hr Hin. apply in_app_iff in Hr as [Hr|[<-|[]]].
        -- apply (Hfresh r Hr). now right.
        -- cbn [r_coupon row] in Hin. rewrite Hcode in Hin. contradiction.
      * rewrite map_app. cbn [map r_coupon row]. apply NoDup_snoc;
          [exact Hnd|].
        intros Hin. apply in_map_iff in Hin as [r [Hr1 Hr2]].
        apply (Hfresh r Hr2). left. rewrite Hr1. exact (eq_sym Hcode).
      * apply Forall_app. split; [exact HF|]. constructor; [|constructor].
        apply HQ; try assumption.
        -- apply Hincl. now left.
        -- now rewrite <- Hcs.
      * exists (row :: new). rewrite Hf. unfold add_redemption.
        cbn [memberships coupons redemptions].
        rewrite <- !app_assoc in *. cbn [app] in *. now repeat split.
Qed.

(** X18: the rows a redemption creates are appended to the ledger, at
    most one per coupon code; each is for the order, the customer and
    the channel of the call (GUI when none is given) and for a coupon of
    the store that is valid now, and its amount is the sum of the
    amounts of the coupon lines of that code; membership lines and lines
    without a code are never recorded. *)
Theorem redeem_rows (s : Store) (discounts : list Line) :
  let '(s', rows) :=
    redeem_discounts s now order_id customer_id chan discounts in
  s' = mkStore (memberships s) (coupons s) (redemptions s ++ rows)
  /\ NoDup (map r_coupon rows)
  /\ Forall (fun r =>
               r_order_id r = order_id
               /\ r_customer_id r = customer_id
               /\ r_channel r = Str.or_else chan "GUI"
               /\ r_coupon r <> ""
               /\ lines_of_code discounts (r_coupon r) <> []
               /\ r_amount_cents r
                  = sum_amounts (lines_of_code discounts (r_coupon r))
               /\ exists c, In c (coupons s) /\ code c = r_coupon r
                            /\ is_valid_now c now = true)
            rows.
Proof.
  rewrite redeem_discounts_loop.
  destruct (per_code_fold_keys discounts [] (NoDup_nil _) (fun H => H))
    as [Hn _]. fold (per_code_of discounts) in Hn.
  destruct (redeem_loop_rows (map fst (per_code_of discounts))
              (per_code_of discounts) s
              (fun r =>
                 r_order_id r = order_id
                 /\ r_customer_id r = customer_id
                 /\ r_channel r = Str.or_else chan "GUI"
                 /\ r_coupon r <> ""
                 /\ lines_of_code discounts (r_coupon r) <> []
                 /\ r_amount_cents r
                    = sum_amounts (lines_of_code discounts (r_coupon r))
                 /\ exists c, In c (coupons s) /\ code c = r_coupon r
                              /\ is_valid_now c now = true))
    with (pc := per_code_of discounts) (s := s)
         (rows := @nil CouponRedemption)
    as (new & Hf & Hnd & HF).
  - intros [k v] c Hin Hc Hcode Hv. cbn [fst snd] in *.
    cbn [r_order_id r_customer_id r_channel r_coupon r_amount_cents].
    destruct (per_code_of_in _ _ _ Hin) as (Hk & Hl & Hsum).
    rewrite Hcode. repeat split; try assumption.
    exists c. now repeat split.
  - apply incl_refl.
  - reflexivity.
  - exact Hn.
  - intros r [].
  - constructor.
  - constructor.
  - rewrite Hf. cbn [app] in *. now repeat split.
Qed.

End RedemptionFacts.

Lemma redeem_keeps_ledger_unique_witness :
  PromotionSpec.ledger_unique
    (fst (Redemption.redeem_discounts Examples.once_store 0 1 7 "GUI"
            Examples.once_lines)).
Proof.
  apply redeem_keeps_ledger_unique. constructor.
Defined.

Lemma redeem_respects_caps_witness :
  PromotionSpec.used_global
    (fst (Redemption.redeem_discounts
            (fst (Redemption.redeem_discounts Examples.once_store 0 1 7
                    "GUI" Examples.once_lines))
            0 2 8 "GUI" Examples.once_lines))
    Examples.once_coupon <= 1.
Proof.
  refine (proj1 (redeem_respects_caps 0 2 8 "GUI" _ Examples.once_lines
                   Examples.once_coupon _ _) 1 eq_refl _).
  - cbn. repeat constructor; cbn; intuition discriminate.
  - cbn. now left.
  - vm_compute. discriminate.
Defined.

(** The order of the examples: ONCE and SAVE10 are recorded, SAVE10 with
    the sum of its two lines, the membership line is not; a second order
    gets no ONCE row. *)
Example redeem_discounts_scenario :
  map (fun r => (Promotion.r_coupon r, Promotion.r_amount_cents r))
      (snd (Redemption.redeem_discounts Examples.once_store 0 1 7 "GUI"
              Examples.once_lines))
  = [("ONCE", 500); ("SAVE10", 2000)]
  /\ map (fun r => (Promotion.r_coupon r, Promotion.r_amount_cents r))
         (snd (Redemption.redeem_discounts
                 (fst (Redemption.redeem_discounts Examples.once_store 0 1
                         7 "GUI" Examples.once_lines))
                 0 2 8 "GUI" Examples.once_lines))
     = [("SAVE10", 2000)].
Proof. split; vm_compute; reflexivity. Qed.

(** ** Coupon methods *)

Section CouponFacts.
Import Promotion PromotionSpec CouponModel.

(** X19: for the two kinds a coupon can have, percent and fixed, the
    model method [Coupon._calc_amount] and the service function
    [_coupon_amount] compute the same amount. *)
Theorem calc_amount_agrees (c : Coupon) (base : Z) :
  kind c = "percent" \/ kind c = "fixed" ->
  _calc_amount c base = _coupon_amount c base.
Proof.
  unfold _calc_amount, _coupon_amount, _qcent.
  intros [H|H]; rewrite H; reflexivity.
Qed.

Lemma calc_amount_agrees_witness :
  _calc_amount (Examples.percent_coupon "A10") 1000 = 100.
Proof.
  rewrite (calc_amount_agrees (Examples.percent_coupon "A10") 1000).
  - reflexivity.
  - now left.
Defined.

(** For any other kind the two differ: the method gives 0, the service
    treats the coupon as a fixed one. *)
Example calc_amount_other_kind :
  _calc_amount (mkCoupon "X" "X" "" true "bogo" (Dec.mkDec 50000 2) None
                  None None None true true "ANY" None None) 1000 = 0
  /\ _coupon_amount (mkCoupon "X" "X" "" true "bogo" (Dec.mkDec 50000 2)
                       None None None None true true "ANY" None None) 1000
     = 500.
Proof. split; reflexivity. Qed.

(** X20: a coupon that passes the checks of the candidate loop of
    [evaluate_discounts] for a named channel is redeemable according to
    [Coupon.can_redeem] for that channel, customer and subtotal. *)
Theorem passed_checks_can_redeem (s : Store) (now subtotal : Z)
  (cid : option Z) (chan : string) (c : Coupon) :
  passed_checks s now subtotal cid chan c ->
  chan <> "" ->
  can_redeem s now c cid subtotal (Some chan) = (true, None).
Proof.
  intros (Hin & Hv & Hch & Hms & Hpu & Hgl & _) Hne.
  unfold is_valid_now, in_window in Hv. unfold can_redeem.
  destruct (negb (active c)); [discriminate|].
  destruct (match valid_from c with Some f => now <? f | None => false end);
    [discriminate|].
  destruct (match valid_until c with Some u => u <? now | None => false end);
    [discriminate|].
  assert (Hor : Str.or_else chan "GUI" = chan /\ Str.or_else chan "ANY" = chan).
  { unfold Str.or_else. destruct (String.eqb_spec chan "");
      [contradiction | now split]. }
  destruct Hor as [Hg Ha]. rewrite Hg in Hch. rewrite Ha.
  assert (Hc : negb (String.eqb (channel c) "")
               && negb (String.eqb (channel c) "ANY")
               && negb (String.eqb chan (channel c)) = false).
  { destruct Hch as [-> | ->].
    - cbn. reflexivity.
    - rewrite String.eqb_refl. cbn. now rewrite !andb_false_r. }
  rewrite Hc.
  assert (Hm : match min_subtotal_cents c with
               | Some ms => negb (ms =? 0) && (subtotal <? ms)
               | None => false
               end = false).
  { destruct (min_subtotal_cents c) as [ms|]; [|reflexivity].
    specialize (Hms ms eq_refl). apply andb_false_iff. right.
    now apply Z.ltb_ge. }
  rewrite Hm.
  assert (Hgb : match max_redemptions_global c with
                | Some cap =>
                  cap <=? count_redemptions s (fun r =>
                            String.eqb (r_coupon r) (code c))
                | None => false
                end = false).
  { destruct (max_redemptions_global c) as [cap|]; [|reflexivity].
    apply Z.leb_gt. now apply Hgl. }
  rewrite Hgb.
  destruct cid as [cv|]; [|reflexivity].
  destruct (max_redemptions_per_user c) as [cap|] eqn:Hcap; [|reflexivity].
  destruct (Z.eqb_spec cv 0) as [H0|H0]; [reflexivity|].
  cbn [negb andb].
  replace (cap <=? _) with false; [reflexivity|].
  symmetry. apply Z.leb_gt. now apply (Hpu cap cv).
Qed.

Lemma passed_checks_can_redeem_witness :
  can_redeem Examples.promotions 0 (Examples.percent_coupon "A10") None
             1000 (Some "GUI") = (true, None).
Proof.
  apply (passed_checks_can_redeem Examples.promotions 0 1000 None "GUI").
  - unfold passed_checks.
    split; [cbn; now left|]. split; [reflexivity|]. split; [now left|].
    split; [intros ms H; discriminate H|].
    split; [intros cap cv H; discriminate H|].
    split; [intros cap H; discriminate H|].
    intros H. exfalso. now apply H.
  - discriminate.
Defined.

End CouponFacts.

(** ** Order lifecycle, further *)

Section LifecycleFacts.
Import Orders OrderViews LifecycleSpec.

(** The transition methods in every environment, on a connection that
    is outside any transaction. *)
Lemma run_at_rest (env : Env) (now : Z) (by_ : option Z) (o : Order)
  (a : Action) (sent : list (string * Msg)) :
  run env now by_ a o (at_rest o sent)
  = if permitted (status o) a then
      (moved o a by_ now,
       at_rest (moved o a by_ now)
         (sent ++ if encodable env && pg_notify_ok env
                  then map (fun ch => (ch, message_of o a))
                           (notify_channels env)
                  else []),
       if delivery_fails env then inl DatabaseError else inr tt)
    else
      (o, at_rest o sent,
       inl (DomainError
              (match a with
               | Accept => "Only pending orders can be accepted."
               | MarkReady => "Only preparing orders can be marked ready."
               | Dispatch =>
                 "Only preparing orders can go out for delivery."
               | Deliver =>
                 "Only orders out for delivery can be delivered."
               | Cancel _ =>
                 "Cannot cancel already completed/canceled order."
               end))).
Proof.
  destruct o as [i cu st src sub dis tot md ops].
  destruct env as [so chs jo po].
  unfold delivery_fails, encodable. cbn [settings_ok json_ok pg_notify_ok
                                         notify_channels].
  destruct a as [| | | |reason]; destruct st; destruct so, jo, po;
    cbn; rewrite ?app_nil_r; reflexivity.
Qed.


(** X22: an order never moves backwards and never leaves a terminal
    status: after any action, in any environment, its rank is at least
    what it was, and a delivered or canceled order is left exactly as it
    was, with a conflict raised. *)
Theorem status_never_goes_back (env : Env) (now : Z) (by_ : option Z)
  (o : Order) (a : Action) (sent : list (string * Msg)) :
  let '(o', c', r) := run env now by_ a o (at_rest o sent) in
  (rank (status o) <= rank (status o'))%nat
  /\ (terminal (status o) = true ->
      o' = o /\ c' = at_rest o sent /\ is_conflict r = true)
  /\ (a = MarkReady -> status o' = status o).
Proof.
  rewrite run_at_rest. destruct o as [i cu st src sub dis tot md ops].
  cbn [status]. destruct a as [| | | |reason]; destruct st; cbn;
    repeat split; try lia; try discriminate; reflexivity.
Qed.





(** X25: whatever the action string, the action view changes something
    only when it answers 200, and then it has performed an action the
    table permits; an answer of 400 (unsupported action), 404 (no such
    order) or 409 (refused) leaves the connection as it was, as long as
    the delivery of notifications does not fail. *)
Theorem action_post_changes_only_on_200 (env : Env) (now : Z)
  (by_ : option Z) (pk : Z) (raw_action : string)
  (raw_reason : option string) (o : Order) (sent : list (string * Msg)) :
  delivery_fails env = false ->
  match action_post env now by_ pk raw_action raw_reason (at_rest o sent)
  with
  | (c', Ok200 o') =>
    pk = id o
    /\ exists a, permitted (status o) a = true
                 /\ o' = moved o a by_ now
                 /\ committed c' = o'
  | (c', _) => c' = at_rest o sent
  end.
Proof.
  intros Hdf. unfold action_post. cbn [committed at_rest].
  destruct (Z.eqb_spec (id o) pk) as [Hpk|Hpk]; cbn [negb];
    [|reflexivity].
  assert (Hrun : forall a,
             match (let '(o', c', r) := run env now by_ a o (at_rest o sent)
                    in match r with
                       | inr _ => (c', Ok200 o')
                       | inl e => (c', Conflict409 (exn_detail e))
                       end) with
             | (c', Ok200 o') =>
               pk = id o
               /\ exists a, permitted (status o) a = true
                            /\ o' = moved o a by_ now
                            /\ committed c' = o'
             | (c', _) => c' = at_rest o sent
             end).
  { intros a. rewrite run_at_rest, Hdf.
    destruct (permitted (status o) a) eqn:Hp; [|reflexivity].
    split; [now symmetry|]. exists a. now repeat split. }
  fold (at_rest o sent).
  destruct (String.eqb _ "accept"); [exact (Hrun Accept)|].
  destruct (in_list _ ["mark-ready"; "ready"]); [exact (Hrun MarkReady)|].
  destruct (in_list _ ["out-for-delivery"; "dispatch"; "out"]);
    [exact (Hrun Dispatch)|].
  destruct (in_list _ ["deliver"; "delivered"]); [exact (Hrun Deliver)|].
  destruct (String.eqb _ "cancel"); [|reflexivity].
  exact (Hrun (Cancel (match raw_reason with
                       | Some r => if String.eqb r "" then None else Some r
                       | None => None
                       end))).
Qed.

Lemma action_post_changes_only_on_200_witness :
  delivery_fails Examples.healthy = false
  /\ fst (action_post Examples.healthy 0 (Some 3) 1 " Fly " None
            (at_rest Examples.pending_order []))
     = at_rest Examples.pending_order [].
Proof.
  split; [reflexivity|].
  pose proof (action_post_changes_only_on_200 Examples.healthy 0 (Some 3)
                1 " Fly " None Examples.pending_order [] eq_refl) as H.
  destruct (action_post Examples.healthy 0 (Some 3) 1 " Fly " None
              (at_rest Examples.pending_order [])) as [c' resp] eqn:E.
  assert (Hr : resp = BadRequest400 "Unsupported action")
    by (vm_compute in E; congruence).
  rewrite Hr in H. exact H.
Defined.

End LifecycleFacts.

(** ** eventbus.py and the stream of OrdersSSEView *)

Section StreamFacts.
Import Orders LifecycleSpec EventBus StaffViews StreamSpec.

Variable json_loads : string -> option json.
Variable chans : list string.
Variable conn_info : list (string * json).
Variable json_dumps : json -> string.
Variable py_str : json -> string.

Lemma dict_set_same (k : string) (v : json) (kv : list (string * json)) :
  dict_get k kv = Some v -> dict_set k v kv = kv.
Proof.
  induction kv as [|[k' v'] kv IH]; cbn; [discriminate|].
  destruct (String.eqb k' k).
  - now intros [= ->].
  - intros H. now rewrite IH.
Qed.

Lemma dict_get_snoc (k : string) (v : json) (kv : list (string * json)) :
  dict_get k (kv ++ [(k, v)])
  = match dict_get k kv with Some w => Some w | None => Some v end.
Proof.
  induction kv as [|[k' v'] kv IH]; cbn.
  - now rewrite String.eqb_refl.
  - destruct (String.eqb k' k); [reflexivity|exact IH].
Qed.

(** What the drain loop yields for a note whose payload is a dict. *)
Lemma handle_note_dict (note : Notify) (kv : list (string * json)) :
  decode json_loads (payload note) = JObj kv ->
  match dict_get "event" kv with
  | Some _ => handle_note json_loads note = JObj kv
  | None =>
    exists name, handle_note json_loads note
                 = JObj (kv ++ [("event", JStr name)])
  end.
Proof.
  intros Hd. unfold handle_note. rewrite Hd.
  destruct (dict_get "event" kv) as [ev|] eqn:He.
  - now rewrite jsonable_id, (dict_set_same _ _ _ He).
  - assert (Hs : forall n, _jsonable (JObj (dict_set "event" (JStr n) kv))
                           = JObj (kv ++ [("event", JStr n)]))
      by (intros n; now rewrite jsonable_id, (dict_set_fresh _ _ _ He)).
    destruct (dict_get "op" kv) as [[| | |op| |]|];
      try (eexists; apply Hs).
    destruct (mapping op); eexists; apply Hs.
Qed.

Lemma handle_note_has_event (note : Notify) :
  exists kv ev, handle_note json_loads note = JObj kv
                /\ dict_get "event" kv = Some ev.
Proof.
  destruct (decode json_loads (payload note)) as [| b | n | s | l | kv] eqn:Hd;
    try (unfold handle_note; rewrite Hd; eexists; eexists; split;
         [reflexivity|reflexivity]).
  pose proof (handle_note_dict note kv Hd) as H.
  destruct (dict_get "event" kv) as [ev|] eqn:He.
  - exists kv, ev. now split.
  - destruct H as [name H]. exists (kv ++ [("event", JStr name)]), (JStr name).
    split; [exact H|]. now rewrite dict_get_snoc, He.
Qed.

Lemma diagnostic_has_event :
  exists kv, diagnostic chans conn_info = JObj kv
             /\ dict_get "event" kv = Some (JStr "diagnostic").
Proof.
  unfold diagnostic. rewrite jsonable_id. eexists. split; reflexivity.
Qed.

Lemma relay_yields_have_event (backoff : Z) (steps : list Step) :
  Forall (fun obj => exists kv ev, obj = JObj kv
                                   /\ dict_get "event" kv = Some ev)
         (yields (relay json_loads chans conn_info backoff steps)).
Proof.
  revert backoff.
  induction steps as [|[notes| |] rest IH]; intros backoff; cbn [relay].
  - constructor.
  - induction notes as [|n notes IHn]; cbn [map app yields]; [apply IH|].
    constructor; [apply handle_note_has_event|exact IHn].
  - apply IH.
  - cbn [yields]. constructor; [|apply IH].
    destruct diagnostic_has_event as (kv & E & He). now exists kv, (JStr "diagnostic").
Qed.

(** X26: everything the relay yields, for any script of socket events and
    any payloads, is a dict that has an [event] field. *)
Theorem relayed_objects_name_their_event (steps : list Step) :
  Forall (fun obj => exists kv ev, obj = JObj kv
                                   /\ dict_get "event" kv = Some ev)
         (yields (iter_order_notifications json_loads chans conn_info
                    steps)).
Proof.
  unfold iter_order_notifications. cbn [yields].
  constructor; [|apply relay_yields_have_event].
  destruct diagnostic_has_event as (kv & E & He).
  now exists kv, (JStr "diagnostic").
Qed.

Lemma frames_of_dicts (es : list Emit) :
  Forall (fun obj => exists kv ev, obj = JObj kv
                                   /\ dict_get "event" kv = Some ev)
         (yields es) ->
  frames json_dumps py_str es
  = Some (flat_map (chunks_of json_dumps py_str) (yields es)).
Proof.
  induction es as [|[obj|ms] es IH]; cbn [yields frames flat_map].
  - reflexivity.
  - intros H. inversion H as [|? ? (kv & ev & -> & He) Hr]; subst.
    rewrite (IH Hr). reflexivity.
  - exact IH.
Qed.

(** X27: the stream of the view never fails on a relayed message: after
    the bootstrap frame it emits, for every object the relay yields and
    in the same order, an event line and a data line, and nothing for a
    sleep of the relay. *)
Theorem stream_frames_every_message (bootstrap : json)
  (steps : list Step) :
  stream json_loads chans conn_info json_dumps py_str bootstrap steps
  = Some (("event: bootstrap" ++ nl)%string
          :: ("data: " ++ json_dumps bootstrap ++ nl ++ nl)%string
          :: flat_map (chunks_of json_dumps py_str)
               (yields (iter_order_notifications json_loads chans
                          conn_info steps)))
  /\ Forall (fun obj => List.length (chunks_of json_dumps py_str obj) = 2%nat)
            (yields (iter_order_notifications json_loads chans conn_info
                       steps)).
Proof.
  assert (H : Forall (fun obj => exists kv ev,
                          obj = JObj kv /\ dict_get "event" kv = Some ev)
                (yields (iter_order_notifications json_loads chans
                           conn_info steps))).
  { unfold iter_order_notifications. cbn [yields].
    constructor; [|apply relay_yields_have_event].
    destruct diagnostic_has_event as (kv & E & He).
    now exists kv, (JStr "diagnostic"). }
  split.
  - unfold stream. now rewrite (frames_of_dicts _ H).
  - eapply Forall_impl; [|exact H].
    intros obj (kv & ev & -> & _). reflexivity.
Qed.

Lemma relay_sleeps (k : nat) (steps : list Step) :
  sleeps (relay json_loads chans conn_info
            (Z.min (500 * 2 ^ Z.of_nat k) 10000) steps)
  = map (fun i => Z.min (500 * 2 ^ Z.of_nat i) 10000)
        (seq k (errors steps)).
Proof.
  revert k.
  induction steps as [|[notes| |] rest IH]; intros k;
    cbn [relay errors seq map].
  - reflexivity.
  - rewrite <- IH. induction notes as [|n notes IHn]; cbn [map app sleeps];
      [reflexivity|exact IHn].
  - apply IH.
  - cbn [sleeps]. f_equal. rewrite <- IH. do 2 f_equal.
    assert (Hp : 2 ^ Z.of_nat (S k) = 2 * 2 ^ Z.of_nat k)
      by (rewrite Nat2Z.inj_succ, Z.pow_succ_r by lia; reflexivity).
    assert (H0 : 0 < 2 ^ Z.of_nat k) by (apply Z.pow_pos_nonneg; lia).
    rewrite Hp. lia.
Qed.

(** X28: the pauses of the relay depend only on how often the connection
    was lost: the k-th pause is min(0.5 s * 2^k, 10 s), however many
    notifications were relayed in between; the backoff is never reset. *)
Theorem backoff_never_resets (steps : list Step) :
  sleeps (iter_order_notifications json_loads chans conn_info steps)
  = map (fun k => Z.min (500 * 2 ^ Z.of_nat k) 10000)
        (seq 0 (errors steps)).
Proof.
  unfold iter_order_notifications. cbn [sleeps].
  exact (relay_sleeps 0 steps).
Qed.


Lemma frames_app (a b : list Emit) :
  frames json_dumps py_str (a ++ b)
  = match frames json_dumps py_str a, frames json_dumps py_str b with
    | Some x, Some y => Some (x ++ y)
    | _, _ => None
    end.
Proof.
  induction a as [|[obj|ms] a IH]; cbn [app frames].
  - now destruct (frames json_dumps py_str b).
  - destruct (frame json_dumps py_str obj) as [f|]; [|reflexivity].
    rewrite IH.
    destruct (frames json_dumps py_str a) as [x|]; [|reflexivity].
    destruct (frames json_dumps py_str b) as [y|]; [|reflexivity].
    now rewrite app_assoc.
  - exact IH.
Qed.



End StreamFacts.


